(** * HTTP client compatibility layer: the aiohttp fallback backend

    A shallow embedding of [app/core/http_client.py]: the proxy resolver
    ([_normalize_proxies], [_pick_proxy]), the SSL context builder
    ([_ssl_for_verify]), the response wrapper ([_AiohttpResponse]) and the
    fallback session ([_AiohttpAsyncSession]).

    Python dictionaries with string keys are finite maps ([gmap string _]);
    a dictionary that is iterated in insertion order is an association list.
    Exceptions are values of type [exc]; code that can raise returns a sum. *)

From Stdlib Require Import ZArith NArith Ascii String List Lia.
From Stdlib.Strings Require Import Byte.
From stdpp Require Import base option list gmap strings pretty.
From Equations Require Import Equations.

Local Open Scope string_scope.
Local Open Scope list_scope.

(** ** Python strings

    A [str] is held as its UTF-8 encoding, one [ascii] per byte. *)

Module PyString.

Fixpoint map (f : ascii -> ascii) (s : string) : string :=
  match s with
  | EmptyString => EmptyString
  | String c s' => String (f c) (map f s')
  end.

Definition in_range (lo hi : N) (c : ascii) : bool :=
  let n := N_of_ascii c in (lo <=? n)%N && (n <=? hi)%N.

Definition is_upper (c : ascii) : bool := in_range 65 90 c.
Definition is_lower (c : ascii) : bool := in_range 97 122 c.
Definition is_digit (c : ascii) : bool := in_range 48 57 c.
Definition is_alpha (c : ascii) : bool := is_upper c || is_lower c.

Definition lower_char (c : ascii) : ascii :=
  if is_upper c then ascii_of_N (N_of_ascii c + 32) else c.

Definition upper_char (c : ascii) : ascii :=
  if is_lower c then ascii_of_N (N_of_ascii c - 32) else c.

Definition is_byte (n : N) (c : ascii) : bool := (N_of_ascii c =? n)%N.

(** [s.lower()].  Besides the ASCII capitals, two characters have a lower
    case with an ASCII letter in it: LATIN CAPITAL LETTER I WITH DOT ABOVE
    (U+0130, the bytes C4 B0) gives [i] followed by U+0307 (CC 87), and
    KELVIN SIGN (U+212A, the bytes E2 84 AA) gives [k].  Every other
    character outside ASCII is kept as it is: its lower case lies outside
    ASCII too, and the module only compares lower-cased text with ASCII
    words. *)
Fixpoint lower (s : string) : string :=
  match s with
  | EmptyString => EmptyString
  | String c s' =>
      let plain := String (lower_char c) (lower s') in
      match s' with
      | String c1 s1 =>
          if is_byte 196 c && is_byte 176 c1
          then String "i" (String (ascii_of_N 204)
                             (String (ascii_of_N 135) (lower s1)))
          else match s1 with
               | String c2 s2 =>
                   if is_byte 226 c && is_byte 132 c1 && is_byte 170 c2
                   then String "k" (lower s2)
                   else plain
               | EmptyString => plain
               end
      | EmptyString => plain
      end
  end.

(** [s.upper()], on ASCII text *)
Definition upper : string -> string := map upper_char.

(** [s.startswith(p)] *)
Fixpoint startswith (p s : string) : bool :=
  match p, s with
  | EmptyString, _ => true
  | String a p', String b s' => if ascii_dec a b then startswith p' s' else false
  | String _ _, EmptyString => false
  end.

(** [bool(s)] *)
Definition nonempty (s : string) : bool :=
  match s with EmptyString => false | String _ _ => true end.

Fixpoint forallb (f : ascii -> bool) (s : string) : bool :=
  match s with
  | EmptyString => true
  | String c s' => f c && forallb f s'
  end.

Fixpoint filter (f : ascii -> bool) (s : string) : string :=
  match s with
  | EmptyString => EmptyString
  | String c s' => if f c then String c (filter f s') else filter f s'
  end.

(** [s.lstrip(chars)] for the characters satisfying [f] *)
Fixpoint lstrip (f : ascii -> bool) (s : string) : string :=
  match s with
  | EmptyString => EmptyString
  | String c s' => if f c then lstrip f s' else s
  end.

(** [s.partition(c)]: the text before the first [c] and the text after it,
    [None] when [c] does not occur ([s.find(c) == -1]). *)
Fixpoint split_at (c : ascii) (s : string) : option (string * string) :=
  match s with
  | EmptyString => None
  | String a s' =>
      if ascii_dec a c then Some (EmptyString, s')
      else match split_at c s' with
           | Some (pre, post) => Some (String a pre, post)
           | None => None
           end
  end.

End PyString.

(** ** Python values

    The code receives its options as [Any].  What it does with such a value
    is limited to [not v], [str(v)], [v in (...)], [float(v)] and the two
    [isinstance] tests against [dict] and [str].  A number that is neither
    an [int] nor a [bool] (a [float], a [complex], a [Decimal], a
    [Fraction]) is represented by the integer it is equal to, if there is
    one, and its [str()]: [0.0] and [-0.0] are [PyNum (Some 0) "0.0"] and
    [PyNum (Some 0) "-0.0"], [0.5] is [PyNum None "0.5"].  An object of any
    other class, with the equality of [object], is represented by its truth
    value and its [str()]. *)

Inductive pyobj : Type :=
| PyNone
| PyBool (b : bool)
| PyInt (n : Z)
| PyStr (s : string)
| PyNum (value : option Z) (text : string)
| PyOther (truth : bool) (text : string).

Inductive pyval : Type :=
| PyObj (o : pyobj)
| PyDict (items : list (pyobj * pyobj)).

Coercion PyObj : pyobj >-> pyval.

#[export] Instance pyobj_eq_dec : EqDecision pyobj.
Proof. solve_decision. Defined.

#[export] Instance pyval_eq_dec : EqDecision pyval.
Proof. solve_decision. Defined.

(** The integer a value is equal to: [bool] is a subclass of [int], with
    [False == 0] and [True == 1]. *)
Definition as_int (o : pyobj) : option Z :=
  match o with
  | PyBool b => Some (if b then 1 else 0)%Z
  | PyInt n => Some n
  | PyNum value _ => value
  | _ => None
  end.

(** [bool(o)]: a number is false when it is zero. *)
Definition truthy (o : pyobj) : bool :=
  match o with
  | PyNone => false
  | PyBool b => b
  | PyInt n => negb (n =? 0)%Z
  | PyStr s => PyString.nonempty s
  | PyNum value _ => negb (bool_decide (value = Some 0%Z))
  | PyOther t _ => t
  end.

Definition py_truth (v : pyval) : bool :=
  match v with
  | PyObj o => truthy o
  | PyDict items => match items with [] => false | _ :: _ => true end
  end.

(** [str(o)] *)
Definition py_str (o : pyobj) : string :=
  match o with
  | PyNone => "None"
  | PyBool true => "True"
  | PyBool false => "False"
  | PyInt n => pretty n
  | PyStr s => s
  | PyNum _ text => text
  | PyOther _ text => text
  end.

(** The literals a tuple display of the module holds. *)
Inductive literal : Type :=
| LitBool (b : bool)
| LitInt (n : Z)
| LitStr (s : string).

Definition literal_value (t : literal) : pyobj :=
  match t with
  | LitBool b => PyBool b
  | LitInt n => PyInt n
  | LitStr s => PyStr s
  end.

(** [a == t] for a literal [t]: numbers, [bool] among them, compare by
    value, whatever their class; a [str] is equal to a [str] with the same
    characters only; [None] and an object of another class are equal to no
    literal. *)
Definition py_eq (a : pyobj) (t : literal) : bool :=
  match t with
  | LitBool b => bool_decide (as_int a = Some (if b then 1 else 0)%Z)
  | LitInt n => bool_decide (as_int a = Some n)
  | LitStr s =>
      match a with
      | PyStr s' => bool_decide (s' = s)
      | _ => false
      end
  end.

(** [v in (t1, ..., tn)]: [v == ti] for some [i]. *)
Definition py_in (v : pyobj) (tuple : list literal) : bool :=
  existsb (py_eq v) tuple.

(** [a or b] on optional strings, as [dict.get] returns them *)
Definition py_or (a b : option string) : option string :=
  match a with
  | Some s => if PyString.nonempty s then a else b
  | None => b
  end.

(** ** Proxy resolver *)

Definition is_proxy_scheme (k : string) : bool :=
  bool_decide (k = "http" ∨ k = "https").

(** One iteration of the loop of [_normalize_proxies]. *)
Definition normalize_step (out : gmap string string) (item : pyobj * pyobj)
  : gmap string string :=
  let '(key, proxy) := item in
  if negb (truthy proxy) then out
  else
    let k := PyString.lower (py_str key) in
    if is_proxy_scheme k then <[k := py_str proxy]> out else out.

Definition _normalize_proxies (value : pyval) : option (gmap string string) :=
  if negb (py_truth value) then None
  else
    match value with
    | PyDict items =>
        let out := foldl normalize_step ∅ items in
        if decide (out = ∅) then None else Some out
    | PyObj (PyStr s) => Some (<["https" := s]> (<["http" := s]> ∅))
    | PyObj _ => None
    end.

(** A model of [urllib.parse.urlsplit], which [urlparse] calls: leading C0
    controls and spaces are stripped, tab, CR and LF are removed, and the
    text before the first colon is the scheme when it starts with a letter
    and consists of letters, digits, [+], [-] and [.]; the scheme is
    returned in lower case, and is empty otherwise.  What follows [//] up to
    the first [/], [?] or [#] is the network location, and a URL whose
    network location holds one of [[] and []] without the other is
    rejected. *)
Module UrlParse.

Definition c0_or_space (c : ascii) : bool := (N_of_ascii c <=? 32)%N.

Definition unsafe (c : ascii) : bool :=
  let n := N_of_ascii c in (n =? 9)%N || (n =? 10)%N || (n =? 13)%N.

Definition scheme_char (c : ascii) : bool :=
  PyString.is_alpha c || PyString.is_digit c
  || (let n := N_of_ascii c in (n =? 43)%N || (n =? 45)%N || (n =? 46)%N).

(** The scheme and the rest of the URL. *)
Definition split_scheme (url : string) : string * string :=
  let url := PyString.lstrip c0_or_space url in
  let url := PyString.filter (fun c => negb (unsafe c)) url in
  match PyString.split_at ":" url with
  | Some (String c0 pre, rest) =>
      if PyString.is_alpha c0 && PyString.forallb scheme_char (String c0 pre)
      then (PyString.lower (String c0 pre), rest)
      else ("", url)
  | _ => ("", url)
  end.

Definition scheme (url : string) : string := fst (split_scheme url).

Definition ends_netloc (c : ascii) : bool :=
  let n := N_of_ascii c in (n =? 47)%N || (n =? 63)%N || (n =? 35)%N.

Fixpoint until_delimiter (s : string) : string :=
  match s with
  | EmptyString => EmptyString
  | String c s' => if ends_netloc c then EmptyString else String c (until_delimiter s')
  end.

Definition netloc (url : string) : string :=
  match snd (split_scheme url) with
  | String "/" (String "/" s) => until_delimiter s
  | _ => ""
  end.

Fixpoint contains (c : ascii) (s : string) : bool :=
  match s with
  | EmptyString => false
  | String a s' => if ascii_dec a c then true else contains c s'
  end.

Definition unbalanced_brackets (url : string) : bool :=
  xorb (contains "[" (netloc url)) (contains "]" (netloc url)).

End UrlParse.

(** ** Proxy configuration of a session and of a request *)

(** The proxy part of [_AiohttpAsyncSession.__init__]: the value stored in
    [self._default_proxies]. *)
Definition init_default_proxies (proxy : pyobj) (proxies : pyval)
  : option (gmap string string) :=
  let proxy_map := _normalize_proxies proxies in
  if truthy proxy then
    let m := default ∅ proxy_map in
    Some (<["https" := py_str proxy]> (<["http" := py_str proxy]> m))
  else proxy_map.

(** [d.update(extra)] *)
Definition dict_update (d extra : gmap string string) : gmap string string :=
  extra ∪ d.

(** The effective proxy map of [_AiohttpAsyncSession.request]. *)
Definition request_proxy_map (default_proxies : option (gmap string string))
    (proxy : pyobj) (proxies : pyval) : gmap string string :=
  let proxy_map := default ∅ default_proxies in
  let extra := _normalize_proxies proxies in
  let proxy_map :=
    match extra with
    | Some e => if decide (e = ∅) then proxy_map else dict_update proxy_map e
    | None => proxy_map
    end in
  if truthy proxy then
    <["https" := py_str proxy]> (<["http" := py_str proxy]> proxy_map)
  else proxy_map.

(** ** Bytes and text

    A [bytes] object is a list of bytes; a [str] holding decoded body text is
    the list of its code points. *)

Definition bytes := list byte.
Definition text := list N.

Module Utf8.

Definition replacement : N := 65533.

Definition is_cont (b : N) : bool := (128 <=? b)%N && (b <=? 191)%N.

Definition payload (b : N) : N := N.land b 63.

(** [bytes.decode("utf-8", errors="replace")]: a well-formed sequence gives
    its code point; an invalid start byte, a truncated sequence at the end
    of the input, or the valid prefix of a sequence cut by a byte that
    cannot continue it, gives one U+FFFD, and decoding resumes at the
    offending byte.  [fuel] bounds the number of bytes left. *)
Fixpoint decode_from (fuel : nat) (bs : list N) : text :=
  match fuel with
  | O => []
  | S fuel =>
      match bs with
      | [] => []
      | b0 :: r0 =>
          if (b0 <? 128)%N then b0 :: decode_from fuel r0
          else if (b0 <? 194)%N then replacement :: decode_from fuel r0
          else if (b0 <? 224)%N then
            match r0 with
            | [] => [replacement]
            | b1 :: r1 =>
                if is_cont b1
                then (N.shiftl (N.land b0 31) 6 + payload b1)%N
                       :: decode_from fuel r1
                else replacement :: decode_from fuel r0
            end
          else if (b0 <? 240)%N then
            match r0 with
            | [] => [replacement]
            | b1 :: r1 =>
                if is_cont b1
                   && negb ((b0 =? 224)%N && (b1 <? 160)%N)
                   && negb ((b0 =? 237)%N && (160 <=? b1)%N)
                then
                  match r1 with
                  | [] => [replacement]
                  | b2 :: r2 =>
                      if is_cont b2
                      then (N.shiftl (N.land b0 15) 12
                            + N.shiftl (payload b1) 6 + payload b2)%N
                             :: decode_from fuel r2
                      else replacement :: decode_from fuel r1
                  end
                else replacement :: decode_from fuel r0
            end
          else if (b0 <? 245)%N then
            match r0 with
            | [] => [replacement]
            | b1 :: r1 =>
                if is_cont b1
                   && negb ((b0 =? 240)%N && (b1 <? 144)%N)
                   && negb ((b0 =? 244)%N && (144 <=? b1)%N)
                then
                  match r1 with
                  | [] => [replacement]
                  | b2 :: r2 =>
                      if is_cont b2 then
                        match r2 with
                        | [] => [replacement]
                        | b3 :: r3 =>
                            if is_cont b3
                            then (N.shiftl (N.land b0 7) 18
                                  + N.shiftl (payload b1) 12
                                  + N.shiftl (payload b2) 6 + payload b3)%N
                                   :: decode_from fuel r3
                            else replacement :: decode_from fuel r2
                        end
                      else replacement :: decode_from fuel r1
                  end
                else replacement :: decode_from fuel r0
            end
          else replacement :: decode_from fuel r0
      end
  end.

Definition decode (b : bytes) : text :=
  decode_from (length b) (List.map Byte.to_N b).

End Utf8.

Module PyText.

Definition LF : N := 10.
Definition CR : N := 13.

(** [str.splitlines] boundaries: LF, VT, FF, CR, FS, GS, RS, NEL, LS, PS. *)
Definition is_linebreak (c : N) : bool :=
  ((10 <=? c) && (c <=? 13) || (28 <=? c) && (c <=? 30)
   || (c =? 133) || (c =? 8232) || (c =? 8233))%N.

(** [t.splitlines()]: [cur] is the line being read, in reverse.  A CR
    directly followed by LF is one boundary; no empty line is produced
    after a final boundary. *)
Fixpoint splitlines_from (cur : text) (t : text) : list text :=
  match t with
  | [] => match cur with [] => [] | _ :: _ => [rev cur] end
  | c :: t' =>
      if is_linebreak c then
        match t' with
        | d :: t'' =>
            if (c =? CR)%N && (d =? LF)%N
            then rev cur :: splitlines_from [] t''
            else rev cur :: splitlines_from [] t'
        | [] => rev cur :: splitlines_from [] t'
        end
      else splitlines_from (c :: cur) t'
  end.

Definition splitlines (t : text) : list text := splitlines_from [] t.

(** [t.rstrip("\r")]: every trailing CR is removed. *)
Fixpoint rstrip_cr (t : text) : text :=
  match t with
  | [] => []
  | c :: t' =>
      match rstrip_cr t' with
      | [] => if (c =? CR)%N then [] else [c]
      | r => c :: r
      end
  end.

(** A literal, for examples. *)
Definition of_string (s : string) : text :=
  List.map N_of_ascii (list_ascii_of_string s).

End PyText.

Module PyBytes.

Definition LF : byte := x0a.

Definition is_lf (b : byte) : bool := Byte.eqb b LF.

(** [b"\n" in buf] and [buf.split(b"\n", 1)] in one: the bytes before the
    first LF and those after it, [None] when [buf] holds no LF. *)
Fixpoint split1 (buf : bytes) : option (bytes * bytes) :=
  match buf with
  | [] => None
  | b :: buf' =>
      if is_lf b then Some ([], buf')
      else match split1 buf' with
           | Some (raw, rest) => Some (b :: raw, rest)
           | None => None
           end
  end.

Definition of_string (s : string) : bytes := list_byte_of_string s.

End PyBytes.

(** ** Exceptions and effects *)

(** The exception classes the module distinguishes.  [ClientError] stands for
    [aiohttp.ClientError] and its subclasses, [TimeoutError] for
    [asyncio.TimeoutError]; [RequestsError] is the module's own error type;
    [OtherException] is any further subclass of [Exception]. *)
Inductive exc_class : Type :=
| ClientError
| TimeoutError
| RequestsError
| RuntimeError
| OtherException (name : string).

(** An exception instance: its class and its [str()]; [ExcFrom] is an
    exception raised [from] another one, which is its [__cause__]. *)
Inductive exc : Type :=
| Exc (cls : exc_class) (msg : string)
| ExcFrom (cls : exc_class) (msg : string) (cause : exc).

Definition exc_cls (e : exc) : exc_class :=
  match e with Exc c _ | ExcFrom c _ _ => c end.

Definition exc_msg (e : exc) : string :=
  match e with Exc _ m | ExcFrom _ m _ => m end.

Definition exc_cause (e : exc) : option exc :=
  match e with Exc _ _ => None | ExcFrom _ _ c => Some c end.

Inductive result (A : Type) : Type :=
| Return (a : A)
| Raise (e : exc).
Arguments Return {A} a.
Arguments Raise {A} e.

(** Computations over a state [S] that may raise. *)
Definition M (S A : Type) : Type := S -> result A * S.

Definition ret {S A} (a : A) : M S A := fun s => (Return a, s).

Definition bind {S A B} (m : M S A) (k : A -> M S B) : M S B :=
  fun s =>
    match m s with
    | (Return a, s') => k a s'
    | (Raise e, s') => (Raise e, s')
    end.

Definition raise {S A} (e : exc) : M S A := fun s => (Raise e, s).

(** A call that returns or raises without an effect of its own. *)
Definition lift {S A} (r : result A) : M S A := fun s => (r, s).

Definition modify {S} (f : S -> S) : M S unit := fun s => (Return tt, f s).

(** [try: m except Exception as e: h e] *)
Definition try_except {S A} (m : M S A) (h : exc -> M S A) : M S A :=
  fun s =>
    match m s with
    | (Return a, s') => (Return a, s')
    | (Raise e, s') => h e s'
    end.

(** [try: m finally: f] *)
Definition try_finally {S A} (m : M S A) (f : M S unit) : M S A :=
  fun s =>
    match m s with
    | (Return a, s') =>
        match f s' with
        | (Return _, s'') => (Return a, s'')
        | (Raise e, s'') => (Raise e, s'')
        end
    | (Raise e, s') =>
        match f s' with
        | (Return _, s'') => (Raise e, s'')
        | (Raise e', s'') => (Raise e', s'')
        end
    end.

Declare Scope py_scope.
Delimit Scope py_scope with py.
Notation "x <- m ;; k" := (bind m (fun x => k))
  (at level 100, m at next level, right associativity) : py_scope.
Notation "m ;; k" := (bind m (fun _ => k))
  (at level 100, right associativity) : py_scope.

(** The loop [while b"\n" in buf: raw, buf = buf.split(b"\n", 1); yield raw]
    of [aiter_lines]: the raw lines it yields and the buffer it leaves. *)
Equations? drain_lines (buf : bytes) : list bytes * bytes
  by wf (length buf) lt :=
  drain_lines buf with Equations.Prop.Logic.inspect (PyBytes.split1 buf) := {
    | exist _ (Some (raw, rest)) _ =>
        (raw :: fst (drain_lines rest), snd (drain_lines rest));
    | exist _ None _ => ([], buf) }.
Proof.
  all: match goal with H : PyBytes.split1 _ = Some _ |- _ => revert H end.
  all: clear drain_lines; revert raw rest.
  all: induction buf as [|b buf IH]; intros raw rest; simpl; [discriminate|].
  all: destruct (PyBytes.is_lf b); [intros [= _ <-]; lia|].
  all: destruct (PyBytes.split1 buf) as [[raw' rest']|] eqn:E; [|discriminate].
  all: intros [= _ <-]; specialize (IH _ _ eq_refl); lia.
Qed.

(** ** The fallback backend *)

Section Backend.

Set Default Proof Using "Type".

(** The Python [float] type and [float(v)], which returns a float or
    raises. *)
Variable pyfloat : Type.
Variable py_float : pyobj -> result pyfloat.

(** [certifi.where()] *)
Variable certifi_where : string.

(** [json.loads] on decoded text *)
Variable json_loads : text -> result pyval.

Definition _to_timeout (value : pyobj) : option pyfloat :=
  match value with
  | PyNone => None
  | _ =>
      match py_float value with
      | Return f => Some f
      | Raise _ => None
      end
  end.

(** *** SSL context builder *)

Record SSLContext : Type := mkSSLContext {
  check_hostname : bool;
  cert_required : bool;
  verify_locations : list string
}.

(** [ssl.create_default_context()] *)
Definition create_default_context : SSLContext :=
  {| check_hostname := true; cert_required := true; verify_locations := [] |}.

(** [ctx.load_verify_locations(cafile)] *)
Definition load_verify_locations (ctx : SSLContext) (cafile : string)
  : SSLContext :=
  {| check_hostname := check_hostname ctx;
     cert_required := cert_required ctx;
     verify_locations := verify_locations ctx ++ [cafile] |}.

(** The value given to aiohttp as [ssl=]: [False] or a context. *)
Inductive ssl_param : Type :=
| SslFalse
| SslContext (ctx : SSLContext).

Definition verify_off_tokens : list literal :=
  [LitBool false; LitInt 0; LitStr "0"; LitStr "false"; LitStr "False";
   LitStr "no"; LitStr "off"].

Definition _ssl_for_verify (verify : pyobj) : ssl_param :=
  if py_in verify verify_off_tokens then SslFalse
  else
    let ctx := create_default_context in
    let ctx := load_verify_locations ctx certifi_where in
    SslContext ctx.

(** *** The engine: aiohttp objects *)

Record ClientTimeout : Type := mkClientTimeout { total : pyfloat }.

Inductive connector : Type :=
| TCPConnector (ssl : ssl_param)
| SocksConnector (url : string).

(** [aiohttp.ClientSession]: its configuration, its [closed] property and
    the exception its [close()] raises, if any. *)
Record ClientSession : Type := mkClientSession {
  cs_headers : pyobj;
  cs_cookies : pyobj;
  cs_timeout : option ClientTimeout;
  cs_connector : connector;
  cs_trust_env : bool;
  closed : bool;
  cs_close_error : option exc
}.

(** [aiohttp.ClientResponse]: [content] is what is left of the body stream,
    as the chunks [content.iter_chunked] delivers; [stream_error] is raised
    by the stream once they are consumed; [release_error] is raised by
    [release()]. *)
Record ClientResponse : Type := mkClientResponse {
  status : Z;
  cr_headers : list (string * string);
  content : list bytes;
  stream_error : option exc;
  release_error : option exc
}.

(** A value among the keyword arguments aiohttp receives with a request: a
    keyword of the caller, forwarded as it is, or one set by the module. *)
Inductive engine_arg : Type :=
| ArgPy (v : pyobj)
| ArgTimeout (t : ClientTimeout)
| ArgSsl (s : ssl_param).

(** The keyword arguments aiohttp receives with a request: the one [kwargs]
    dict of [request], as it stands when the request is sent. *)
Abbreviation passed_kwargs := (gmap string engine_arg).

(** [kwargs.get("timeout")], when it is an [aiohttp.ClientTimeout] *)
Definition pk_timeout (k : passed_kwargs) : option ClientTimeout :=
  match k !! "timeout" with
  | Some (ArgTimeout t) => Some t
  | _ => None
  end.

(** One call of [ClientSession.request]; [ec_proxy] is the [proxy=]
    keyword, which only the persistent session is given. *)
Record engine_call : Type := mkCall {
  ec_session : ClientSession;
  ec_method : string;
  ec_url : string;
  ec_allow_redirects : pyobj;
  ec_proxy : option (option string);
  ec_kwargs : passed_kwargs
}.

(** What the code does to the engine, in order. *)
Inductive event : Type :=
| EvOpenSession (s : ClientSession)
| EvSend (c : engine_call)
| EvRead
| EvRelease
| EvCloseSession.

(** The state of a computation: the object it runs on and the engine
    events so far. *)
Record St (O : Type) : Type := mkSt { obj : O; log : list event }.
Arguments mkSt {O} obj log.
Arguments obj {O} s.
Arguments log {O} s.

Definition emit {O} (ev : event) : M (St O) unit :=
  modify (fun s => mkSt (obj s) (log s ++ [ev])).

Definition this {O} : M (St O) O := fun s => (Return (obj s), s).

Definition update {O} (f : O -> O) : M (St O) unit :=
  modify (fun s => mkSt (f (obj s)) (log s)).

(** Run a method of [o] from a computation on another object. *)
Definition on_object {O R A} (o : R) (m : M (St R) A) : M (St O) (A * R) :=
  fun s =>
    match m (mkSt o (log s)) with
    | (Return a, s') => (Return (a, obj s'), mkSt (obj s) (log s'))
    | (Raise e, s') => (Raise e, mkSt (obj s) (log s'))
    end.

(** [await resp.read()] *)
Definition cr_read (cr : ClientResponse) : result bytes * ClientResponse :=
  let cr' := {| status := status cr; cr_headers := cr_headers cr;
                content := []; stream_error := stream_error cr;
                release_error := release_error cr |} in
  match stream_error cr with
  | Some e => (Raise e, cr')
  | None => (Return (concat (content cr)), cr')
  end.

Definition set_content (chunks : list bytes) (cr : ClientResponse)
  : ClientResponse :=
  {| status := status cr; cr_headers := cr_headers cr;
     content := chunks; stream_error := stream_error cr;
     release_error := release_error cr |}.

Definition set_closed (cs : ClientSession) : ClientSession :=
  {| cs_headers := cs_headers cs; cs_cookies := cs_cookies cs;
     cs_timeout := cs_timeout cs; cs_connector := cs_connector cs;
     cs_trust_env := cs_trust_env cs; closed := true;
     cs_close_error := cs_close_error cs |}.

(** *** Response wrapper *)

Record _AiohttpResponse : Type := mkResponse {
  _response : ClientResponse;
  _body : option bytes;
  _closed : bool;
  _owned_session : option ClientSession;
  status_code : Z;
  headers : list (string * string)
}.

(** [_AiohttpResponse.__init__] *)
Definition new_response (response : ClientResponse) (body : option bytes)
    (owned_session : option ClientSession) : _AiohttpResponse :=
  {| _response := response; _body := body; _closed := false;
     _owned_session := owned_session;
     status_code := status response; headers := cr_headers response |}.

Definition with_response (f : ClientResponse -> ClientResponse)
    (r : _AiohttpResponse) : _AiohttpResponse :=
  {| _response := f (_response r); _body := _body r; _closed := _closed r;
     _owned_session := _owned_session r;
     status_code := status_code r; headers := headers r |}.

Definition with_body (b : option bytes) (r : _AiohttpResponse)
  : _AiohttpResponse :=
  {| _response := _response r; _body := b; _closed := _closed r;
     _owned_session := _owned_session r;
     status_code := status_code r; headers := headers r |}.

Definition with_closed (c : bool) (r : _AiohttpResponse)
  : _AiohttpResponse :=
  {| _response := _response r; _body := _body r; _closed := c;
     _owned_session := _owned_session r;
     status_code := status_code r; headers := headers r |}.

Definition with_owned_session (f : ClientSession -> ClientSession)
    (r : _AiohttpResponse) : _AiohttpResponse :=
  {| _response := _response r; _body := _body r; _closed := _closed r;
     _owned_session := f <$> _owned_session r;
     status_code := status_code r; headers := headers r |}.

Local Open Scope py_scope.

Definition RespM (A : Type) : Type := M (St _AiohttpResponse) A.

(** [self._response.release()] *)
Definition release : RespM unit :=
  emit EvRelease;;
  r <- this;;
  match release_error (_response r) with
  | Some e => raise e
  | None => ret tt
  end.

(** [await self._owned_session.close()] *)
Definition owned_session_close (s : ClientSession) : RespM unit :=
  emit EvCloseSession;;
  match cs_close_error s with
  | Some e => raise e
  | None => update (with_owned_session set_closed)
  end.

(** [await self._response.read()] *)
Definition read : RespM bytes :=
  emit EvRead;;
  r <- this;;
  let '(res, cr) := cr_read (_response r) in
  update (with_response (fun _ => cr));;
  match res with
  | Return b => ret b
  | Raise e => raise e
  end.

(** [await asyncio.sleep(0)]: a scheduling point. *)
Definition sleep0 : RespM unit := ret tt.

Definition close : RespM unit :=
  r <- this;;
  if _closed r then ret tt
  else
    update (with_closed true);;
    try_except release (fun _ => ret tt);;
    match _owned_session r with
    | Some s =>
        if negb (closed s)
        then try_except (owned_session_close s) (fun _ => ret tt)
        else ret tt
    | None => ret tt
    end;;
    sleep0.

Definition __aexit__ : RespM unit := close.

Definition _read_body : RespM bytes :=
  r <- this;;
  match _body r with
  | None =>
      b <- read;;
      update (with_body (Some b));;
      close;;
      ret b
  | Some b => ret b
  end.

(** The [content] property *)
Definition content_property (r : _AiohttpResponse) : bytes :=
  match _body r with
  | Some ((_ :: _) as b) => b
  | _ => []
  end.

Definition text_ : RespM text :=
  body <- _read_body;;
  ret (Utf8.decode body).

Definition json (r : _AiohttpResponse) : result pyval :=
  match _body r with
  | None =>
      Raise (Exc RuntimeError
               "JSON body not available yet. Read stream content first.")
  | Some [] => Return (PyDict [])
  | Some body => json_loads (Utf8.decode body)
  end.

(** *** Iteration

    An asynchronous generator is run against its consumer: [demand] is
    [None] for a consumer that iterates to the end and [Some n] for one
    that leaves the loop on receiving item [n + 1].  The result is what was
    yielded and how the generator ended.  A generator whose consumer left is
    [Abandoned]: it stays suspended at its [yield], and the [finally] clause
    around the loop has not run; it runs when the generator ends, fails or
    is finalized. *)

Inductive ending : Type :=
| Exhausted
| Abandoned
| Failed (e : exc).

Record generated (A : Type) : Type :=
  mkGen { yielded : list A; ended : ending }.
Arguments mkGen {A} yielded ended.
Arguments yielded {A} g.
Arguments ended {A} g.

(** Yield [items] in order: what the consumer receives, and its remaining
    demand unless it left the loop. *)
Definition serve {A} (demand : option nat) (items : list A)
  : list A * option (option nat) :=
  match demand with
  | None => (items, Some None)
  | Some n =>
      if (n <? length items)%nat then (take (S n) items, None)
      else (items, Some (Some (n - length items)))
  end.

Definition finish {A} (items : list A) (served : list A * option (option nat))
  : generated A :=
  match served with
  | (ys, None) => mkGen (items ++ ys) Abandoned
  | (ys, Some _) => mkGen (items ++ ys) Exhausted
  end.

(** The loop of [aiter_content] over the live stream: the chunks yielded,
    the chunks left in the stream, and whether the consumer left. *)
Fixpoint content_loop (chunks : list bytes) (demand : option nat)
  : list bytes * list bytes * bool :=
  match chunks with
  | [] => ([], [], false)
  | chunk :: chunks' =>
      match chunk with
      | [] => content_loop chunks' demand
      | _ :: _ =>
          match serve demand [chunk] with
          | (ys, None) => (ys, chunks', true)
          | (ys, Some d) =>
              let '(zs, rest, gone) := content_loop chunks' d in
              (ys ++ zs, rest, gone)
          end
      end
  end.

Definition aiter_content (chunk_size : Z) (demand : option nat)
  : RespM (generated bytes) :=
  r <- this;;
  match _body r with
  | Some body =>
      ret (finish [] (serve demand (match body with [] => [] | _ => [body] end)))
  | None =>
      let '(ys, rest, gone) := content_loop (content (_response r)) demand in
      update (with_response (set_content rest));;
      if gone then ret (mkGen ys Abandoned)
      else
        try_finally
          (match stream_error (_response r) with
           | Some e => ret (mkGen ys (Failed e))
           | None => ret (mkGen ys Exhausted)
           end)
          close
  end.

(** [raw.decode("utf-8", errors="replace").rstrip("\r")] *)
Definition decode_line (raw : bytes) : text :=
  PyText.rstrip_cr (Utf8.decode raw).

(** The loop of [aiter_lines] over the live stream: the lines yielded, the
    chunks left in the stream and, unless the consumer left, the final
    buffer with the remaining demand. *)
Fixpoint lines_loop (buf : bytes) (chunks : list bytes) (demand : option nat)
  : list text * list bytes * option (bytes * option nat) :=
  match chunks with
  | [] => ([], [], Some (buf, demand))
  | chunk :: chunks' =>
      match chunk with
      | [] => lines_loop buf chunks' demand
      | _ :: _ =>
          let '(raws, buf') := drain_lines (buf ++ chunk) in
          match serve demand (List.map decode_line raws) with
          | (ys, None) => (ys, chunks', None)
          | (ys, Some d) =>
              let '(zs, rest, fin) := lines_loop buf' chunks' d in
              (ys ++ zs, rest, fin)
          end
      end
  end.

Definition aiter_lines (demand : option nat) : RespM (generated text) :=
  r <- this;;
  match _body r with
  | Some body =>
      let text := Utf8.decode body in
      ret (finish [] (serve demand (PyText.splitlines text)))
  | None =>
      let '(ys, rest, fin) := lines_loop [] (content (_response r)) demand in
      update (with_response (set_content rest));;
      match fin with
      | None => ret (mkGen ys Abandoned)
      | Some (buf, d) =>
          match stream_error (_response r) with
          | Some e => try_finally (ret (mkGen ys (Failed e))) close
          | None =>
              match buf with
              | [] => try_finally (ret (mkGen ys Exhausted)) close
              | _ :: _ =>
                  match serve d [decode_line buf] with
                  | (zs, None) => ret (mkGen (ys ++ zs) Abandoned)
                  | (zs, Some _) =>
                      try_finally (ret (mkGen (ys ++ zs) Exhausted)) close
                  end
              end
          end
      end
  end.

(** The finalization of a suspended generator ([aclose()], which the event
    loop also schedules when the generator is garbage-collected): the
    [finally] clause of both iterators. *)
Definition aclose : RespM unit := close.

(** *** Fallback session *)

(** [ProxyConnector] is [None] when [aiohttp_socks] cannot be imported;
    otherwise [ProxyConnector.from_url(url)] builds a connector or raises. *)
Variable ProxyConnector : option (string -> option exc).

(** The engine's answer to a request: a live response, or an exception. *)
Variable send : engine_call -> result ClientResponse.

(** What [close()] of a session raises, by its connector. *)
Variable close_error : connector -> option exc.

(** [urllib.parse.urlparse(url).scheme]: the scheme component, empty when
    the URL has none, or the [ValueError] with which [urlparse] rejects the
    URL. *)
Variable urlparse_scheme : string -> result string.

Definition _pick_proxy (url : string) (proxies : option (gmap string string))
  : result (option string) :=
  match proxies with
  | None => Return None
  | Some m =>
      if decide (m = ∅) then Return None
      else
        match urlparse_scheme url with
        | Raise e => Raise e
        | Return parsed =>
            let scheme :=
              PyString.lower
                (if PyString.nonempty parsed then parsed else "https") in
            Return (py_or (m !! scheme) (py_or (m !! "https") (m !! "http")))
        end
  end.

(** Keyword arguments: a field for each keyword the module reads, and the
    other keywords in [kw_rest], which is read at the other keys only. *)
Record kwargs : Type := mkKwargs {
  kw_headers : option pyobj;
  kw_cookies : option pyobj;
  kw_stream : option pyobj;
  kw_allow_redirects : option pyobj;
  kw_timeout : option pyobj;
  kw_verify : option pyobj;
  kw_proxy : option pyobj;
  kw_proxies : option pyval;
  kw_impersonate : option pyobj;
  kw_http_version : option pyobj;
  kw_rest : gmap string pyobj
}.

Definition field_keys : list string :=
  ["headers"; "cookies"; "stream"; "allow_redirects"; "timeout"; "verify";
   "proxy"; "proxies"; "impersonate"; "http_version"].

(** The [kwargs] dict of [request] once it has popped its keywords: the
    [headers] and [cookies] keywords and the other keywords of the call. *)
Definition remaining (kw : kwargs) : passed_kwargs :=
  let others :=
    ArgPy <$> filter (fun kv => kv.1 ∉ field_keys) (kw_rest kw) in
  let others :=
    match kw_cookies kw with
    | Some v => <["cookies" := ArgPy v]> others
    | None => others
    end in
  match kw_headers kw with
  | Some v => <["headers" := ArgPy v]> others
  | None => others
  end.

(** [kwargs.pop(key, d)] *)
Definition pop {A} (v : option A) (d : A) : A := default d v.

Record _AiohttpAsyncSession : Type := mkSession {
  _default_proxies : option (gmap string string);
  _session : ClientSession
}.

Definition __init__ (kw : kwargs) : _AiohttpAsyncSession :=
  let headers := pop (kw_headers kw) PyNone in
  let cookies := pop (kw_cookies kw) PyNone in
  let timeout := _to_timeout (pop (kw_timeout kw) PyNone) in
  let verify := pop (kw_verify kw) (PyBool true) in
  let proxy := pop (kw_proxy kw) PyNone in
  let proxies := pop (kw_proxies kw) (PyObj PyNone) in
  let client_timeout := mkClientTimeout <$> timeout in
  let conn := TCPConnector (_ssl_for_verify verify) in
  {| _default_proxies := init_default_proxies proxy proxies;
     _session :=
       {| cs_headers := headers; cs_cookies := cookies;
          cs_timeout := client_timeout; cs_connector := conn;
          cs_trust_env := true; closed := false;
          cs_close_error := close_error conn |} |}.

Definition socks_unavailable : exc :=
  Exc RequestsError "SOCKS proxy requested but aiohttp-socks is not installed".

(** [isinstance(e, (aiohttp.ClientError, asyncio.TimeoutError))] *)
Definition is_engine_failure (e : exc) : bool :=
  match exc_cls e with
  | ClientError | TimeoutError => true
  | _ => false
  end.

(** [await session.request(method, url, ...)] *)
Definition session_request {O} (c : engine_call) : M (St O) ClientResponse :=
  emit (EvSend c);;
  match send c with
  | Return r => ret r
  | Raise e => raise e
  end.

(** [await temp_session.close()] *)
Definition session_close {O} (s : ClientSession) : M (St O) unit :=
  emit EvCloseSession;;
  match cs_close_error s with
  | Some e => raise e
  | None => ret tt
  end.

(** [proxy_url.lower().startswith("socks")], for [bool(proxy_url)] true *)
Definition is_socks_url (proxy_url : option string) : bool :=
  match proxy_url with
  | Some p =>
      PyString.nonempty p && PyString.startswith "socks" (PyString.lower p)
  | None => false
  end.

Definition request (self : _AiohttpAsyncSession) (method url : string)
    (kw : kwargs) : M (St unit) _AiohttpResponse :=
  let stream := truthy (pop (kw_stream kw) (PyBool false)) in
  let allow_redirects := pop (kw_allow_redirects kw) (PyBool true) in
  let timeout := _to_timeout (pop (kw_timeout kw) PyNone) in
  let verify := pop (kw_verify kw) PyNone in
  let proxy := pop (kw_proxy kw) PyNone in
  let proxies := pop (kw_proxies kw) (PyObj PyNone) in
  let proxy_map := request_proxy_map (_default_proxies self) proxy proxies in
  proxy_url <- lift (_pick_proxy url (Some proxy_map));;
  let kwargs := remaining kw in
  let kwargs :=
    match timeout with
    | Some t => <["timeout" := ArgTimeout (mkClientTimeout t)]> kwargs
    | None => kwargs
    end in
  let kwargs :=
    match verify with
    | PyNone => kwargs
    | _ => <["ssl" := ArgSsl (_ssl_for_verify verify)]> kwargs
    end in
  let use_socks_proxy := is_socks_url proxy_url in
  if use_socks_proxy && negb (bool_decide (is_Some ProxyConnector))
  then raise socks_unavailable
  else
    try_except
      (sent <-
         (if use_socks_proxy then
            let temp_timeout := pk_timeout kwargs in
            let url' := default "" proxy_url in
            match ProxyConnector with
            | None =>
                raise (Exc (OtherException "AttributeError")
                         "'NoneType' object has no attribute 'from_url'")
            | Some from_url =>
                match from_url url' with
                | Some e => raise e
                | None =>
                    let conn := SocksConnector url' in
                    let temp_session :=
                      {| cs_headers := PyNone; cs_cookies := PyNone;
                         cs_timeout := temp_timeout; cs_connector := conn;
                         cs_trust_env := true; closed := false;
                         cs_close_error := close_error conn |} in
                    emit (EvOpenSession temp_session);;
                    resp <-
                      try_except
                        (session_request
                           (mkCall temp_session (PyString.upper method) url
                              allow_redirects None kwargs))
                        (fun e => session_close temp_session;; raise e);;
                    ret (resp, Some temp_session)
                end
            end
          else
            resp <-
              session_request
                (mkCall (_session self) (PyString.upper method) url
                   allow_redirects (Some proxy_url) kwargs);;
            ret (resp, None));;
       let '(resp, owner) := sent in
       if stream then ret (new_response resp None owner)
       else
         emit EvRead;;
         let '(res, resp') := cr_read resp in
         match res with
         | Raise e => raise e
         | Return body =>
             let wrapped := new_response resp' (Some body) owner in
             closed_ <- on_object wrapped close;;
             ret (snd closed_)
         end)
      (fun e =>
         if is_engine_failure e
         then raise (ExcFrom RequestsError (exc_msg e) e)
         else raise e).

Definition get (self : _AiohttpAsyncSession) (url : string) (kw : kwargs) :=
  request self "GET" url kw.

Definition post (self : _AiohttpAsyncSession) (url : string) (kw : kwargs) :=
  request self "POST" url kw.

Definition delete_ (self : _AiohttpAsyncSession) (url : string) (kw : kwargs) :=
  request self "DELETE" url kw.

(** A request issued with no engine event before it. *)
Definition run_request (self : _AiohttpAsyncSession) (method url : string)
    (kw : kwargs) : result _AiohttpResponse * list event :=
  let '(res, s) := request self method url kw (mkSt tt []) in (res, log s).

(** [request] from the point where the proxy of the request is resolved
    to [proxy_url]. *)
Definition request_from (self : _AiohttpAsyncSession) (method url : string)
    (kw : kwargs) (proxy_url : option string) : M (St unit) _AiohttpResponse :=
  let stream := truthy (pop (kw_stream kw) (PyBool false)) in
  let allow_redirects := pop (kw_allow_redirects kw) (PyBool true) in
  let timeout := _to_timeout (pop (kw_timeout kw) PyNone) in
  let verify := pop (kw_verify kw) PyNone in
  let kwargs := remaining kw in
  let kwargs :=
    match timeout with
    | Some t => <["timeout" := ArgTimeout (mkClientTimeout t)]> kwargs
    | None => kwargs
    end in
  let kwargs :=
    match verify with
    | PyNone => kwargs
    | _ => <["ssl" := ArgSsl (_ssl_for_verify verify)]> kwargs
    end in
  let use_socks_proxy := is_socks_url proxy_url in
  if use_socks_proxy && negb (bool_decide (is_Some ProxyConnector))
  then raise socks_unavailable
  else
    try_except
      (sent <-
         (if use_socks_proxy then
            let temp_timeout := pk_timeout kwargs in
            let url' := default "" proxy_url in
            match ProxyConnector with
            | None =>
                raise (Exc (OtherException "AttributeError")
                         "'NoneType' object has no attribute 'from_url'")
            | Some from_url =>
                match from_url url' with
                | Some e => raise e
                | None =>
                    let conn := SocksConnector url' in
                    let temp_session :=
                      {| cs_headers := PyNone; cs_cookies := PyNone;
                         cs_timeout := temp_timeout; cs_connector := conn;
                         cs_trust_env := true; closed := false;
                         cs_close_error := close_error conn |} in
                    emit (EvOpenSession temp_session);;
                    resp <-
                      try_except
                        (session_request
                           (mkCall temp_session (PyString.upper method) url
                              allow_redirects None kwargs))
                        (fun e => session_close temp_session;; raise e);;
                    ret (resp, Some temp_session)
                end
            end
          else
            resp <-
              session_request
                (mkCall (_session self) (PyString.upper method) url
                   allow_redirects (Some proxy_url) kwargs);;
            ret (resp, None));;
       let '(resp, owner) := sent in
       if stream then ret (new_response resp None owner)
       else
         emit EvRead;;
         let '(res, resp') := cr_read resp in
         match res with
         | Raise e => raise e
         | Return body =>
             let wrapped := new_response resp' (Some body) owner in
             closed_ <- on_object wrapped close;;
             ret (snd closed_)
         end)
      (fun e =>
         if is_engine_failure e
         then raise (ExcFrom RequestsError (exc_msg e) e)
         else raise e).

(** *** Reference definitions, in the words of the specification *)

(** The entry a mapping contributes for scheme [k]: the [str()] of the last
    truthy value whose lower-cased key is [k]. *)
Fixpoint kept_proxy (k : string) (items : list (pyobj * pyobj))
  : option string :=
  match items with
  | [] => None
  | (key, proxy) :: items' =>
      match kept_proxy k items' with
      | Some p => Some p
      | None =>
          if truthy proxy && bool_decide (PyString.lower (py_str key) = k)
          then Some (py_str proxy)
          else None
      end
  end.

(** "[map[scheme]], else [map["https"]], else [map["http"]], else [None]" *)
Definition first_present (m : gmap string string) (scheme : string)
  : option string :=
  match m !! scheme with
  | Some p => Some p
  | None =>
      match m !! "https" with
      | Some p => Some p
      | None => m !! "http"
      end
  end.

(** "extract URL scheme (default [https] if absent), lower-case it", for
    the scheme component [parsed] of the URL *)
Definition url_scheme (parsed : string) : string :=
  match parsed with
  | "" => "https"
  | s => PyString.lower s
  end.

(** The first of the entries for [scheme], [https] and [http] that is not
    empty; the [http] entry as it is when the other two are missing or
    empty. *)
Definition first_nonempty (m : gmap string string) (scheme : string)
  : option string :=
  match m !! scheme with
  | Some (String c p) => Some (String c p)
  | _ =>
      match m !! "https" with
      | Some (String c p) => Some (String c p)
      | _ => m !! "http"
      end
  end.

(** A proxy map of the data model: no entry is empty. *)
Definition no_empty_entry (m : gmap string string) : Prop :=
  forall k p, m !! k = Some p -> p <> "".

Definition proxy_schemes : gset string := {[ "http"; "https" ]}.

(** The error [json()] raises on an unread response. *)
Definition body_not_available : exc :=
  Exc RuntimeError "JSON body not available yet. Read stream content first.".

(** "the token set {False, 0, "0", "false", "False", "no", "off"}" *)
Definition is_verify_token (v : pyobj) : Prop :=
  v = PyBool false \/ v = PyInt 0 \/ v = PyStr "0" \/ v = PyStr "false"
  \/ v = PyStr "False" \/ v = PyStr "no" \/ v = PyStr "off".

(** A number of another class that is equal to zero, as [0.0], [-0.0], [0j]
    and [Decimal(0)] are. *)
Definition is_other_zero (v : pyobj) : Prop :=
  exists text, v = PyNum (Some 0%Z) text.

(** The verified context: the default context with the certifi bundle
    loaded. *)
Definition verified_context : SSLContext :=
  {| check_hostname := true; cert_required := true;
     verify_locations := [certifi_where] |}.

(** Counting engine events. *)
Fixpoint count_events (p : event -> bool) (tr : list event) : nat :=
  match tr with
  | [] => 0
  | ev :: tr' => (if p ev then 1 else 0) + count_events p tr'
  end.

Definition is_release (ev : event) : bool :=
  match ev with EvRelease => true | _ => false end.

Definition is_session_close (ev : event) : bool :=
  match ev with EvCloseSession => true | _ => false end.

Definition releases (tr : list event) : nat := count_events is_release tr.

Definition session_closes (tr : list event) : nat :=
  count_events is_session_close tr.

(** What [close()] does to a response: its new state and the engine events
    it causes. *)
Definition close_effect (r : _AiohttpResponse)
  : _AiohttpResponse * list event :=
  if _closed r then (r, [])
  else
    let r' := with_closed true r in
    match _owned_session r with
    | Some s =>
        if closed s then (r', [EvRelease])
        else
          match cs_close_error s with
          | Some _ => (r', [EvRelease; EvCloseSession])
          | None =>
              (with_owned_session set_closed r', [EvRelease; EvCloseSession])
          end
    | None => (r', [EvRelease])
    end.

(** The ways a caller leaves a response: an explicit [close()], the end of
    an [async with] block, reading the body, and running one of the two
    iterators to its end or leaving it early. *)
Inductive exit_path : Type :=
| ByClose
| ByAexit
| ByText
| ByIterContent (chunk_size : Z) (demand : option nat)
| ByIterLines (demand : option nat).

Definition leave (p : exit_path) (s : St _AiohttpResponse)
  : St _AiohttpResponse :=
  match p with
  | ByClose => snd (close s)
  | ByAexit => snd (__aexit__ s)
  | ByText => snd (text_ s)
  | ByIterContent n d => snd (aiter_content n d s)
  | ByIterLines d => snd (aiter_lines d s)
  end.

(** A step of a response's life is quiet when it keeps [_closed] and causes
    neither a release nor a session close; it is closing when it takes the
    response from open to closed with one release and at most one session
    close. *)
Definition quiet_or_closing (s s' : St _AiohttpResponse) : Prop :=
  exists evs,
    log s' = log s ++ evs
    /\ ((_closed (obj s') = _closed (obj s)
         /\ releases evs = 0 /\ session_closes evs = 0)
        \/ (_closed (obj s) = false /\ _closed (obj s') = true
            /\ releases evs = 1 /\ session_closes evs <= 1)).

(** The proxy a request resolves for its URL, the keyword arguments it hands
    to the engine, and the calls it makes. *)
Definition resolved_proxy (self : _AiohttpAsyncSession) (url : string)
    (kw : kwargs) : result (option string) :=
  _pick_proxy url
    (Some (request_proxy_map (_default_proxies self)
             (pop (kw_proxy kw) PyNone) (pop (kw_proxies kw) (PyObj PyNone)))).

Definition engine_kwargs (kw : kwargs) : passed_kwargs :=
  let kwargs := remaining kw in
  let kwargs :=
    match _to_timeout (pop (kw_timeout kw) PyNone) with
    | Some t => <["timeout" := ArgTimeout (mkClientTimeout t)]> kwargs
    | None => kwargs
    end in
  match pop (kw_verify kw) PyNone with
  | PyNone => kwargs
  | _ => <["ssl" := ArgSsl (_ssl_for_verify (pop (kw_verify kw) PyNone))]> kwargs
  end.

Definition plain_call (self : _AiohttpAsyncSession) (method url : string)
    (kw : kwargs) (proxy_url : option string) : engine_call :=
  mkCall (_session self) (PyString.upper method) url
    (pop (kw_allow_redirects kw) (PyBool true))
    (Some proxy_url) (engine_kwargs kw).

Definition socks_session (kw : kwargs) (proxy_url : string) : ClientSession :=
  {| cs_headers := PyNone; cs_cookies := PyNone;
     cs_timeout := pk_timeout (engine_kwargs kw);
     cs_connector := SocksConnector proxy_url;
     cs_trust_env := true; closed := false;
     cs_close_error := close_error (SocksConnector proxy_url) |}.

Definition socks_call (method url : string) (kw : kwargs) (proxy_url : string)
  : engine_call :=
  mkCall (socks_session kw proxy_url) (PyString.upper method) url
    (pop (kw_allow_redirects kw) (PyBool true)) None (engine_kwargs kw).

(** The exception with which the engine interrupts a request, if it does:
    raised when the SOCKS connector is built, when the request is sent (or,
    on the SOCKS path, when the temporary session is then closed), or when
    the body of a response that is not streamed is read. *)
Definition after_send (kw : kwargs) (sent : result ClientResponse)
  : option exc :=
  match sent with
  | Raise e => Some e
  | Return cr =>
      if truthy (pop (kw_stream kw) (PyBool false)) then None
      else stream_error cr
  end.

Definition engine_failure (self : _AiohttpAsyncSession) (method url : string)
    (kw : kwargs) (proxy_url : option string) : option exc :=
  match proxy_url with
  | Some p =>
      if PyString.nonempty p && PyString.startswith "socks" (PyString.lower p)
      then
        match ProxyConnector with
        | None => None
        | Some from_url =>
            match from_url p with
            | Some e => Some e
            | None =>
                match send (socks_call method url kw p) with
                | Raise e =>
                    match close_error (SocksConnector p) with
                    | Some e' => Some e'
                    | None => Some e
                    end
                | sent => after_send kw sent
                end
            end
        end
      else after_send kw (send (plain_call self method url kw proxy_url))
  | None => after_send kw (send (plain_call self method url kw proxy_url))
  end.

(** The unified transport error for an engine failure; any other exception
    as it is. *)
Definition unified (e : exc) : exc :=
  if is_engine_failure e then ExcFrom RequestsError (exc_msg e) e else e.

(** [kwargs] with [timeout=value] *)
Definition with_timeout (value : option pyobj) (kw : kwargs) : kwargs :=
  {| kw_headers := kw_headers kw; kw_cookies := kw_cookies kw;
     kw_stream := kw_stream kw; kw_allow_redirects := kw_allow_redirects kw;
     kw_timeout := value; kw_verify := kw_verify kw; kw_proxy := kw_proxy kw;
     kw_proxies := kw_proxies kw; kw_impersonate := kw_impersonate kw;
     kw_http_version := kw_http_version kw; kw_rest := kw_rest kw |}.

(** The engine events a request may cause once its proxy is resolved to
    [proxy_url]: the calls are those above, on the persistent session or on
    a temporary session for that proxy. *)
Definition request_event (self : _AiohttpAsyncSession) (method url : string)
    (kw : kwargs) (proxy_url : option string) (ev : event) : Prop :=
  match ev with
  | EvSend c =>
      c = plain_call self method url kw proxy_url
      \/ exists p, proxy_url = Some p /\ c = socks_call method url kw p
  | EvOpenSession cs =>
      exists p, proxy_url = Some p /\ cs = socks_session kw p
  | EvRead | EvRelease | EvCloseSession => True
  end.

(** "splitting on line-feed": the fields of [body] that LFs separate. *)
Fixpoint split_lf (body : bytes) : list bytes :=
  match body with
  | [] => [[]]
  | b :: body' =>
      if PyBytes.is_lf b then [] :: split_lf body'
      else
        match split_lf body' with
        | field :: fields => (b :: field) :: fields
        | [] => [[b]]
        end
  end.

(** "flushing any remaining partial line as a final element" *)
Definition flush (partial : bytes) : list bytes :=
  match partial with
  | [] => []
  | _ :: _ => [partial]
  end.

(** The raw lines of a body: the fields an LF ends, then the partial line. *)
Definition body_lines (body : bytes) : list bytes :=
  let fields := split_lf body in
  List.removelast fields ++ flush (List.last fields []).



Definition stripped_lines (body : bytes) : list text :=
  List.map decode_line (body_lines body).




(** A response carries [body] when it holds it materialized, or when it is
    unread and its stream delivers it, in whatever chunks, without failing. *)
Definition carries (r : _AiohttpResponse) (body : bytes) : Prop :=
  _body r = Some body
  \/ (_body r = None /\ stream_error (_response r) = None
      /\ concat (content (_response r)) = body).

(** The lines a consumer that iterates to the end receives from
    [aiter_lines]. *)
Definition all_lines (s : St _AiohttpResponse) : result (generated text) :=
  fst (aiter_lines None s).

(** A value whose [str()] is not empty when it is truthy, as a string, a
    boolean or [None] is; and an option value all of whose proxies are such. *)
Definition textual (o : pyobj) : Prop := truthy o = true -> py_str o <> "".

Definition textual_proxies (v : pyval) : Prop :=
  match v with
  | PyDict items => Forall (fun item => textual (snd item)) items
  | PyObj _ => True
  end.

(** *** Test doubles

    What a test of the module sets up: a [float()] that knows integers,
    booleans and strings of decimal digits, a [json.loads] that knows the
    empty object, an engine that answers every request but those to one
    unreachable host, and sessions whose [close()] does not fail. *)

Fixpoint digits_value (acc : Z) (s : string) : Z :=
  match s with
  | EmptyString => acc
  | String c s' => digits_value (10 * acc + (Z.of_N (N_of_ascii c) - 48)) s'
  end.

Definition fixture_float (o : pyobj) : result Z :=
  match o with
  | PyInt n => Return n
  | PyBool b => Return (if b then 1 else 0)%Z
  | PyStr (String c s) =>
      if PyString.forallb PyString.is_digit (String c s)
      then Return (digits_value 0 (String c s))
      else Raise (Exc (OtherException "ValueError")
                    "could not convert string to float")
  | _ => Raise (Exc (OtherException "TypeError")
                  "float() argument must be a string or a real number")
  end.

Definition fixture_certifi : string := "/usr/lib/python3/certifi/cacert.pem".

Definition fixture_json_loads (t : text) : result pyval :=
  if decide (t = PyText.of_string "{}") then Return (PyDict [])
  else Raise (Exc (OtherException "JSONDecodeError") "Expecting value").

Definition fixture_response : ClientResponse :=
  {| status := 200; cr_headers := [("Content-Type", "text/plain")];
     content := [[x61; x0a]; []; [x62; x0a; x63]];
     stream_error := None; release_error := None |}.

Definition fixture_send (c : engine_call) : result ClientResponse :=
  if decide (ec_url c = "http://unreachable.example/")
  then Raise (Exc ClientError "Cannot connect to host unreachable.example:80")
  else Return fixture_response.

Definition fixture_close_error (c : connector) : option exc := None.

(** A [urlparse] with the scheme rule of CPython's [urlsplit] and the
    bracket check that its versions share. *)
Definition fixture_urlparse (url : string) : result string :=
  if UrlParse.unbalanced_brackets url
  then Raise (Exc (OtherException "ValueError") "Invalid IPv6 URL")
  else Return (UrlParse.scheme url).

(** An engine that fails every request with [e]. *)
Definition failing_send (e : exc) (c : engine_call) : result ClientResponse :=
  Raise e.

Definition no_kwargs : kwargs :=
  {| kw_headers := None; kw_cookies := None; kw_stream := None;
     kw_allow_redirects := None; kw_timeout := None; kw_verify := None;
     kw_proxy := None; kw_proxies := None; kw_impersonate := None;
     kw_http_version := None; kw_rest := ∅ |}.

(** [kwargs] with [proxy=value] and with [stream=value] *)
Definition with_proxy (value : option pyobj) (kw : kwargs) : kwargs :=
  {| kw_headers := kw_headers kw; kw_cookies := kw_cookies kw;
     kw_stream := kw_stream kw; kw_allow_redirects := kw_allow_redirects kw;
     kw_timeout := kw_timeout kw; kw_verify := kw_verify kw; kw_proxy := value;
     kw_proxies := kw_proxies kw; kw_impersonate := kw_impersonate kw;
     kw_http_version := kw_http_version kw; kw_rest := kw_rest kw |}.

Definition with_stream (value : option pyobj) (kw : kwargs) : kwargs :=
  {| kw_headers := kw_headers kw; kw_cookies := kw_cookies kw;
     kw_stream := value; kw_allow_redirects := kw_allow_redirects kw;
     kw_timeout := kw_timeout kw; kw_verify := kw_verify kw;
     kw_proxy := kw_proxy kw; kw_proxies := kw_proxies kw;
     kw_impersonate := kw_impersonate kw;
     kw_http_version := kw_http_version kw; kw_rest := kw_rest kw |}.

Definition socks_kwargs : kwargs :=
  with_proxy (Some (PyStr "SOCKS5://127.0.0.1:1080")) no_kwargs.

(** A materialized response holding [body], an unread one whose stream
    delivers [chunks], and the state of a response on which nothing has been
    done yet. *)
Definition materialized (body : bytes) : _AiohttpResponse :=
  new_response fixture_response (Some body) None.

Definition unread (chunks : list bytes) : _AiohttpResponse :=
  new_response
    {| status := 200; cr_headers := []; content := chunks;
       stream_error := None; release_error := None |}
    None None.

Definition fresh (r : _AiohttpResponse) : St _AiohttpResponse := mkSt r [].

(** [kwargs] with [verify=value] *)
Definition with_verify (value : option pyobj) (kw : kwargs) : kwargs :=
  {| kw_headers := kw_headers kw; kw_cookies := kw_cookies kw;
     kw_stream := kw_stream kw; kw_allow_redirects := kw_allow_redirects kw;
     kw_timeout := kw_timeout kw; kw_verify := value; kw_proxy := kw_proxy kw;
     kw_proxies := kw_proxies kw; kw_impersonate := kw_impersonate kw;
     kw_http_version := kw_http_version kw; kw_rest := kw_rest kw |}.

(** [kwargs] with a further keyword [key=value], one the module does not
    read. *)
Definition with_keyword (key : string) (value : pyobj) (kw : kwargs) : kwargs :=
  {| kw_headers := kw_headers kw; kw_cookies := kw_cookies kw;
     kw_stream := kw_stream kw; kw_allow_redirects := kw_allow_redirects kw;
     kw_timeout := kw_timeout kw; kw_verify := kw_verify kw;
     kw_proxy := kw_proxy kw; kw_proxies := kw_proxies kw;
     kw_impersonate := kw_impersonate kw;
     kw_http_version := kw_http_version kw;
     kw_rest := <[key := value]> (kw_rest kw) |}.

(** An engine whose responses break off after their first chunk, and an
    unread response of that kind. *)
Definition payload_error : exc :=
  Exc ClientError "Response payload is not completed".

Definition broken_response : ClientResponse :=
  {| status := 200; cr_headers := []; content := [[x61; x0a; x62]];
     stream_error := Some payload_error; release_error := None |}.

Definition broken_send (c : engine_call) : result ClientResponse :=
  Return broken_response.

Definition interrupted : _AiohttpResponse :=
  new_response broken_response None None.

(** *** What a request returns and causes

    The outcome of [request] and the engine events it causes, written out
    case by case: [settle_effect] is the part after the engine has answered
    with a response owned by [owner]. *)
Definition settle_effect (kw : kwargs) (cr : ClientResponse)
    (owner : option ClientSession) : result _AiohttpResponse * list event :=
  if truthy (pop (kw_stream kw) (PyBool false))
  then (Return (new_response cr None owner), [])
  else
    match stream_error cr with
    | Some e => (Raise (unified e), [EvRead])
    | None =>
        let wrapped :=
          new_response (set_content [] cr) (Some (concat (content cr))) owner in
        (Return (fst (close_effect wrapped)), EvRead :: snd (close_effect wrapped))
    end.

Definition effect_from (self : _AiohttpAsyncSession) (method url : string)
    (kw : kwargs) (proxy_url : option string)
  : result _AiohttpResponse * list event :=
  let call := plain_call self method url kw proxy_url in
  let plain :=
    match send call with
    | Raise e => (Raise (unified e), [EvSend call])
    | Return cr =>
        (fst (settle_effect kw cr None),
         EvSend call :: snd (settle_effect kw cr None))
    end in
  match proxy_url with
  | Some p =>
      if PyString.nonempty p && PyString.startswith "socks" (PyString.lower p)
      then
        match ProxyConnector with
        | None => (Raise socks_unavailable, [])
        | Some from_url =>
            match from_url p with
            | Some e => (Raise (unified e), [])
            | None =>
                let temp := socks_session kw p in
                let call := socks_call method url kw p in
                match send call with
                | Raise e =>
                    (Raise (unified (match close_error (SocksConnector p) with
                                     | Some e' => e'
                                     | None => e
                                     end)),
                     [EvOpenSession temp; EvSend call; EvCloseSession])
                | Return cr =>
                    (fst (settle_effect kw cr (Some temp)),
                     EvOpenSession temp :: EvSend call
                     :: snd (settle_effect kw cr (Some temp)))
                end
            end
        end
      else plain
  | None => plain
  end.

(** A URL that [urlparse] rejects ends the request with the [ValueError],
    before anything is done. *)
Definition request_effect (self : _AiohttpAsyncSession) (method url : string)
    (kw : kwargs) : result _AiohttpResponse * list event :=
  match resolved_proxy self url kw with
  | Raise e => (Raise e, [])
  | Return proxy_url => effect_from self method url kw proxy_url
  end.

(** The requests sent to the engine, among the events of a trace. *)
Fixpoint sent_calls (tr : list event) : list engine_call :=
  match tr with
  | [] => []
  | EvSend c :: tr' => c :: sent_calls tr'
  | _ :: tr' => sent_calls tr'
  end.

Definition is_open_session (ev : event) : bool :=
  match ev with EvOpenSession _ => true | _ => false end.

(** The chunks of a stream that are not empty, in order. *)
Definition nonempty_chunks (chunks : list bytes) : list bytes :=
  List.filter (fun c => match c with [] => false | _ :: _ => true end) chunks.

(** The complete lines of a stream: the raw lines that an LF ends, decoded
    and stripped as [aiter_lines] yields them. *)
Definition complete_lines (chunks : list bytes) : list text :=
  List.map decode_line (fst (drain_lines (concat chunks))).

Definition is_read (ev : event) : bool :=
  match ev with EvRead => true | _ => false end.

Definition reads (tr : list event) : nat := count_events is_read tr.

(** A step of a response's life that, on a response without an owned
    session, keeps it so and closes no session. *)
Definition closes_no_session (s s' : St _AiohttpResponse) : Prop :=
  _owned_session (obj s) = None ->
  _owned_session (obj s') = None
  /\ session_closes (log s') = session_closes (log s).

(** The items of a [dict[str, str]] whose entries, in the order of their
    insertion, are [l]. *)
Definition str_items (l : list (string * string)) : list (pyobj * pyobj) :=
  List.map (fun kv => (PyStr (fst kv), PyStr (snd kv))) l.

(** ** Properties *)

(** *** Proxy resolver *)

Lemma is_proxy_scheme_spec k :
  is_proxy_scheme k = true <-> k ∈ proxy_schemes.
Proof.
  clear - k.
  unfold is_proxy_scheme, proxy_schemes.
  rewrite bool_decide_eq_true. set_solver.
Qed.

Lemma normalize_step_lookup out item k :
  normalize_step out item !! k =
    match kept_proxy k [item] with
    | Some p => if is_proxy_scheme k then Some p else out !! k
    | None => out !! k
    end.
Proof.
  destruct item as [key proxy]. unfold normalize_step. simpl.
  destruct (truthy proxy); simpl; [|reflexivity].
  destruct (is_proxy_scheme (PyString.lower (py_str key))) eqn:Hs.
  - destruct (decide (PyString.lower (py_str key) = k)) as [<-|Hne].
    + rewrite bool_decide_true by reflexivity. rewrite Hs.
      apply lookup_insert_eq.
    + rewrite bool_decide_false by assumption.
      apply lookup_insert_ne. assumption.
  - destruct (decide (PyString.lower (py_str key) = k)) as [<-|Hne].
    + rewrite bool_decide_true by reflexivity. rewrite Hs. reflexivity.
    + rewrite bool_decide_false by assumption. reflexivity.
Qed.

Lemma normalize_fold_lookup items : forall out k,
  foldl normalize_step out items !! k =
    match kept_proxy k items with
    | Some p => if is_proxy_scheme k then Some p else out !! k
    | None => out !! k
    end.
Proof.
  induction items as [|item items IH]; intros out k; simpl.
  - reflexivity.
  - rewrite IH. destruct item as [key proxy].
    destruct (kept_proxy k items) as [p|] eqn:Hk.
    + destruct (is_proxy_scheme k) eqn:Hs; [reflexivity|].
      rewrite normalize_step_lookup. simpl. rewrite Hs.
      destruct (truthy proxy && _); reflexivity.
    + rewrite normalize_step_lookup. simpl. reflexivity.
Qed.

Lemma normalize_fold_dom items : forall out,
  dom out ⊆ proxy_schemes ->
  dom (foldl normalize_step out items) ⊆ proxy_schemes.
Proof.
  induction items as [|[key proxy] items IH]; intros out Hout; simpl.
  - assumption.
  - apply IH. unfold normalize_step.
    destruct (truthy proxy); simpl; [|assumption].
    destruct (is_proxy_scheme _) eqn:Hs; [|assumption].
    apply is_proxy_scheme_spec in Hs. rewrite dom_insert.
    apply union_subseteq. split; [|assumption].
    apply singleton_subseteq_l. assumption.
Qed.

Lemma normalize_proxies_dom value m :
  _normalize_proxies value = Some m -> dom m ⊆ proxy_schemes.
Proof.
  unfold _normalize_proxies. destruct (py_truth value); simpl; [|discriminate].
  destruct value as [o|items].
  - destruct o; try discriminate. intros [= <-].
    rewrite !dom_insert. unfold proxy_schemes. set_solver.
  - destruct (decide _); [discriminate|]. intros [= <-].
    apply normalize_fold_dom. set_solver.
Qed.

Lemma normalize_proxies_nonempty value :
  _normalize_proxies value <> Some ∅.
Proof.
  unfold _normalize_proxies. destruct (py_truth value); simpl; [|discriminate].
  destruct value as [o|items].
  - destruct o; discriminate.
  - destruct (decide _) as [|Hne]; [discriminate|]. congruence.
Qed.

Lemma insert_both_dom (p : string) (m : gmap string string) :
  dom m ⊆ proxy_schemes ->
  dom (<["https" := p]> (<["http" := p]> m)) ⊆ proxy_schemes.
Proof.
  intros Hm k. rewrite !dom_insert, !elem_of_union, !elem_of_singleton.
  intros [-> | [-> | Hk]].
  - apply elem_of_union_r, elem_of_singleton. reflexivity.
  - apply elem_of_union_l, elem_of_singleton. reflexivity.
  - apply Hm, Hk.
Qed.

Lemma default_normalize_dom proxies :
  dom (default ∅ (_normalize_proxies proxies)) ⊆ proxy_schemes.
Proof.
  destruct (_normalize_proxies proxies) as [m|] eqn:E; simpl.
  - eapply normalize_proxies_dom; eassumption.
  - rewrite dom_empty. apply empty_subseteq.
Qed.

Lemma init_default_proxies_dom proxy proxies m :
  init_default_proxies proxy proxies = Some m -> dom m ⊆ proxy_schemes.
Proof.
  unfold init_default_proxies. destruct (truthy proxy).
  - intros [= <-]. apply insert_both_dom, default_normalize_dom.
  - apply normalize_proxies_dom.
Qed.

Lemma request_proxy_map_dom default_proxies proxy proxies :
  dom (default ∅ default_proxies) ⊆ proxy_schemes ->
  dom (request_proxy_map default_proxies proxy proxies) ⊆ proxy_schemes.
Proof.
  intros Hd. unfold request_proxy_map.
  assert (Hm : dom (match _normalize_proxies proxies with
                    | Some e => if decide (e = ∅) then default ∅ default_proxies
                                else dict_update (default ∅ default_proxies) e
                    | None => default ∅ default_proxies
                    end) ⊆ proxy_schemes).
  { destruct (_normalize_proxies proxies) as [e|] eqn:E; [|assumption].
    destruct (decide (e = ∅)); [assumption|].
    unfold dict_update. rewrite dom_union. apply union_subseteq. split.
    - eapply normalize_proxies_dom; eassumption.
    - assumption. }
  destruct (truthy proxy); [apply insert_both_dom|]; assumption.
Qed.

Lemma session_default_proxies_dom kw :
  dom (default ∅ (_default_proxies (__init__ kw))) ⊆ proxy_schemes.
Proof.
  simpl. destruct (init_default_proxies _ _) as [m|] eqn:E; simpl.
  - eapply init_default_proxies_dom; eassumption.
  - rewrite dom_empty. apply empty_subseteq.
Qed.

(** C9: [_normalize_proxies] returns [None] for an empty or falsy value and
    the two-entry map for a non-empty string; for a mapping it keeps, under
    the lower-cased keys [http] and [https] only, the truthy values (the
    last one for each key) and returns [None] when nothing is kept.  Every
    proxy map the program builds, by normalisation, as a session default or
    as the effective map of a request, has no key other than [http] and
    [https]. *)
Theorem normalize_proxies_correct :
  (forall value, py_truth value = false -> _normalize_proxies value = None)
  /\ (forall s, s <> "" ->
        _normalize_proxies (PyObj (PyStr s))
        = Some (<["https" := s]> (<["http" := s]> ∅)))
  /\ (forall items k,
        default ∅ (_normalize_proxies (PyDict items)) !! k
        = if is_proxy_scheme k then kept_proxy k items else None)
  /\ (forall items,
        _normalize_proxies (PyDict items) = None
        <-> kept_proxy "http" items = None /\ kept_proxy "https" items = None)
  /\ (forall value m,
        _normalize_proxies value = Some m -> m <> ∅ /\ dom m ⊆ proxy_schemes)
  /\ (forall proxy proxies m,
        init_default_proxies proxy proxies = Some m -> dom m ⊆ proxy_schemes)
  /\ (forall kw proxy proxies,
        dom (request_proxy_map (_default_proxies (__init__ kw)) proxy proxies)
        ⊆ proxy_schemes).
Proof.
  assert (Hlookup : forall items k,
             default ∅ (_normalize_proxies (PyDict items)) !! k
             = if is_proxy_scheme k then kept_proxy k items else None).
  { intros items k. unfold _normalize_proxies.
    destruct (py_truth (PyDict items)) eqn:Ht; cbn [negb].
    - destruct (decide (foldl normalize_step ∅ items = ∅)) as [He|Hne];
        cbn [from_option id].
      + rewrite <- He at 1. rewrite normalize_fold_lookup, lookup_empty.
        destruct (kept_proxy k items), (is_proxy_scheme k); reflexivity.
      + rewrite normalize_fold_lookup, lookup_empty.
        destruct (kept_proxy k items), (is_proxy_scheme k); reflexivity.
    - destruct items; [|discriminate]. cbn [from_option id kept_proxy].
      rewrite lookup_empty. destruct (is_proxy_scheme k); reflexivity. }
  split_and!.
  - intros value Hv. unfold _normalize_proxies. rewrite Hv. reflexivity.
  - intros s Hs. unfold _normalize_proxies. simpl.
    destruct s; [congruence|reflexivity].
  - exact Hlookup.
  - intros items. split.
    + intros Hnone. split.
      * pose proof (Hlookup items "http") as H. rewrite Hnone in H.
        cbn [from_option] in H. rewrite lookup_empty in H.
        symmetry. exact H.
      * pose proof (Hlookup items "https") as H. rewrite Hnone in H.
        cbn [from_option] in H. rewrite lookup_empty in H.
        symmetry. exact H.
    + intros [Hhttp Hhttps].
      destruct (_normalize_proxies (PyDict items)) as [m|] eqn:E; [|reflexivity].
      exfalso. apply (normalize_proxies_nonempty (PyDict items)).
      rewrite E. f_equal. apply map_eq. intros k. rewrite lookup_empty.
      pose proof (Hlookup items k) as H. rewrite E in H.
      cbn [from_option id] in H. rewrite H.
      destruct (is_proxy_scheme k) eqn:Hk; [|reflexivity].
      unfold is_proxy_scheme in Hk. apply bool_decide_eq_true in Hk.
      destruct Hk as [-> | ->]; assumption.
  - intros value m Hm. split.
    + intros ->. eapply normalize_proxies_nonempty. eassumption.
    + eapply normalize_proxies_dom. eassumption.
  - apply init_default_proxies_dom.
  - intros kw proxy proxies. apply request_proxy_map_dom.
    apply session_default_proxies_dom.
Qed.

Lemma lookup_outside_schemes (m : gmap string string) k :
  dom m ⊆ proxy_schemes -> is_proxy_scheme k = false -> m !! k = None.
Proof.
  intros Hm Hk. apply not_elem_of_dom. intros Hin. apply Hm in Hin.
  apply is_proxy_scheme_spec in Hin. congruence.
Qed.

Lemma request_proxy_map_lookup default_proxies proxy proxies k :
  request_proxy_map default_proxies proxy proxies !! k =
    if truthy proxy && is_proxy_scheme k then Some (py_str proxy)
    else match default ∅ (_normalize_proxies proxies) !! k with
         | Some p => Some p
         | None => default ∅ default_proxies !! k
         end.
Proof.
  unfold request_proxy_map.
  set (base := default ∅ default_proxies).
  assert (Hmid : match _normalize_proxies proxies with
                 | Some e => if decide (e = ∅) then base else dict_update base e
                 | None => base
                 end !! k
                 = match default ∅ (_normalize_proxies proxies) !! k with
                   | Some p => Some p
                   | None => base !! k
                   end).
  { destruct (_normalize_proxies proxies) as [e|]; cbn [from_option id].
    - destruct (decide (e = ∅)) as [->|_].
      + rewrite lookup_empty. reflexivity.
      + unfold dict_update. rewrite lookup_union.
        destruct (e !! k), (base !! k); reflexivity.
    - rewrite lookup_empty. reflexivity. }
  destruct (truthy proxy); cbn [andb]; [|exact Hmid].
  destruct (is_proxy_scheme k) eqn:Hk.
  - unfold is_proxy_scheme in Hk. apply bool_decide_eq_true in Hk.
    destruct Hk as [-> | ->].
    + rewrite lookup_insert_ne by discriminate. apply lookup_insert_eq.
    + apply lookup_insert_eq.
  - unfold is_proxy_scheme in Hk. apply bool_decide_eq_false in Hk.
    rewrite !lookup_insert_ne by (intros <-; apply Hk; auto).
    exact Hmid.
Qed.

(** C7: the effective proxy map of a request holds, for each key, the
    singular [proxy] when it is truthy and the key is [http] or [https],
    else the entry of the normalised per-call [proxies], else the entry of
    the session default; with [proxies={"https": P1}] and [proxy=P2] it is
    [{http: P2, https: P2}] in every session. *)
Theorem request_proxy_map_correct :
  (forall default_proxies proxy proxies k,
      request_proxy_map default_proxies proxy proxies !! k =
        if truthy proxy && is_proxy_scheme k then Some (py_str proxy)
        else match default ∅ (_normalize_proxies proxies) !! k with
             | Some p => Some p
             | None => default ∅ default_proxies !! k
             end)
  /\ (forall kw P1 P2,
        P2 <> "" ->
        request_proxy_map (_default_proxies (__init__ kw)) (PyStr P2)
          (PyDict [(PyStr "https", PyStr P1)])
        = <["https" := P2]> (<["http" := P2]> ∅)).
Proof.
  split; [exact request_proxy_map_lookup|].
  intros kw P1 P2 HP2. apply map_eq. intros k.
  rewrite request_proxy_map_lookup.
  assert (Ht : truthy (PyStr P2) = true) by (destruct P2; [congruence|reflexivity]).
  rewrite Ht. cbn [andb py_str].
  destruct (is_proxy_scheme k) eqn:Hk.
  - unfold is_proxy_scheme in Hk. apply bool_decide_eq_true in Hk.
    destruct Hk as [-> | ->].
    + rewrite lookup_insert_ne by discriminate. symmetry. apply lookup_insert_eq.
    + symmetry. apply lookup_insert_eq.
  - rewrite (lookup_outside_schemes _ k (default_normalize_dom _) Hk).
    rewrite (lookup_outside_schemes _ k (session_default_proxies_dom kw) Hk).
    unfold is_proxy_scheme in Hk. apply bool_decide_eq_false in Hk.
    rewrite !lookup_insert_ne by (intros <-; apply Hk; auto).
    rewrite lookup_empty. reflexivity.
Qed.

Lemma py_or_present (a b : option string) :
  (forall p, a = Some p -> p <> "") ->
  py_or a b = match a with Some p => Some p | None => b end.
Proof.
  intros Ha. destruct a as [p|]; [|reflexivity]. simpl.
  destruct p; [|reflexivity]. exfalso. apply (Ha ""); reflexivity.
Qed.

Lemma url_scheme_eq parsed :
  PyString.lower (if PyString.nonempty parsed then parsed else "https")
  = url_scheme parsed.
Proof. unfold url_scheme. destruct parsed; reflexivity. Qed.

Lemma py_or_nonempty (a b : option string) :
  py_or a b = match a with Some (String c p) => Some (String c p) | _ => b end.
Proof. destruct a as [[|c p]|]; reflexivity. Qed.

Lemma pick_proxy_parsed url parsed m :
  urlparse_scheme url = Return parsed ->
  _pick_proxy url (Some m) = Return (first_nonempty m (url_scheme parsed)).
Proof.
  intros Hparse. unfold _pick_proxy, first_nonempty.
  destruct (decide (m = ∅)) as [->|_].
  - rewrite !lookup_empty. reflexivity.
  - rewrite Hparse. cbv zeta. rewrite url_scheme_eq, !py_or_nonempty.
    reflexivity.
Qed.

Lemma first_nonempty_present m scheme :
  no_empty_entry m -> first_nonempty m scheme = first_present m scheme.
Proof.
  intros Hm. unfold first_nonempty, first_present.
  destruct (m !! scheme) as [[|c p]|] eqn:E1; try reflexivity.
  { exfalso. apply (Hm _ _ E1). reflexivity. }
  destruct (m !! "https") as [[|c p]|] eqn:E2; try reflexivity.
  exfalso. apply (Hm _ _ E2). reflexivity.
Qed.

Lemma pick_proxy_first_present url parsed m :
  urlparse_scheme url = Return parsed ->
  no_empty_entry m ->
  _pick_proxy url (Some m) = Return (first_present m (url_scheme parsed)).
Proof.
  intros Hparse Hm. rewrite (pick_proxy_parsed url parsed m Hparse).
  rewrite first_nonempty_present by exact Hm. reflexivity.
Qed.

Lemma pick_proxy_rejected url e m :
  m <> ∅ -> urlparse_scheme url = Raise e -> _pick_proxy url (Some m) = Raise e.
Proof.
  intros Hm Hparse. unfold _pick_proxy.
  destruct (decide (m = ∅)); [contradiction|]. rewrite Hparse. reflexivity.
Qed.

(** C8: without a proxy map, or with an empty one, [_pick_proxy] returns
    [None] for every URL.  With a map that is not empty it has the URL
    parsed: for a URL that [urlparse] rejects it raises the [ValueError] of
    [urlparse]; otherwise it returns the first entry that is not empty among
    those of the URL's lower-cased scheme ([https] when the URL has none)
    and of [https], else the [http] entry.  On a map without empty entries
    that is the entry of the scheme, else the [https] entry, else the [http]
    entry, else [None]; and for the map [{https: P1}] it is [P1] whatever
    the scheme. *)
Theorem pick_proxy_correct :
  forall url m,
    _pick_proxy url None = Return None
    /\ _pick_proxy url (Some ∅) = Return None
    /\ (forall e, m <> ∅ -> urlparse_scheme url = Raise e ->
          _pick_proxy url (Some m) = Raise e)
    /\ (forall parsed,
          urlparse_scheme url = Return parsed ->
          _pick_proxy url (Some m)
          = Return (first_nonempty m (url_scheme parsed))
          /\ (no_empty_entry m ->
              _pick_proxy url (Some m)
              = Return (first_present m (url_scheme parsed)))
          /\ (forall P1, P1 <> "" -> m = {[ "https" := P1 ]} ->
              _pick_proxy url (Some m) = Return (Some P1))).
Proof.
  intros url m. split_and!.
  - reflexivity.
  - unfold _pick_proxy. destruct (decide _) as [_|H]; [reflexivity|].
    exfalso. apply H. reflexivity.
  - intros e Hm Hparse. apply pick_proxy_rejected; assumption.
  - intros parsed Hparse. split_and!.
    + apply pick_proxy_parsed, Hparse.
    + intros Hm. apply pick_proxy_first_present; assumption.
    + intros P1 HP1 ->.
      rewrite (pick_proxy_parsed url parsed _ Hparse). f_equal.
      unfold first_nonempty. rewrite lookup_singleton_eq.
      destruct P1 as [|c P1]; [congruence|].
      destruct (decide (url_scheme parsed = "https")) as [->|Hne].
      * rewrite lookup_singleton_eq. reflexivity.
      * rewrite lookup_singleton_ne by congruence. reflexivity.
Qed.

(** *** SSL context builder *)

Lemma py_in_verify_off_tokens verify :
  py_in verify verify_off_tokens = true
  <-> is_verify_token verify \/ is_other_zero verify.
Proof.
  clear - verify.
  unfold py_in, verify_off_tokens, is_verify_token, is_other_zero.
  cbn [existsb py_eq]. rewrite !orb_true_iff, !bool_decide_eq_true.
  split.
  - intros H.
    destruct verify as [|b|n|s|value text|truth text]; cbn [as_int] in H.
    + repeat (destruct H as [H|H]; try discriminate H).
    + destruct b; repeat (destruct H as [H|H]; try discriminate H); auto.
    + assert (n = 0%Z) as ->
        by (repeat (destruct H as [H|H]; try discriminate H); congruence).
      auto.
    + repeat (destruct H as [H|H]; try discriminate H);
        try (apply bool_decide_eq_true in H; subst s); tauto.
    + right. exists text.
      repeat (destruct H as [H|H]; try discriminate H); congruence.
    + repeat (destruct H as [H|H]; try discriminate H).
  - intros [H | [text ->]].
    + repeat (destruct H as [-> | H]); try subst verify; cbn;
        rewrite ?bool_decide_eq_true; tauto.
    + cbn. tauto.
Qed.

(** C6: for a [verify] value among [False], [0], ["0"], ["false"],
    ["False"], ["no"], ["off"], and for any other number equal to zero, the
    builder returns the disabled marker [False]; for every other value it
    returns a context, never a null value: the default context with
    certificate checking on and the certifi trust store loaded. *)
Theorem ssl_for_verify_correct :
  forall verify,
    (is_verify_token verify \/ is_other_zero verify ->
     _ssl_for_verify verify = SslFalse)
    /\ (~ is_verify_token verify -> ~ is_other_zero verify ->
        _ssl_for_verify verify = SslContext verified_context
        /\ cert_required verified_context = true
        /\ verify_locations verified_context = [certifi_where]).
Proof.
  clear - certifi_where.
  intros verify. unfold _ssl_for_verify. split.
  - intros H. apply py_in_verify_off_tokens in H. rewrite H. reflexivity.
  - intros Ht Hz. destruct (py_in verify verify_off_tokens) eqn:E.
    + apply py_in_verify_off_tokens in E. tauto.
    + split_and!; reflexivity.
Qed.

(** *** Response wrapper: [close] *)

Ltac run_monad :=
  unfold bind, ret, raise, emit, update, this, modify, try_except,
    try_finally, sleep0; cbn [fst snd obj log].

Lemma close_eq (s : St _AiohttpResponse) :
  close s =
    (Return tt,
     mkSt (fst (close_effect (obj s))) (log s ++ snd (close_effect (obj s)))).
Proof.
  destruct s as [r tr]. unfold close, close_effect, release, owned_session_close.
  run_monad.
  destruct (_closed r) eqn:Hc.
  - cbn [fst snd]. rewrite app_nil_r. reflexivity.
  - cbn [fst snd obj log with_closed _response _owned_session].
    destruct (release_error (_response r)); cbn [fst snd obj log];
      (destruct (_owned_session r) as [o|];
       [destruct (closed o); cbn [negb fst snd obj log];
        [|destruct (cs_close_error o); cbn [fst snd obj log]]|]);
      cbn [fst snd obj log]; rewrite <- ?app_assoc; reflexivity.
Qed.

Lemma count_events_app p tr1 tr2 :
  count_events p (tr1 ++ tr2) = count_events p tr1 + count_events p tr2.
Proof. induction tr1 as [|ev tr1 IH]; simpl; [reflexivity|]. rewrite IH. lia. Qed.

Lemma close_effect_closed r : _closed (fst (close_effect r)) = true.
Proof.
  unfold close_effect. destruct (_closed r) eqn:Hc; [exact Hc|].
  destruct (_owned_session r) as [o|]; [|reflexivity].
  destruct (closed o); [reflexivity|].
  destruct (cs_close_error o); reflexivity.
Qed.

Lemma close_effect_body r : _body (fst (close_effect r)) = _body r.
Proof.
  unfold close_effect. destruct (_closed r); [reflexivity|].
  destruct (_owned_session r) as [o|]; [|reflexivity].
  destruct (closed o); [reflexivity|].
  destruct (cs_close_error o); reflexivity.
Qed.

Lemma close_effect_noop r :
  _closed r = true -> close_effect r = (r, []).
Proof. intros H. unfold close_effect. rewrite H. reflexivity. Qed.

Lemma close_effect_counts r :
  if _closed r
  then releases (snd (close_effect r)) = 0
       /\ session_closes (snd (close_effect r)) = 0
  else releases (snd (close_effect r)) = 1
       /\ session_closes (snd (close_effect r)) <= 1.
Proof.
  unfold close_effect, releases, session_closes.
  destruct (_closed r); [split; reflexivity|].
  destruct (_owned_session r) as [o|]; [|simpl; lia].
  destruct (closed o); [simpl; lia|].
  destruct (cs_close_error o); simpl; lia.
Qed.

Lemma quiet_refl s : quiet_or_closing s s.
Proof.
  exists []. rewrite app_nil_r. split; [reflexivity|]. left.
  split_and!; reflexivity.
Qed.

Lemma quiet_or_closing_trans s1 s2 s3 :
  quiet_or_closing s1 s2 -> quiet_or_closing s2 s3 -> quiet_or_closing s1 s3.
Proof.
  intros (e1 & L1 & H1) (e2 & L2 & H2). exists (e1 ++ e2).
  split; [rewrite L2, L1, app_assoc; reflexivity|].
  unfold releases, session_closes in *. rewrite !count_events_app.
  destruct H1 as [(C1 & R1 & S1) | (C1 & C1' & R1 & S1)];
    destruct H2 as [(C2 & R2 & S2) | (C2 & C2' & R2 & S2)].
  - left. split_and!; [congruence|lia|lia].
  - right. split_and!; [congruence|congruence|lia|lia].
  - right. split_and!; [congruence|congruence|lia|lia].
  - congruence.
Qed.

Lemma quiet_step (s : St _AiohttpResponse) r evs :
  _closed r = _closed (obj s) ->
  releases evs = 0 -> session_closes evs = 0 ->
  quiet_or_closing s (mkSt r (log s ++ evs)).
Proof.
  intros Hc Hr Hs. exists evs. split; [reflexivity|]. left. auto.
Qed.

Lemma close_quiet_or_closing s : quiet_or_closing s (snd (close s)).
Proof.
  clear - s.
  rewrite close_eq. cbn [snd]. exists (snd (close_effect (obj s))).
  split; [reflexivity|]. cbn [obj].
  pose proof (close_effect_counts (obj s)) as Hn.
  destruct (_closed (obj s)) eqn:Hc.
  - left. rewrite close_effect_noop by exact Hc. cbn [fst]. tauto.
  - right. rewrite close_effect_closed. tauto.
Qed.

Lemma then_close_quiet_or_closing (s : St _AiohttpResponse) r evs :
  _closed r = _closed (obj s) ->
  releases evs = 0 -> session_closes evs = 0 ->
  quiet_or_closing s (snd (close (mkSt r (log s ++ evs)))).
Proof.
  intros Hc Hr Hs. eapply quiet_or_closing_trans.
  - apply (quiet_step s r evs); assumption.
  - apply close_quiet_or_closing.
Qed.

Lemma read_body_quiet_or_closing s : quiet_or_closing s (snd (_read_body s)).
Proof.
  destruct s as [r tr]. unfold _read_body, read, cr_read. run_monad.
  destruct (_body r) as [b|]; cbn [fst snd obj log]; [apply quiet_refl|].
  destruct (stream_error (_response r)) as [e|]; cbn [fst snd obj log].
  - apply (quiet_step (mkSt r tr) _ [EvRead]); reflexivity.
  - match goal with
    | |- context [close ?st] =>
        pose proof (then_close_quiet_or_closing (mkSt r tr) (obj st) [EvRead]
                      eq_refl eq_refl eq_refl) as H;
        cbn [obj log] in H; destruct (close st) as [[u|e] st'] eqn:E
    end; exact H.
Qed.

Lemma update_close_quiet_or_closing (s : St _AiohttpResponse) r :
  _closed r = _closed (obj s) ->
  quiet_or_closing s (snd (close (mkSt r (log s)))).
Proof.
  intros Hc. eapply quiet_or_closing_trans; [|apply close_quiet_or_closing].
  exists []. cbn [obj log]. rewrite app_nil_r. split; [reflexivity|].
  left. split_and!; [exact Hc|reflexivity|reflexivity].
Qed.

Ltac finally_close r tr :=
  match goal with
  | |- context [close ?st] =>
      let H := fresh "H" in
      pose proof (update_close_quiet_or_closing (mkSt r tr) (obj st) eq_refl) as H;
      cbn [obj log] in H; destruct (close st) as [[?|?] ?]; exact H
  end.

Lemma quiet_update (s : St _AiohttpResponse) r :
  _closed r = _closed (obj s) -> quiet_or_closing s (mkSt r (log s)).
Proof.
  intros Hc. exists []. rewrite app_nil_r. split; [reflexivity|].
  left. split_and!; [exact Hc|reflexivity|reflexivity].
Qed.

Lemma aiter_content_quiet_or_closing n d s :
  quiet_or_closing s (snd (aiter_content n d s)).
Proof.
  destruct s as [r tr]. unfold aiter_content. run_monad.
  destruct (_body r) as [b|]; cbn [fst snd obj log]; [apply quiet_refl|].
  destruct (content_loop (content (_response r)) d) as [[ys rest] gone].
  cbn [fst snd obj log].
  destruct gone; cbn [fst snd obj log].
  - apply (quiet_update (mkSt r tr)). reflexivity.
  - destruct (stream_error (_response r)); cbn [fst snd obj log];
      finally_close r tr.
Qed.

Lemma aiter_lines_quiet_or_closing d s :
  quiet_or_closing s (snd (aiter_lines d s)).
Proof.
  destruct s as [r tr]. unfold aiter_lines. run_monad.
  destruct (_body r) as [b|]; cbn [fst snd obj log]; [apply quiet_refl|].
  destruct (lines_loop [] (content (_response r)) d) as [[ys rest] fin].
  cbn [fst snd obj log].
  destruct fin as [[buf d']|]; cbn [fst snd obj log].
  2:{ apply (quiet_update (mkSt r tr)). reflexivity. }
  destruct (stream_error (_response r)); cbn [fst snd obj log].
  { finally_close r tr. }
  destruct buf as [|b buf]; cbn [fst snd obj log].
  { finally_close r tr. }
  destruct (serve d' [decode_line (b :: buf)]) as [zs [d''|]];
    cbn [fst snd obj log].
  - finally_close r tr.
  - apply (quiet_update (mkSt r tr)). reflexivity.
Qed.

Lemma leave_quiet_or_closing p s : quiet_or_closing s (leave p s).
Proof.
  destruct p; cbn [leave].
  - apply close_quiet_or_closing.
  - apply close_quiet_or_closing.
  - unfold text_, bind. pose proof (read_body_quiet_or_closing s) as H.
    destruct (_read_body s) as [[b|e] s']; exact H.
  - apply aiter_content_quiet_or_closing.
  - apply aiter_lines_quiet_or_closing.
Qed.

(** The invariant of a response's life: an open response has caused no
    release and no session close; a closed one at most one of each. *)
Lemma released_at_most_once paths : forall s,
  (if _closed (obj s)
   then releases (log s) <= 1 /\ session_closes (log s) <= 1
   else releases (log s) = 0 /\ session_closes (log s) = 0) ->
  let s' := foldl (fun s p => leave p s) s paths in
  if _closed (obj s')
  then releases (log s') <= 1 /\ session_closes (log s') <= 1
  else releases (log s') = 0 /\ session_closes (log s') = 0.
Proof.
  induction paths as [|p paths IH]; intros s Hs; cbn [foldl]; [exact Hs|].
  apply IH. destruct (leave_quiet_or_closing p s) as (evs & L & H).
  rewrite L. unfold releases, session_closes in *. rewrite !count_events_app.
  destruct H as [(C & R & S) | (C & C' & R & S)].
  - rewrite C. destruct (_closed (obj s)); lia.
  - rewrite C'. rewrite C in Hs. lia.
Qed.

(** C2: [close()] never raises; a second [close()] changes nothing and causes
    no engine event; whichever way a response is left (explicit [close()],
    scoped exit, reading, iterator exhaustion or early abandonment), either
    that caused no release or a later [close()] is a no-op; and over any
    sequence of such exits, from a response in any state, the handle is
    released at most once and the owned session closed at most once. *)
Theorem close_idempotent :
  (forall s, fst (close s) = Return tt)
  /\ (forall s, close (snd (close s)) = (Return tt, snd (close s)))
  /\ (forall p s,
        releases (log (leave p s)) = releases (log s)
        \/ close (leave p s) = (Return tt, leave p s))
  /\ (forall paths r,
        let s' := foldl (fun s p => leave p s) (mkSt r []) paths in
        releases (log s') <= 1 /\ session_closes (log s') <= 1).
Proof.
  assert (Hnoop : forall s, _closed (obj s) = true -> close s = (Return tt, s)).
  { intros s Hc. rewrite close_eq, close_effect_noop by exact Hc.
    cbn [fst snd]. rewrite app_nil_r. destruct s; reflexivity. }
  split_and!.
  - intros s. rewrite close_eq. reflexivity.
  - intros s. apply Hnoop. rewrite close_eq. cbn [snd obj].
    apply close_effect_closed.
  - intros p s. destruct (leave_quiet_or_closing p s) as (evs & L & H).
    destruct H as [(C & R & S) | (C & C' & R & S)].
    + left. rewrite L. unfold releases in *. rewrite count_events_app. lia.
    + right. apply Hnoop, C'.
  - intros paths r.
    pose proof (released_at_most_once paths (mkSt r [])) as H.
    cbn zeta in *. cbn [obj log] in H.
    specialize (H ltac:(destruct (_closed r); cbn; lia)).
    destruct (_closed _); lia.
Qed.

(** *** Response wrapper: [json] *)

Lemma read_body_materializes s b s' :
  _read_body s = (Return b, s') -> _body (obj s') = Some b.
Proof.
  destruct s as [r tr]. unfold _read_body, read, cr_read. run_monad.
  destruct (_body r) as [b0|] eqn:Hb; cbn [fst snd obj log].
  - intros [= <- <-]. exact Hb.
  - destruct (stream_error (_response r)); cbn [fst snd obj log]; [discriminate|].
    rewrite close_eq. cbn [fst snd obj log]. intros [= <- <-].
    cbn [obj]. rewrite close_effect_body. reflexivity.
Qed.

(** C4: on a response whose body is not materialized, [json()] raises the
    usage error, as its own outcome; on a materialized empty body it returns
    the empty mapping; on a materialized non-empty body it returns
    [json.loads] of the bytes decoded as UTF-8.  A response fresh from a
    streamed request is unread; one whose [text()] returned is
    materialized. *)
Theorem json_correct :
  (forall r, _body r = None -> json r = Raise body_not_available)
  /\ (forall r, _body r = Some [] -> json r = Return (PyDict []))
  /\ (forall r body, _body r = Some body -> body <> [] ->
        json r = json_loads (Utf8.decode body))
  /\ (forall cr owner, json (new_response cr None owner) = Raise body_not_available)
  /\ (forall s t s', text_ s = (Return t, s') ->
        exists body, _body (obj s') = Some body /\ t = Utf8.decode body).
Proof.
  split_and!.
  - intros r H. unfold json. rewrite H. reflexivity.
  - intros r H. unfold json. rewrite H. reflexivity.
  - intros r body H Hne. unfold json. rewrite H.
    destruct body; [congruence|reflexivity].
  - reflexivity.
  - intros s t s'. unfold text_, bind, ret.
    destruct (_read_body s) as [[b|e] s0] eqn:E; [|discriminate].
    intros [= <- <-]. exists b. split; [|reflexivity].
    eapply read_body_materializes. eassumption.
Qed.

(** *** Fallback session *)

Lemma startswith_socks_nonempty p :
  PyString.startswith "socks" (PyString.lower p) = true ->
  PyString.nonempty p = true.
Proof. destruct p; [discriminate|reflexivity]. Qed.

(** [request] asks [_pick_proxy] first: when the URL is rejected nothing
    else happens, and otherwise the request goes on with the proxy found. *)
Lemma request_resolved self method url kw proxy_url s :
  resolved_proxy self url kw = Return proxy_url ->
  request self method url kw s = request_from self method url kw proxy_url s.
Proof.
  intros H. unfold resolved_proxy in H.
  unfold request, request_from. cbv zeta. unfold bind at 1. unfold lift.
  rewrite H. reflexivity.
Qed.

Lemma request_rejected self method url kw e s :
  resolved_proxy self url kw = Raise e ->
  request self method url kw s = (Raise e, s).
Proof.
  intros H. unfold resolved_proxy in H.
  unfold request. cbv zeta. unfold bind at 1. unfold lift.
  rewrite H. reflexivity.
Qed.

Lemma run_request_resolved self method url kw proxy_url :
  resolved_proxy self url kw = Return proxy_url ->
  run_request self method url kw
  = (fst (request_from self method url kw proxy_url (mkSt tt [])),
     log (snd (request_from self method url kw proxy_url (mkSt tt [])))).
Proof.
  intros H. unfold run_request. rewrite (request_resolved _ _ _ _ _ _ H).
  destruct (request_from _ _ _ _ _ _) as [res st]. reflexivity.
Qed.

Lemma run_request_rejected self method url kw e :
  resolved_proxy self url kw = Raise e ->
  run_request self method url kw = (Raise e, []).
Proof.
  intros H. unfold run_request. rewrite (request_rejected _ _ _ _ _ _ H).
  reflexivity.
Qed.

(** C1: when the proxy resolved for the request starts, in any letter case,
    with [socks] and [ProxyConnector] is unavailable, [request] raises the
    configuration error and the engine sees nothing: no session is opened,
    no request is sent, the event log is left as it was. *)
Theorem socks_unavailable_before_dispatch :
  forall self method url kw p,
    ProxyConnector = None ->
    resolved_proxy self url kw = Return (Some p) ->
    PyString.startswith "socks" (PyString.lower p) = true ->
    (forall tr, request self method url kw (mkSt tt tr)
                = (Raise socks_unavailable, mkSt tt tr))
    /\ run_request self method url kw = (Raise socks_unavailable, []).
Proof.
  intros self method url kw p Hpc Hp Hsocks.
  assert (H : forall tr, request self method url kw (mkSt tt tr)
                         = (Raise socks_unavailable, mkSt tt tr)).
  { intros tr. rewrite (request_resolved _ _ _ _ _ _ Hp).
    unfold request_from. cbv zeta.
    rewrite Hpc. unfold is_socks_url.
    rewrite Hsocks, (startswith_socks_nonempty p Hsocks).
    reflexivity. }
  split; [exact H|]. unfold run_request. rewrite H. reflexivity.
Qed.

Lemma request_outcome self method url kw pu tr :
  (is_socks_url pu = true -> is_Some ProxyConnector) ->
  match engine_failure self method url kw pu with
  | Some e =>
      fst (request_from self method url kw pu (mkSt tt tr)) = Raise (unified e)
  | None =>
      exists r, fst (request_from self method url kw pu (mkSt tt tr)) = Return r
  end.
Proof.
  intros Hguard. unfold request_from, engine_failure. cbv zeta.
  unfold is_socks_url in *.
  assert (Hplain :
    forall proxy_url,
    match after_send kw (send (plain_call self method url kw proxy_url)) with
    | Some e =>
        fst (try_except
               (sent <-
                  (resp <- session_request
                             (mkCall (_session self) (PyString.upper method) url
                                (pop (kw_allow_redirects kw) (PyBool true))
                                (Some proxy_url) (engine_kwargs kw));;
                   ret (resp, None));;
                let '(resp, owner) := sent in
                if truthy (pop (kw_stream kw) (PyBool false))
                then ret (new_response resp None owner)
                else
                  emit EvRead;;
                  let '(res, resp') := cr_read resp in
                  match res with
                  | Raise e => raise e
                  | Return body =>
                      closed_ <- on_object (new_response resp' (Some body) owner) close;;
                      ret (snd closed_)
                  end)
               (fun e => if is_engine_failure e
                         then raise (ExcFrom RequestsError (exc_msg e) e)
                         else raise e)
               (mkSt tt tr)) = Raise (unified e)
    | None =>
        exists r,
        fst (try_except
               (sent <-
                  (resp <- session_request
                             (mkCall (_session self) (PyString.upper method) url
                                (pop (kw_allow_redirects kw) (PyBool true))
                                (Some proxy_url) (engine_kwargs kw));;
                   ret (resp, None));;
                let '(resp, owner) := sent in
                if truthy (pop (kw_stream kw) (PyBool false))
                then ret (new_response resp None owner)
                else
                  emit EvRead;;
                  let '(res, resp') := cr_read resp in
                  match res with
                  | Raise e => raise e
                  | Return body =>
                      closed_ <- on_object (new_response resp' (Some body) owner) close;;
                      ret (snd closed_)
                  end)
               (fun e => if is_engine_failure e
                         then raise (ExcFrom RequestsError (exc_msg e) e)
                         else raise e)
               (mkSt tt tr)) = Return r
    end).
  { intros proxy_url. fold (plain_call self method url kw proxy_url).
    unfold after_send, session_request, on_object, cr_read, unified. run_monad.
    destruct (send (plain_call self method url kw proxy_url)) as [cr|e];
      cbn [fst snd obj log].
    - destruct (truthy (pop (kw_stream kw) (PyBool false))); cbn [fst snd obj log].
      + eexists. reflexivity.
      + destruct (stream_error cr) as [e|]; cbn [fst snd obj log].
        * destruct (is_engine_failure e); reflexivity.
        * rewrite close_eq. cbn [fst snd obj log]. eexists. reflexivity.
    - destruct (is_engine_failure e); reflexivity. }
  destruct pu as [p|]; [|cbn [andb]; exact (Hplain None)].
  destruct (PyString.nonempty p && PyString.startswith "socks" (PyString.lower p))
    eqn:Hs; [|cbn [andb]; exact (Hplain (Some p))].
  clear Hplain. specialize (Hguard eq_refl).
  destruct ProxyConnector as [from_url|]; [|destruct Hguard; discriminate].
  cbn [andb negb from_option id]. rewrite bool_decide_true by exact Hguard.
  cbn [negb].
  change (mkClientSession PyNone PyNone _ (SocksConnector p) true false _)
    with (socks_session kw p).
  change (mkCall (socks_session kw p) _ _ _ None _)
    with (socks_call method url kw p).
  unfold after_send, session_request, session_close, on_object, cr_read, unified.
  run_monad.
  destruct (from_url p) as [e|]; cbn [fst snd obj log].
  { destruct (is_engine_failure e); reflexivity. }
  destruct (send (socks_call method url kw p)) as [cr|e]; cbn [fst snd obj log].
  - destruct (truthy (pop (kw_stream kw) (PyBool false))); cbn [fst snd obj log].
    + eexists. reflexivity.
    + destruct (stream_error cr) as [e|]; cbn [fst snd obj log].
      * destruct (is_engine_failure e); reflexivity.
      * rewrite close_eq. cbn [fst snd obj log]. eexists. reflexivity.
  - cbn [cs_close_error socks_session].
    destruct (close_error (SocksConnector p)) as [e'|]; cbn [fst snd obj log].
    + destruct (is_engine_failure e'); reflexivity.
    + destruct (is_engine_failure e); reflexivity.
Qed.

Lemma close_effect_events self method url kw pu r :
  Forall (request_event self method url kw pu) (snd (close_effect r)).
Proof.
  unfold close_effect. destruct (_closed r); [constructor|].
  destruct (_owned_session r) as [o|];
    [destruct (closed o); [|destruct (cs_close_error o)]|];
    repeat constructor.
Qed.

Ltac events_ok :=
  cbn [fst snd obj log app];
  repeat match goal with
         | |- Forall _ (_ :: _) =>
             apply List.Forall_cons; [first [assumption | exact I]|]
         end;
  first [apply List.Forall_nil | apply close_effect_events].

Lemma request_events_from self method url kw pu :
  Forall (request_event self method url kw pu)
    (log (snd (request_from self method url kw pu (mkSt tt [])))).
Proof.
  unfold request_from. cbv zeta.
  unfold is_socks_url.
  assert (Hplain :
    forall proxy_url,
    Forall (request_event self method url kw proxy_url)
      (log (snd (try_except
               (sent <-
                  (resp <- session_request
                             (mkCall (_session self) (PyString.upper method) url
                                (pop (kw_allow_redirects kw) (PyBool true))
                                (Some proxy_url) (engine_kwargs kw));;
                   ret (resp, None));;
                let '(resp, owner) := sent in
                if truthy (pop (kw_stream kw) (PyBool false))
                then ret (new_response resp None owner)
                else
                  emit EvRead;;
                  let '(res, resp') := cr_read resp in
                  match res with
                  | Raise e => raise e
                  | Return body =>
                      closed_ <- on_object (new_response resp' (Some body) owner) close;;
                      ret (snd closed_)
                  end)
               (fun e => if is_engine_failure e
                         then raise (ExcFrom RequestsError (exc_msg e) e)
                         else raise e)
               (mkSt tt []))))).
  { intros proxy_url. fold (plain_call self method url kw proxy_url).
    unfold session_request, on_object, cr_read. run_monad.
    assert (Hsend : request_event self method url kw proxy_url
                      (EvSend (plain_call self method url kw proxy_url)))
      by (left; reflexivity).
    destruct (send (plain_call self method url kw proxy_url)) as [cr|e];
      cbn [fst snd obj log].
    - destruct (truthy (pop (kw_stream kw) (PyBool false))); cbn [fst snd obj log].
      + events_ok.
      + destruct (stream_error cr) as [e|]; cbn [fst snd obj log].
        * destruct (is_engine_failure e); events_ok.
        * rewrite close_eq. events_ok.
    - destruct (is_engine_failure e); events_ok. }
  destruct pu as [p|].
  2:{ cbn [andb]. exact (Hplain None). }
  destruct (PyString.nonempty p && PyString.startswith "socks" (PyString.lower p))
    eqn:Hs.
  2:{ cbn [andb]. exact (Hplain (Some p)). }
  clear Hplain.
  destruct ProxyConnector as [from_url|]; [|constructor].
  cbn [andb negb from_option id].
  rewrite bool_decide_true by (eexists; reflexivity). cbn [negb].
  change (mkClientSession PyNone PyNone _ (SocksConnector p) true false _)
    with (socks_session kw p).
  change (mkCall (socks_session kw p) _ _ _ None _)
    with (socks_call method url kw p).
  assert (Hopen : request_event self method url kw (Some p)
                    (EvOpenSession (socks_session kw p)))
    by (exists p; split; reflexivity).
  assert (Hsend : request_event self method url kw (Some p)
                    (EvSend (socks_call method url kw p)))
    by (right; exists p; split; reflexivity).
  unfold session_request, session_close, on_object, cr_read.
  run_monad.
  destruct (from_url p) as [e|]; cbn [fst snd obj log].
  { destruct (is_engine_failure e); events_ok. }
  destruct (send (socks_call method url kw p)) as [cr|e]; cbn [fst snd obj log].
  - destruct (truthy (pop (kw_stream kw) (PyBool false))); cbn [fst snd obj log].
    + events_ok.
    + destruct (stream_error cr) as [e|]; cbn [fst snd obj log].
      * destruct (is_engine_failure e); events_ok.
      * rewrite close_eq. events_ok.
  - cbn [cs_close_error socks_session].
    destruct (close_error (SocksConnector p)) as [e'|]; cbn [fst snd obj log].
    + destruct (is_engine_failure e'); events_ok.
    + destruct (is_engine_failure e); events_ok.
Qed.

(** The events of a request: none when the URL is rejected. *)
Lemma request_events self method url kw :
  match resolved_proxy self url kw with
  | Return pu =>
      Forall (request_event self method url kw pu)
        (snd (run_request self method url kw))
  | Raise _ => snd (run_request self method url kw) = []
  end.
Proof.
  destruct (resolved_proxy self url kw) as [pu|e] eqn:Hp.
  - rewrite (run_request_resolved _ _ _ _ _ Hp). apply request_events_from.
  - rewrite (run_request_rejected _ _ _ _ _ Hp). reflexivity.
Qed.

Lemma run_request_fst self method url kw :
  fst (run_request self method url kw)
  = fst (request self method url kw (mkSt tt [])).
Proof.
  unfold run_request. destruct (request _ _ _ _ _) as [res st]. reflexivity.
Qed.

Lemma engine_failure_guard self method url kw pu e :
  engine_failure self method url kw pu = Some e ->
  is_socks_url pu = true -> is_Some ProxyConnector.
Proof.
  unfold engine_failure, is_socks_url.
  destruct pu as [p|]; [|discriminate 2].
  intros Hf Hs. rewrite Hs in Hf.
  destruct ProxyConnector; [eexists; reflexivity|discriminate].
Qed.

Lemma unified_idempotent e : unified (unified e) = unified e.
Proof. unfold unified. destruct (is_engine_failure e) eqn:E; [reflexivity|]. rewrite E. reflexivity. Qed.

(** When the engine does not fail and SOCKS is available if needed, the
    request returns a response. *)
Lemma request_returns self method url kw pu :
  resolved_proxy self url kw = Return pu ->
  (is_socks_url pu = true -> is_Some ProxyConnector) ->
  engine_failure self method url kw pu = None ->
  exists r, fst (run_request self method url kw) = Return r.
Proof.
  intros Hp Hguard Hnone. rewrite run_request_fst.
  rewrite (request_resolved _ _ _ _ _ _ Hp).
  pose proof (request_outcome self method url kw pu [] Hguard) as H.
  rewrite Hnone in H. exact H.
Qed.

(** C3: when the engine interrupts a request with an exception, what
    [request] raises depends on the class of that exception only.  For an
    [aiohttp.ClientError] and for an [asyncio.TimeoutError] it is a
    [RequestsError] with the same message, raised from the original; an
    exception of any other class, a [RequestsError] among them, leaves
    [request] as it is, not wrapped. *)
Theorem engine_failure_unified :
  forall self method url kw proxy_url e,
    resolved_proxy self url kw = Return proxy_url ->
    engine_failure self method url kw proxy_url = Some e ->
    match exc_cls e with
    | ClientError | TimeoutError =>
        fst (run_request self method url kw)
        = Raise (ExcFrom RequestsError (exc_msg e) e)
    | RequestsError | RuntimeError | OtherException _ =>
        fst (run_request self method url kw) = Raise e
    end.
Proof.
  intros self method url kw proxy_url e Hp Hf.
  rewrite run_request_fst, (request_resolved _ _ _ _ _ _ Hp).
  pose proof (request_outcome self method url kw proxy_url []
                (engine_failure_guard _ _ _ _ _ _ Hf)) as H.
  rewrite Hf in H. rewrite H. unfold unified, is_engine_failure.
  destruct (exc_cls e); reflexivity.
Qed.

Lemma to_timeout_unconvertible value e :
  py_float value = Raise e -> _to_timeout value = None.
Proof.
  intros H. unfold _to_timeout. rewrite H. destruct value; reflexivity.
Qed.

Lemma remaining_lookup kw k :
  k <> "headers" -> k <> "cookies" ->
  remaining kw !! k
  = if bool_decide (k ∈ field_keys) then None else ArgPy <$> kw_rest kw !! k.
Proof.
  intros Hh Hc. unfold remaining.
  assert (Hothers :
    (ArgPy <$> filter (fun kv => kv.1 ∉ field_keys) (kw_rest kw)) !! k
    = if bool_decide (k ∈ field_keys) then None else ArgPy <$> kw_rest kw !! k).
  { rewrite lookup_fmap. case_bool_decide as Hk.
    - rewrite map_lookup_filter_None_2; [reflexivity|].
      right. intros x _ Hx. apply Hx, Hk.
    - destruct (kw_rest kw !! k) as [x|] eqn:E; cbn [fmap option_fmap option_map].
      + rewrite (map_lookup_filter_Some_2 _ _ k x); [reflexivity|exact E|exact Hk].
      + rewrite map_lookup_filter_None_2; [reflexivity|]. left. exact E. }
  cbv zeta.
  destruct (kw_headers kw), (kw_cookies kw);
    rewrite ?lookup_insert_ne by congruence; exact Hothers.
Qed.

Lemma engine_kwargs_timeout kw :
  engine_kwargs kw !! "timeout"
  = (fun t => ArgTimeout (mkClientTimeout t))
      <$> _to_timeout (pop (kw_timeout kw) PyNone).
Proof.
  unfold engine_kwargs. cbv zeta.
  assert (Hrem : remaining kw !! "timeout" = None).
  { rewrite remaining_lookup by discriminate. reflexivity. }
  destruct (_to_timeout (pop (kw_timeout kw) PyNone)) as [t|];
    destruct (pop (kw_verify kw) PyNone);
    try (rewrite (lookup_insert_ne _ "ssl") by discriminate);
    rewrite ?lookup_insert_eq; try reflexivity; exact Hrem.
Qed.

Lemma engine_kwargs_ssl kw :
  engine_kwargs kw !! "ssl"
  = match pop (kw_verify kw) PyNone with
    | PyNone => ArgPy <$> kw_rest kw !! "ssl"
    | v => Some (ArgSsl (_ssl_for_verify v))
    end.
Proof.
  unfold engine_kwargs. cbv zeta.
  assert (Hrem : remaining kw !! "ssl" = ArgPy <$> kw_rest kw !! "ssl").
  { rewrite remaining_lookup by discriminate. reflexivity. }
  destruct (pop (kw_verify kw) PyNone); rewrite ?lookup_insert_eq;
    try reflexivity;
    destruct (_to_timeout (pop (kw_timeout kw) PyNone));
    try (rewrite (lookup_insert_ne _ "timeout") by discriminate); exact Hrem.
Qed.

(** C10: a timeout value for which [float()] raises is treated as absent,
    with no error.  [_to_timeout] returns [None] for it; a session built
    with it is the session built without a timeout and has no client
    timeout; a request made with it is the request made without a timeout:
    the call carries no [timeout] keyword, so that on the persistent session
    the timeout of the session, when it has one, is the one in force, and a
    temporary session is built without a timeout. *)
Theorem unconvertible_timeout_is_absent :
  forall value e,
    py_float value = Raise e ->
    _to_timeout value = None
    /\ (forall kw,
          __init__ (with_timeout (Some value) kw) = __init__ (with_timeout None kw)
          /\ cs_timeout (_session (__init__ (with_timeout (Some value) kw))) = None)
    /\ (forall self method url kw,
          request self method url (with_timeout (Some value) kw)
          = request self method url (with_timeout None kw))
    /\ (forall self method url kw ev,
          ev ∈ snd (run_request self method url (with_timeout (Some value) kw)) ->
          match ev with
          | EvSend c =>
              ec_kwargs c !! "timeout" = None
              /\ match ec_proxy c with
                 | Some _ => ec_session c = _session self
                 | None => cs_timeout (ec_session c) = None
                 end
          | EvOpenSession cs => cs_timeout cs = None
          | _ => True
          end).
Proof.
  intros value e Hf.
  pose proof (to_timeout_unconvertible value e Hf) as Hto.
  assert (Hkw : forall kw,
             engine_kwargs (with_timeout (Some value) kw) !! "timeout" = None).
  { intros kw. rewrite engine_kwargs_timeout.
    cbn [with_timeout kw_timeout pop from_option id]. rewrite Hto. reflexivity. }
  assert (Hpk : forall kw,
             pk_timeout (engine_kwargs (with_timeout (Some value) kw)) = None).
  { intros kw. unfold pk_timeout. rewrite Hkw. reflexivity. }
  split_and!.
  - exact Hto.
  - intros kw. unfold __init__.
    cbn [with_timeout kw_timeout kw_headers kw_cookies kw_verify kw_proxy
         kw_proxies pop from_option id _session cs_timeout].
    rewrite Hto. split; reflexivity.
  - intros self method url kw. unfold request, remaining.
    cbn [with_timeout kw_timeout kw_headers kw_cookies kw_verify kw_proxy
         kw_proxies kw_stream kw_allow_redirects kw_rest pop from_option id].
    rewrite Hto. reflexivity.
  - intros self method url kw ev Hin.
    pose proof (request_events self method url (with_timeout (Some value) kw)) as Hall.
    destruct (resolved_proxy self url (with_timeout (Some value) kw)) as [pu|e'].
    2:{ rewrite Hall in Hin. apply elem_of_nil in Hin. destruct Hin. }
    rewrite Forall_forall in Hall. specialize (Hall ev Hin).
    destruct ev as [cs|c| | |]; try exact I.
    + destruct Hall as (p & _ & ->). cbn [socks_session cs_timeout]. apply Hpk.
    + destruct Hall as [-> | (p & _ & ->)];
        cbn [plain_call socks_call ec_kwargs ec_proxy ec_session
             socks_session cs_timeout];
        (split; [apply Hkw|]); [reflexivity|apply Hpk].
Qed.

(** *** Response wrapper: [aiter_lines] *)

Lemma drain_lines_none buf :
  PyBytes.split1 buf = None -> drain_lines buf = ([], buf).
Proof.
  intros H. funelim (drain_lines buf); [congruence|reflexivity].
Qed.

Lemma drain_lines_some buf raw rest :
  PyBytes.split1 buf = Some (raw, rest) ->
  drain_lines buf = (raw :: fst (drain_lines rest), snd (drain_lines rest)).
Proof.
  intros H. funelim (drain_lines buf); [|congruence].
  match goal with
  | E : PyBytes.split1 ?b = Some (?x, ?y), H : PyBytes.split1 ?b = Some _ |- _ =>
      rewrite E in H; injection H as <- <-
  end.
  reflexivity.
Qed.

Lemma drain_lines_cons b buf :
  drain_lines (b :: buf) =
    if PyBytes.is_lf b then ([] :: fst (drain_lines buf), snd (drain_lines buf))
    else
      match fst (drain_lines buf) with
      | raw :: raws => ((b :: raw) :: raws, snd (drain_lines buf))
      | [] => ([], b :: snd (drain_lines buf))
      end.
Proof.
  destruct (PyBytes.is_lf b) eqn:Hb.
  - apply drain_lines_some. simpl. rewrite Hb. reflexivity.
  - destruct (PyBytes.split1 buf) as [[raw rest]|] eqn:E.
    + rewrite (drain_lines_some buf raw rest E). cbn [fst snd].
      apply drain_lines_some. simpl. rewrite Hb, E. reflexivity.
    + rewrite (drain_lines_none buf E). cbn [fst snd].
      apply drain_lines_none. simpl. rewrite Hb, E. reflexivity.
Qed.

Lemma drain_lines_nil : drain_lines [] = ([], []).
Proof. apply drain_lines_none. reflexivity. Qed.

Lemma drain_lines_rest buf : PyBytes.split1 (snd (drain_lines buf)) = None.
Proof.
  induction buf as [|b buf IH].
  - rewrite drain_lines_nil. reflexivity.
  - rewrite drain_lines_cons. destruct (PyBytes.is_lf b) eqn:Hb; [exact IH|].
    destruct (fst (drain_lines buf)); cbn [snd]; [|exact IH].
    simpl. rewrite Hb, IH. reflexivity.
Qed.

Lemma drain_lines_app x y :
  drain_lines (x ++ y) =
    (fst (drain_lines x) ++ fst (drain_lines (snd (drain_lines x) ++ y)),
     snd (drain_lines (snd (drain_lines x) ++ y))).
Proof.
  induction x as [|b x IH].
  - rewrite drain_lines_nil. cbn [fst snd app].
    destruct (drain_lines y); reflexivity.
  - cbn [app]. rewrite !drain_lines_cons, IH.
    destruct (PyBytes.is_lf b) eqn:Hb; cbn [fst snd app]; [reflexivity|].
    destruct (fst (drain_lines x)) as [|raw raws]; cbn [fst snd app].
    + rewrite drain_lines_cons, Hb.
      destruct (fst (drain_lines (snd (drain_lines x) ++ y))); reflexivity.
    + reflexivity.
Qed.

Lemma split_lf_drain body :
  split_lf body = fst (drain_lines body) ++ [snd (drain_lines body)].
Proof.
  induction body as [|b body IH].
  - rewrite drain_lines_nil. reflexivity.
  - cbn [split_lf]. rewrite drain_lines_cons, IH.
    destruct (PyBytes.is_lf b); cbn [fst snd app]; [reflexivity|].
    destruct (fst (drain_lines body)); reflexivity.
Qed.

Lemma body_lines_drain body :
  body_lines body
  = fst (drain_lines body) ++ flush (snd (drain_lines body)).
Proof.
  unfold body_lines. rewrite split_lf_drain.
  rewrite List.removelast_last, List.last_last. reflexivity.
Qed.

Lemma lines_loop_all chunks : forall buf,
  PyBytes.split1 buf = None ->
  lines_loop buf chunks None =
    (List.map decode_line (fst (drain_lines (buf ++ concat chunks))), [],
     Some (snd (drain_lines (buf ++ concat chunks)), None)).
Proof.
  induction chunks as [|chunk chunks IH]; intros buf Hbuf.
  - cbn [lines_loop concat]. rewrite app_nil_r, (drain_lines_none buf Hbuf).
    reflexivity.
  - cbn [lines_loop concat]. destruct chunk as [|b chunk].
    + cbn [app]. apply IH, Hbuf.
    + rewrite app_assoc. rewrite (drain_lines_app (buf ++ b :: chunk)).
      destruct (drain_lines (buf ++ b :: chunk)) as [raws buf'] eqn:E.
      cbn [serve fst snd].
      assert (Hrest : PyBytes.split1 buf' = None).
      { pose proof (drain_lines_rest (buf ++ b :: chunk)) as H.
        rewrite E in H. exact H. }
      rewrite (IH buf' Hrest). rewrite List.map_app. reflexivity.
Qed.
















(** *** Proxy maps built from textual options have no empty entry *)

Lemma textual_str s : textual (PyStr s).
Proof. unfold textual. destruct s; [discriminate|discriminate]. Qed.

Lemma textual_none : textual PyNone.
Proof. unfold textual. discriminate. Qed.

Lemma textual_bool b : textual (PyBool b).
Proof. unfold textual. destruct b; discriminate. Qed.

Lemma no_empty_entry_empty : no_empty_entry ∅.
Proof. intros k p H. rewrite lookup_empty in H. discriminate. Qed.

Lemma no_empty_entry_insert k p (m : gmap string string) :
  p <> "" -> no_empty_entry m -> no_empty_entry (<[k := p]> m).
Proof.
  intros Hp Hm k' p' H. destruct (decide (k = k')) as [<-|Hne].
  - rewrite lookup_insert_eq in H. congruence.
  - rewrite lookup_insert_ne in H by exact Hne. eapply Hm, H.
Qed.

Lemma no_empty_entry_union (m1 m2 : gmap string string) :
  no_empty_entry m1 -> no_empty_entry m2 -> no_empty_entry (m1 ∪ m2).
Proof.
  intros H1 H2 k p H. apply lookup_union_Some_raw in H as [H | [_ H]].
  - eapply H1, H.
  - eapply H2, H.
Qed.

Lemma normalize_fold_no_empty items : forall out,
  Forall (fun item => textual (snd item)) items ->
  no_empty_entry out -> no_empty_entry (foldl normalize_step out items).
Proof.
  induction items as [|[key proxy] items IH]; intros out Hitems Hout; [exact Hout|].
  apply Forall_cons in Hitems as [Hp Hitems]. cbn [foldl]. apply IH; [exact Hitems|].
  unfold normalize_step. cbn [snd] in Hp.
  destruct (truthy proxy) eqn:Ht; cbn [negb]; [|exact Hout].
  destruct (is_proxy_scheme _); [|exact Hout].
  apply no_empty_entry_insert; [apply Hp; exact Ht|exact Hout].
Qed.

Lemma normalize_proxies_no_empty value :
  textual_proxies value ->
  no_empty_entry (default ∅ (_normalize_proxies value)).
Proof.
  intros Hv. unfold _normalize_proxies.
  destruct (py_truth value) eqn:Ht; cbn [negb]; [|apply no_empty_entry_empty].
  destruct value as [o|items].
  - destruct o; try apply no_empty_entry_empty. cbn [from_option id].
    assert (s <> "") by (destruct s; [discriminate|discriminate]).
    repeat apply no_empty_entry_insert; try assumption.
    apply no_empty_entry_empty.
  - destruct (decide _); cbn [from_option id]; [apply no_empty_entry_empty|].
    apply normalize_fold_no_empty; [exact Hv|apply no_empty_entry_empty].
Qed.

Lemma request_proxy_map_no_empty default_proxies proxy proxies :
  no_empty_entry (default ∅ default_proxies) ->
  textual proxy -> textual_proxies proxies ->
  no_empty_entry (request_proxy_map default_proxies proxy proxies).
Proof.
  intros Hd Hp Hps. unfold request_proxy_map.
  pose proof (normalize_proxies_no_empty proxies Hps) as He.
  assert (Hm : no_empty_entry
                 match _normalize_proxies proxies with
                 | Some e => if decide (e = ∅) then default ∅ default_proxies
                             else dict_update (default ∅ default_proxies) e
                 | None => default ∅ default_proxies
                 end).
  { destruct (_normalize_proxies proxies) as [e|]; [|exact Hd].
    destruct (decide (e = ∅)); [exact Hd|].
    apply no_empty_entry_union; assumption. }
  destruct (truthy proxy) eqn:Ht; [|exact Hm].
  repeat apply no_empty_entry_insert; try assumption; apply Hp; exact Ht.
Qed.

Lemma init_default_proxies_no_empty proxy proxies :
  textual proxy -> textual_proxies proxies ->
  no_empty_entry (default ∅ (init_default_proxies proxy proxies)).
Proof.
  intros Hp Hps. unfold init_default_proxies.
  pose proof (normalize_proxies_no_empty proxies Hps) as He.
  destruct (truthy proxy) eqn:Ht; [|exact He]. cbn [from_option id].
  repeat apply no_empty_entry_insert; try assumption; apply Hp; exact Ht.
Qed.

(** The proxy a request resolves is the first entry present, whenever the
    proxy options of the session and of the call are textual. *)
Lemma resolved_proxy_first_present kw0 url kw parsed :
  urlparse_scheme url = Return parsed ->
  textual (pop (kw_proxy kw0) PyNone) ->
  textual_proxies (pop (kw_proxies kw0) (PyObj PyNone)) ->
  textual (pop (kw_proxy kw) PyNone) ->
  textual_proxies (pop (kw_proxies kw) (PyObj PyNone)) ->
  resolved_proxy (__init__ kw0) url kw
  = Return
      (first_present
         (request_proxy_map (_default_proxies (__init__ kw0))
            (pop (kw_proxy kw) PyNone) (pop (kw_proxies kw) (PyObj PyNone)))
         (url_scheme parsed)).
Proof.
  intros Hparse H1 H2 H3 H4. unfold resolved_proxy.
  apply pick_proxy_first_present; [exact Hparse|].
  apply request_proxy_map_no_empty; try assumption.
  apply init_default_proxies_no_empty; assumption.
Qed.

(** *** The outcome of a request, case by case *)

Lemma request_from_eq self method url kw pu tr :
  request_from self method url kw pu (mkSt tt tr)
  = (fst (effect_from self method url kw pu),
     mkSt tt (tr ++ snd (effect_from self method url kw pu))).
Proof.
  unfold request_from, effect_from. cbv zeta.
  unfold is_socks_url.
  assert (Hplain :
    forall proxy_url,
    try_except
      (sent <-
         (resp <- session_request
                    (mkCall (_session self) (PyString.upper method) url
                       (pop (kw_allow_redirects kw) (PyBool true))
                       (Some proxy_url) (engine_kwargs kw));;
          ret (resp, None));;
       let '(resp, owner) := sent in
       if truthy (pop (kw_stream kw) (PyBool false))
       then ret (new_response resp None owner)
       else
         emit EvRead;;
         let '(res, resp') := cr_read resp in
         match res with
         | Raise e => raise e
         | Return body =>
             closed_ <- on_object (new_response resp' (Some body) owner) close;;
             ret (snd closed_)
         end)
      (fun e => if is_engine_failure e
                then raise (ExcFrom RequestsError (exc_msg e) e)
                else raise e)
      (mkSt tt tr)
    = (fst match send (plain_call self method url kw proxy_url) with
           | Raise e => (Raise (unified e), [EvSend (plain_call self method url kw proxy_url)])
           | Return cr =>
               (fst (settle_effect kw cr None),
                EvSend (plain_call self method url kw proxy_url)
                :: snd (settle_effect kw cr None))
           end,
       mkSt tt (tr ++ snd match send (plain_call self method url kw proxy_url) with
                          | Raise e =>
                              (Raise (unified e),
                               [EvSend (plain_call self method url kw proxy_url)])
                          | Return cr =>
                              (fst (settle_effect kw cr None),
                               EvSend (plain_call self method url kw proxy_url)
                               :: snd (settle_effect kw cr None))
                          end))).
  { intros proxy_url. fold (plain_call self method url kw proxy_url).
    unfold settle_effect, session_request, on_object, cr_read, unified. run_monad.
    destruct (send (plain_call self method url kw proxy_url)) as [cr|e]; cbn [fst snd obj log].
    - destruct (truthy (pop (kw_stream kw) (PyBool false))); cbn [fst snd obj log].
      + reflexivity.
      + destruct (stream_error cr) as [e|] eqn:E; cbn [fst snd obj log].
        * destruct (is_engine_failure e); rewrite <- app_assoc; reflexivity.
        * rewrite close_eq. cbn [fst snd obj log]. rewrite <- !app_assoc.
          unfold set_content. rewrite E. reflexivity.
    - destruct (is_engine_failure e); reflexivity. }
  destruct pu as [p|]; [|cbn [andb]; exact (Hplain None)].
  destruct (PyString.nonempty p && PyString.startswith "socks" (PyString.lower p))
    eqn:Hs; [|cbn [andb]; exact (Hplain (Some p))].
  clear Hplain.
  destruct ProxyConnector as [from_url|];
    [|cbn [fst snd]; rewrite app_nil_r; reflexivity].
  cbn [andb negb from_option id].
  rewrite bool_decide_true by (eexists; reflexivity). cbn [negb].
  change (mkClientSession PyNone PyNone _ (SocksConnector p) true false _)
    with (socks_session kw p).
  change (mkCall (socks_session kw p) _ _ _ None _)
    with (socks_call method url kw p).
  unfold settle_effect, session_request, session_close, on_object, cr_read, unified.
  run_monad.
  destruct (from_url p) as [e|]; cbn [fst snd obj log].
  { destruct (is_engine_failure e); rewrite app_nil_r; reflexivity. }
  destruct (send (socks_call method url kw p)) as [cr|e]; cbn [fst snd obj log].
  - destruct (truthy (pop (kw_stream kw) (PyBool false))); cbn [fst snd obj log].
    + rewrite <- app_assoc. reflexivity.
    + destruct (stream_error cr) as [e|] eqn:E; cbn [fst snd obj log].
      * destruct (is_engine_failure e); rewrite <- !app_assoc; reflexivity.
      * rewrite close_eq. cbn [fst snd obj log]. rewrite <- !app_assoc.
        unfold set_content. rewrite E. reflexivity.
  - cbn [cs_close_error socks_session].
    destruct (close_error (SocksConnector p)) as [e'|]; cbn [fst snd obj log].
    + destruct (is_engine_failure e'); rewrite <- !app_assoc; reflexivity.
    + destruct (is_engine_failure e); rewrite <- !app_assoc; reflexivity.
Qed.

Lemma request_eq self method url kw tr :
  request self method url kw (mkSt tt tr)
  = (fst (request_effect self method url kw),
     mkSt tt (tr ++ snd (request_effect self method url kw))).
Proof.
  unfold request_effect.
  destruct (resolved_proxy self url kw) as [pu|e] eqn:Hp.
  - rewrite (request_resolved _ _ _ _ _ _ Hp). apply request_from_eq.
  - rewrite (request_rejected _ _ _ _ _ _ Hp). cbn [fst snd].
    rewrite app_nil_r. reflexivity.
Qed.

Lemma run_request_effect self method url kw :
  run_request self method url kw = request_effect self method url kw.
Proof.
  unfold run_request. rewrite request_eq. cbn [app log].
  destruct (request_effect self method url kw); reflexivity.
Qed.

Lemma request_effect_plain self method url kw pu :
  resolved_proxy self url kw = Return pu ->
  is_socks_url pu = false ->
  request_effect self method url kw =
    match send (plain_call self method url kw pu) with
    | Raise e =>
        (Raise (unified e), [EvSend (plain_call self method url kw pu)])
    | Return cr =>
        (fst (settle_effect kw cr None),
         EvSend (plain_call self method url kw pu)
         :: snd (settle_effect kw cr None))
    end.
Proof.
  intros Hp. unfold request_effect. rewrite Hp.
  unfold effect_from, is_socks_url. cbv zeta.
  destruct pu as [p|]; [|reflexivity].
  intros ->. reflexivity.
Qed.

Lemma request_effect_socks self method url kw p from_url :
  resolved_proxy self url kw = Return (Some p) ->
  is_socks_url (Some p) = true ->
  ProxyConnector = Some from_url ->
  from_url p = None ->
  request_effect self method url kw =
    match send (socks_call method url kw p) with
    | Raise e =>
        (Raise (unified (match close_error (SocksConnector p) with
                         | Some e' => e'
                         | None => e
                         end)),
         [EvOpenSession (socks_session kw p);
          EvSend (socks_call method url kw p); EvCloseSession])
    | Return cr =>
        (fst (settle_effect kw cr (Some (socks_session kw p))),
         EvOpenSession (socks_session kw p)
         :: EvSend (socks_call method url kw p)
         :: snd (settle_effect kw cr (Some (socks_session kw p))))
    end.
Proof.
  intros Hp Hs Hpc Hurl. unfold request_effect. rewrite Hp.
  unfold effect_from. cbv zeta.
  unfold is_socks_url in Hs. rewrite Hs, Hpc, Hurl. reflexivity.
Qed.

(** X1: a buffered request answered through the persistent session sends one
    request, reads the body, releases the handle once, and returns a
    materialized, closed response without an owned session, holding the
    engine's status, headers and the whole body; [json()] on it never raises
    the usage error.  This holds whether or not [release()] fails. *)
Theorem buffered_request_materialized :
  forall self method url kw proxy_url cr,
    resolved_proxy self url kw = Return proxy_url ->
    is_socks_url proxy_url = false ->
    send (plain_call self method url kw proxy_url) = Return cr ->
    truthy (pop (kw_stream kw) (PyBool false)) = false ->
    stream_error cr = None ->
    exists r,
      run_request self method url kw
      = (Return r,
         [EvSend (plain_call self method url kw proxy_url); EvRead; EvRelease])
      /\ _body r = Some (concat (content cr))
      /\ _closed r = true
      /\ _owned_session r = None
      /\ status_code r = status cr
      /\ headers r = cr_headers cr
      /\ json r = match concat (content cr) with
                  | [] => Return (PyDict [])
                  | body => json_loads (Utf8.decode body)
                  end.
Proof.
  intros self method url kw proxy_url cr Hp Hplain Hsend Hstream Herr.
  rewrite run_request_effect, (request_effect_plain _ _ _ _ _ Hp Hplain), Hsend.
  unfold settle_effect. rewrite Hstream, Herr. cbn [fst snd].
  eexists. split; [reflexivity|]. unfold json. cbn.
  split_and!; try reflexivity.
  destruct (concat (content cr)); reflexivity.
Qed.

(** X2: a streamed request answered through the persistent session sends one
    request and nothing else: the body is not read and the handle is not
    released, and the response comes back unread and open, with the stream
    untouched.  A stream that will fail later does not make the request
    fail. *)
Theorem streamed_request_unread :
  forall self method url kw proxy_url cr,
    resolved_proxy self url kw = Return proxy_url ->
    is_socks_url proxy_url = false ->
    send (plain_call self method url kw proxy_url) = Return cr ->
    truthy (pop (kw_stream kw) (PyBool false)) = true ->
    run_request self method url kw
    = (Return (new_response cr None None),
       [EvSend (plain_call self method url kw proxy_url)])
    /\ _body (new_response cr None None) = None
    /\ _closed (new_response cr None None) = false
    /\ content (_response (new_response cr None None)) = content cr.
Proof.
  intros self method url kw proxy_url cr Hp Hplain Hsend Hstream.
  rewrite run_request_effect, (request_effect_plain _ _ _ _ _ Hp Hplain), Hsend.
  unfold settle_effect. rewrite Hstream. split_and!; reflexivity.
Qed.

(** X3: on the SOCKS path, when sending fails the temporary session is
    closed before the error leaves [request]: one session is opened, one
    request is sent on it, and the session is closed; the error raised is
    the unified form of the send error, or of the error of that [close()]
    when it fails too. *)
Theorem socks_failed_send_closes_session :
  forall self method url kw p from_url e,
    resolved_proxy self url kw = Return (Some p) ->
    is_socks_url (Some p) = true ->
    ProxyConnector = Some from_url ->
    from_url p = None ->
    send (socks_call method url kw p) = Raise e ->
    run_request self method url kw
    = (Raise (unified (match close_error (SocksConnector p) with
                       | Some e' => e'
                       | None => e
                       end)),
       [EvOpenSession (socks_session kw p);
        EvSend (socks_call method url kw p); EvCloseSession]).
Proof.
  intros self method url kw p from_url e Hp Hs Hpc Hurl Hsend.
  rewrite run_request_effect, (request_effect_socks _ _ _ _ _ _ Hp Hs Hpc Hurl).
  rewrite Hsend. reflexivity.
Qed.

(** X4: on the SOCKS path a successful request hands the temporary session
    to the response.  Streamed, the response is unread and open and owns the
    session, and its [close()] releases the handle and then closes the
    session; buffered, with a stream that does not fail, the request itself
    reads, releases and closes the session, in that order. *)
Theorem socks_response_owns_session :
  forall self method url kw p from_url cr,
    resolved_proxy self url kw = Return (Some p) ->
    is_socks_url (Some p) = true ->
    ProxyConnector = Some from_url ->
    from_url p = None ->
    send (socks_call method url kw p) = Return cr ->
    if truthy (pop (kw_stream kw) (PyBool false))
    then
      run_request self method url kw
      = (Return (new_response cr None (Some (socks_session kw p))),
         [EvOpenSession (socks_session kw p); EvSend (socks_call method url kw p)])
      /\ forall tr,
           log (snd (close (mkSt (new_response cr None (Some (socks_session kw p))) tr)))
           = tr ++ [EvRelease; EvCloseSession]
    else
      stream_error cr = None ->
      exists r,
        run_request self method url kw
        = (Return r,
           [EvOpenSession (socks_session kw p); EvSend (socks_call method url kw p);
            EvRead; EvRelease; EvCloseSession])
        /\ _closed r = true /\ _body r = Some (concat (content cr)).
Proof.
  intros self method url kw p from_url cr Hp Hs Hpc Hurl Hsend.
  rewrite run_request_effect, (request_effect_socks _ _ _ _ _ _ Hp Hs Hpc Hurl).
  rewrite Hsend. unfold settle_effect.
  destruct (truthy (pop (kw_stream kw) (PyBool false))).
  - split; [reflexivity|]. intros tr. rewrite close_eq. cbn [snd log obj].
    unfold close_effect. cbn.
    destruct (close_error (SocksConnector p)); reflexivity.
  - intros Herr. rewrite Herr. cbn [fst snd]. unfold close_effect. cbn.
    destruct (close_error (SocksConnector p)); cbn [fst snd];
      eexists; (split; [reflexivity|split; reflexivity]).
Qed.

(** X5: when reading the body of a buffered response fails, [request] raises
    the unified error having called neither [release()] nor, on the SOCKS
    path, the [close()] of the temporary session it opened. *)
Theorem failed_read_releases_nothing :
  forall self method url kw cr e,
    truthy (pop (kw_stream kw) (PyBool false)) = false ->
    stream_error cr = Some e ->
    (forall proxy_url,
       resolved_proxy self url kw = Return proxy_url ->
       is_socks_url proxy_url = false ->
       send (plain_call self method url kw proxy_url) = Return cr ->
       run_request self method url kw
       = (Raise (unified e),
          [EvSend (plain_call self method url kw proxy_url); EvRead]))
    /\ (forall p from_url,
          resolved_proxy self url kw = Return (Some p) ->
          is_socks_url (Some p) = true ->
          ProxyConnector = Some from_url ->
          from_url p = None ->
          send (socks_call method url kw p) = Return cr ->
          run_request self method url kw
          = (Raise (unified e),
             [EvOpenSession (socks_session kw p);
              EvSend (socks_call method url kw p); EvRead])).
Proof.
  intros self method url kw cr e Hstream Herr. split.
  - intros proxy_url Hp Hplain Hsend.
    rewrite run_request_effect, (request_effect_plain _ _ _ _ _ Hp Hplain), Hsend.
    unfold settle_effect. rewrite Hstream, Herr. reflexivity.
  - intros p from_url Hp Hs Hpc Hurl Hsend.
    rewrite run_request_effect, (request_effect_socks _ _ _ _ _ _ Hp Hs Hpc Hurl).
    rewrite Hsend. unfold settle_effect. rewrite Hstream, Herr. reflexivity.
Qed.

Lemma sent_calls_close_effect r : sent_calls (snd (close_effect r)) = [].
Proof.
  unfold close_effect. destruct (_closed r); [reflexivity|].
  destruct (_owned_session r) as [o|]; [|reflexivity].
  destruct (closed o); [reflexivity|].
  destruct (cs_close_error o); reflexivity.
Qed.

Lemma sent_calls_settle kw cr owner :
  sent_calls (snd (settle_effect kw cr owner)) = []
  /\ count_events is_open_session (snd (settle_effect kw cr owner)) = 0.
Proof.
  unfold settle_effect.
  destruct (truthy _); [split; reflexivity|].
  destruct (stream_error cr); [split; reflexivity|].
  cbn [snd sent_calls count_events is_open_session]. split.
  - apply sent_calls_close_effect.
  - unfold close_effect. cbn.
    destruct owner as [o|]; [|reflexivity].
    destruct (closed o); [reflexivity|].
    destruct (cs_close_error o); reflexivity.
Qed.

(** X6: a call of [request] sends at most one request and opens at most one
    temporary session.  The request it sends carries the upper-cased method,
    the URL as given and the keyword arguments of the call; it goes either
    to the persistent session, with the resolved proxy as [proxy=] and that
    proxy not a SOCKS URL, or to a temporary session with a SOCKS connector
    for the resolved proxy, without a [proxy=]. *)
Theorem one_request_per_call :
  forall self method url kw,
    length (sent_calls (snd (run_request self method url kw))) <= 1
    /\ count_events is_open_session (snd (run_request self method url kw)) <= 1
    /\ forall c,
         c ∈ sent_calls (snd (run_request self method url kw)) ->
         ec_method c = PyString.upper method
         /\ ec_url c = url
         /\ ec_kwargs c = engine_kwargs kw
         /\ match ec_proxy c with
            | Some proxy_url =>
                ec_session c = _session self
                /\ resolved_proxy self url kw = Return proxy_url
                /\ is_socks_url proxy_url = false
            | None =>
                exists p,
                  resolved_proxy self url kw = Return (Some p)
                  /\ is_socks_url (Some p) = true
                  /\ ec_session c = socks_session kw p
            end.
Proof.
  intros self method url kw. rewrite run_request_effect.
  destruct (resolved_proxy self url kw) as [pu|e0] eqn:Hp.
  2:{ unfold request_effect. rewrite Hp. cbn.
      split_and!; [lia|lia|]. intros c Hc. apply elem_of_nil in Hc. destruct Hc. }
  destruct (is_socks_url pu) eqn:Hs.
  2:{ rewrite (request_effect_plain _ _ _ _ _ Hp Hs).
      assert (Hone : forall c, c ∈ [plain_call self method url kw pu] ->
                ec_method c = PyString.upper method
                /\ ec_url c = url
                /\ ec_kwargs c = engine_kwargs kw
                /\ match ec_proxy c with
                   | Some proxy_url =>
                       ec_session c = _session self
                       /\ Return pu = Return proxy_url
                       /\ is_socks_url proxy_url = false
                   | None =>
                       exists p, Return pu = Return (Some p)
                                 /\ is_socks_url (Some p) = true
                                 /\ ec_session c = socks_session kw p
                   end).
      { intros c Hc. apply list_elem_of_singleton in Hc. subst c. cbn.
        split_and!; try reflexivity. exact Hs. }
      destruct (send (plain_call self method url kw pu)) as [cr|e];
        cbn [fst snd sent_calls count_events is_open_session length].
      - destruct (sent_calls_settle kw cr None) as [-> ->]. cbn [length].
        split_and!; [lia|lia|exact Hone].
      - split_and!; [lia|lia|exact Hone]. }
  destruct pu as [p|]; [|discriminate Hs].
  unfold request_effect. rewrite Hp. unfold effect_from. cbv zeta.
  pose proof Hs as Hs'. unfold is_socks_url in Hs'. rewrite Hs'.
  destruct ProxyConnector as [from_url|].
  2:{ cbn. split_and!; [lia|lia|]. intros c Hc. apply elem_of_nil in Hc. destruct Hc. }
  destruct (from_url p).
  { cbn. split_and!; [lia|lia|]. intros c Hc. apply elem_of_nil in Hc. destruct Hc. }
  assert (Hcall : forall c, c ∈ [socks_call method url kw p] ->
            ec_method c = PyString.upper method
            /\ ec_url c = url
            /\ ec_kwargs c = engine_kwargs kw
            /\ match ec_proxy c with
               | Some proxy_url =>
                   ec_session c = _session self
                   /\ Return (Some p) = Return proxy_url
                   /\ is_socks_url proxy_url = false
               | None =>
                   exists p0, Return (Some p) = Return (Some p0)
                              /\ is_socks_url (Some p0) = true
                              /\ ec_session c = socks_session kw p0
               end).
  { intros c Hc. apply list_elem_of_singleton in Hc. subst c. cbn.
    split_and!; try reflexivity. exists p. split_and!; [reflexivity|exact Hs|reflexivity]. }
  destruct (send (socks_call method url kw p)) as [cr|e];
    cbn [fst snd sent_calls count_events is_open_session length].
  - destruct (sent_calls_settle kw cr (Some (socks_session kw p))) as [-> ->].
    cbn [length]. split_and!; [lia|lia|exact Hcall].
  - split_and!; [lia|lia|exact Hcall].
Qed.

(** X7: the module itself switches certificate verification off only for a
    [verify] value that is one of the tokens or another number equal to
    zero.  A session's connector has [ssl=False] only when its [verify]
    option, by default [True], is such a value.  The [ssl] keyword a request
    is sent with is the builder's answer to the call's [verify] option when
    that is given and not [None], and then [False] only for such a value;
    otherwise it is the caller's own [ssl] keyword, forwarded untouched, if
    the call has one. *)
Theorem verification_off_only_by_token :
  (forall kw,
      cs_connector (_session (__init__ kw)) = TCPConnector SslFalse ->
      is_verify_token (pop (kw_verify kw) (PyBool true))
      \/ is_other_zero (pop (kw_verify kw) (PyBool true)))
  /\ (forall self method url kw c,
        c ∈ sent_calls (snd (run_request self method url kw)) ->
        ec_kwargs c !! "ssl"
        = match pop (kw_verify kw) PyNone with
          | PyNone => ArgPy <$> kw_rest kw !! "ssl"
          | v => Some (ArgSsl (_ssl_for_verify v))
          end
        /\ (ec_kwargs c !! "ssl" = Some (ArgSsl SslFalse) ->
            is_verify_token (pop (kw_verify kw) PyNone)
            \/ is_other_zero (pop (kw_verify kw) PyNone))).
Proof.
  assert (Hoff : forall v, _ssl_for_verify v = SslFalse ->
                           is_verify_token v \/ is_other_zero v).
  { intros v. unfold _ssl_for_verify.
    destruct (py_in v verify_off_tokens) eqn:E; [|discriminate].
    intros _. apply py_in_verify_off_tokens, E. }
  split.
  - intros kw. cbn. intros [= H]. apply Hoff, H.
  - intros self method url kw c Hc.
    assert (Hkw : ec_kwargs c = engine_kwargs kw).
    { pose proof (request_events self method url kw) as Hall.
      assert (Hin : EvSend c ∈ snd (run_request self method url kw)).
      { revert Hc. generalize (snd (run_request self method url kw)).
        induction l as [|ev l IH]; cbn [sent_calls]; intros Hc.
        - apply elem_of_nil in Hc. destruct Hc.
        - destruct ev; try (apply list_elem_of_further, IH, Hc).
          apply elem_of_cons in Hc as [->|Hc];
            [apply list_elem_of_here|apply list_elem_of_further, IH, Hc]. }
      destruct (resolved_proxy self url kw) as [pu|e0].
      2:{ rewrite Hall in Hin. apply elem_of_nil in Hin. destruct Hin. }
      rewrite Forall_forall in Hall.
      specialize (Hall _ Hin). cbn in Hall.
      destruct Hall as [-> | (p & _ & ->)]; reflexivity. }
    rewrite Hkw, engine_kwargs_ssl. split; [reflexivity|].
    destruct (pop (kw_verify kw) PyNone) eqn:Hv; intros Hssl;
      try (injection Hssl as Hssl; apply Hoff, Hssl).
    destruct (kw_rest kw !! "ssl"); discriminate Hssl.
Qed.

(** *** Iterating the stream *)

Lemma concat_nonempty_chunks chunks :
  concat (nonempty_chunks chunks) = concat chunks.
Proof.
  induction chunks as [|chunk chunks IH]; [reflexivity|].
  destruct chunk; cbn [nonempty_chunks List.filter concat app]; [exact IH|].
  fold (nonempty_chunks chunks). rewrite IH. reflexivity.
Qed.

Lemma nonempty_chunks_Forall chunks :
  Forall (fun c => c <> []) (nonempty_chunks chunks).
Proof.
  induction chunks as [|chunk chunks IH]; [constructor|].
  destruct chunk; cbn [nonempty_chunks List.filter]; [exact IH|].
  constructor; [discriminate|exact IH].
Qed.

Lemma content_loop_all chunks :
  content_loop chunks None = (nonempty_chunks chunks, [], false).
Proof.
  induction chunks as [|chunk chunks IH]; [reflexivity|].
  destruct chunk; cbn [content_loop nonempty_chunks List.filter serve]; [exact IH|].
  fold (nonempty_chunks chunks). rewrite IH. reflexivity.
Qed.

Lemma content_loop_break chunks : forall n,
  n < length (nonempty_chunks chunks) ->
  exists rest,
    content_loop chunks (Some n)
    = (take (S n) (nonempty_chunks chunks), rest, true)
    /\ concat (take (S n) (nonempty_chunks chunks)) ++ concat rest
       = concat chunks.
Proof.
  induction chunks as [|chunk chunks IH]; intros n Hn.
  - simpl in Hn. lia.
  - destruct chunk as [|b chunk].
    + cbn [content_loop nonempty_chunks List.filter concat app] in *.
      apply IH, Hn.
    + cbn [nonempty_chunks List.filter length] in Hn.
      fold (nonempty_chunks chunks) in Hn.
      cbn [content_loop nonempty_chunks List.filter serve length].
      fold (nonempty_chunks chunks).
      destruct n as [|n].
      * exists chunks. cbn. rewrite app_nil_r. split; reflexivity.
      * cbn [Nat.ltb Nat.leb]. cbn [Nat.sub]. rewrite Nat.sub_0_r.
        destruct (IH n ltac:(lia)) as (rest & -> & Hc). exists rest.
        split; [reflexivity|]. cbn [take concat app].
        rewrite <- app_assoc. cbn [concat] in Hc. rewrite Hc. reflexivity.
Qed.

(** X8: run to its end on a response that carries [body], [aiter_content]
    yields chunks, none of them empty, whose concatenation is [body].  On an
    unread response they are the non-empty chunks of the stream and the
    response ends closed; on a materialized one nothing else happens. *)
Theorem aiter_content_yields_body :
  forall r tr size body,
    carries r body ->
    exists g s',
      aiter_content size None (mkSt r tr) = (Return g, s')
      /\ ended g = Exhausted
      /\ concat (yielded g) = body
      /\ Forall (fun c => c <> []) (yielded g)
      /\ match _body r with
         | None =>
             yielded g = nonempty_chunks (content (_response r))
             /\ _closed (obj s') = true
         | Some _ => s' = mkSt r tr
         end.
Proof.
  intros r tr size body [Hb | (Hb & Herr & Hc)].
  - unfold aiter_content. run_monad. rewrite Hb. cbn [fst snd obj log].
    destruct body; cbn [serve finish app]; do 2 eexists;
      (split; [reflexivity|]); cbn [yielded ended concat];
      split_and!; try reflexivity.
    + constructor.
    + apply app_nil_r.
    + constructor; [discriminate|constructor].
  - unfold aiter_content. run_monad. rewrite Hb.
    rewrite content_loop_all. cbn [fst snd obj log]. rewrite Herr.
    cbn [fst snd obj log]. rewrite close_eq. cbn [fst snd obj log].
    do 2 eexists. split; [reflexivity|]. cbn [yielded ended obj].
    split_and!.
    + reflexivity.
    + rewrite concat_nonempty_chunks. exact Hc.
    + apply nonempty_chunks_Forall.
    + reflexivity.
    + apply close_effect_closed.
Qed.

Lemma aclose_closes (s : St _AiohttpResponse) :
  _closed (obj (snd (aclose s))) = true
  /\ (_closed (obj s) = false ->
      releases (log (snd (aclose s))) = releases (log s) + 1).
Proof.
  unfold aclose. rewrite close_eq. cbn [snd obj log]. split.
  - apply close_effect_closed.
  - intros Hc. pose proof (close_effect_counts (obj s)) as Hn.
    rewrite Hc in Hn. unfold releases in *. rewrite count_events_app. lia.
Qed.

(** X9: a consumer that leaves [aiter_content] on the item [n + 1] of an
    unread response has received the first [n + 1] non-empty chunks, and the
    generator stays suspended: the response is as open or closed as before
    and no engine event has happened, so nothing is released.  What was
    yielded followed by what is left in the stream is the whole stream.
    Finalizing the generator then closes the response, releasing the handle
    if it was open.  A failure the stream would raise later is not met. *)
Theorem aiter_content_early_break :
  forall r tr size n,
    _body r = None ->
    n < length (nonempty_chunks (content (_response r))) ->
    exists rest,
      aiter_content size (Some n) (mkSt r tr)
      = (Return (mkGen (take (S n) (nonempty_chunks (content (_response r))))
                   Abandoned),
         mkSt (with_response (set_content rest) r) tr)
      /\ _closed (with_response (set_content rest) r) = _closed r
      /\ concat (take (S n) (nonempty_chunks (content (_response r))))
         ++ concat rest
         = concat (content (_response r))
      /\ _closed (obj (snd (aclose
                              (mkSt (with_response (set_content rest) r) tr))))
         = true
      /\ (_closed r = false ->
          releases (log (snd (aclose
                                (mkSt (with_response (set_content rest) r) tr))))
          = releases tr + 1).
Proof.
  intros r tr size n Hb Hn.
  destruct (content_loop_break _ n Hn) as (rest & Hloop & Hc).
  exists rest.
  destruct (aclose_closes (mkSt (with_response (set_content rest) r) tr))
    as [Hclosed Hrel].
  split_and!.
  - unfold aiter_content. run_monad. rewrite Hb, Hloop. reflexivity.
  - reflexivity.
  - exact Hc.
  - exact Hclosed.
  - exact Hrel.
Qed.

Lemma lines_loop_break chunks : forall buf n,
  PyBytes.split1 buf = None ->
  n < length (List.map decode_line (fst (drain_lines (buf ++ concat chunks)))) ->
  exists rest,
    lines_loop buf chunks (Some n)
    = (take (S n) (List.map decode_line (fst (drain_lines (buf ++ concat chunks)))),
       rest, None).
Proof.
  induction chunks as [|chunk chunks IH]; intros buf n Hbuf Hn.
  - cbn [concat] in Hn. rewrite app_nil_r, (drain_lines_none buf Hbuf) in Hn.
    simpl in Hn. lia.
  - cbn [lines_loop concat] in *. destruct chunk as [|b chunk].
    + cbn [app] in *. apply IH; assumption.
    + rewrite app_assoc in *. rewrite (drain_lines_app (buf ++ b :: chunk)) in *.
      destruct (drain_lines (buf ++ b :: chunk)) as [raws buf'] eqn:E.
      cbn [fst snd] in *. rewrite List.map_app in *. rewrite length_app in Hn.
      assert (Hrest : PyBytes.split1 buf' = None).
      { pose proof (drain_lines_rest (buf ++ b :: chunk)) as H.
        rewrite E in H. exact H. }
      unfold serve.
      destruct (n <? length (List.map decode_line raws))%nat eqn:Hlt.
      * apply Nat.ltb_lt in Hlt. exists chunks.
        rewrite take_app_le by lia. reflexivity.
      * apply Nat.ltb_ge in Hlt.
        destruct (IH buf' (n - length (List.map decode_line raws)) Hrest
                    ltac:(lia)) as (rest & ->).
        exists rest. rewrite take_app_ge by lia.
        replace (S n - length (List.map decode_line raws))
          with (S (n - length (List.map decode_line raws))) by lia.
        reflexivity.
Qed.

(** X10: a consumer that leaves [aiter_lines] on the item [n + 1] of an
    unread response, where the stream holds more than [n] complete lines,
    has received the first [n + 1] of them, which are the first [n + 1]
    lines of a full run.  The generator stays suspended: the response is as
    open or closed as before and no engine event has happened.  Finalizing
    the generator then closes the response, releasing the handle if it was
    open.  A failure the stream would raise later is not met. *)
Theorem aiter_lines_early_break :
  forall r tr n,
    _body r = None ->
    n < length (complete_lines (content (_response r))) ->
    exists rest,
      aiter_lines (Some n) (mkSt r tr)
      = (Return (mkGen (take (S n) (complete_lines (content (_response r))))
                   Abandoned),
         mkSt (with_response (set_content rest) r) tr)
      /\ _closed (with_response (set_content rest) r) = _closed r
      /\ take (S n) (complete_lines (content (_response r)))
         = take (S n) (stripped_lines (concat (content (_response r))))
      /\ _closed (obj (snd (aclose
                              (mkSt (with_response (set_content rest) r) tr))))
         = true
      /\ (_closed r = false ->
          releases (log (snd (aclose
                                (mkSt (with_response (set_content rest) r) tr))))
          = releases tr + 1).
Proof.
  intros r tr n Hb Hn. unfold complete_lines in *.
  destruct (lines_loop_break (content (_response r)) [] n eq_refl Hn)
    as (rest & Hloop).
  cbn [app] in Hloop. exists rest.
  destruct (aclose_closes (mkSt (with_response (set_content rest) r) tr))
    as [Hclosed Hrel].
  split_and!.
  - unfold aiter_lines. run_monad. rewrite Hb, Hloop. reflexivity.
  - reflexivity.
  - unfold stripped_lines. rewrite body_lines_drain, List.map_app.
    rewrite take_app_le by lia. reflexivity.
  - exact Hclosed.
  - exact Hrel.
Qed.

(** X11: run to its end on an unread response whose stream fails after its
    chunks, [aiter_lines] yields the complete lines, does not yield the
    partial line that follows the last LF, ends with the stream's exception,
    unchanged, and leaves the response closed. *)
Theorem aiter_lines_stream_failure :
  forall r tr e,
    _body r = None ->
    stream_error (_response r) = Some e ->
    exists s',
      aiter_lines None (mkSt r tr)
      = (Return (mkGen (complete_lines (content (_response r))) (Failed e)), s')
      /\ _closed (obj s') = true
      /\ stripped_lines (concat (content (_response r)))
         = complete_lines (content (_response r))
           ++ List.map decode_line
                (flush (snd (drain_lines (concat (content (_response r)))))).
Proof.
  intros r tr e Hb Herr. unfold aiter_lines. run_monad. rewrite Hb.
  rewrite (lines_loop_all (content (_response r)) [] eq_refl).
  cbn [app fst snd obj log]. rewrite Herr. cbn [fst snd obj log].
  rewrite close_eq. cbn [fst snd obj log].
  eexists. split; [reflexivity|]. cbn [obj]. split.
  - apply close_effect_closed.
  - unfold stripped_lines, complete_lines.
    rewrite body_lines_drain, List.map_app. reflexivity.
Qed.

(** *** Reading the body *)

Lemma reads_close_effect r : count_events is_read (snd (close_effect r)) = 0.
Proof.
  unfold close_effect. destruct (_closed r); [reflexivity|].
  destruct (_owned_session r) as [o|]; [|reflexivity].
  destruct (closed o); [reflexivity|].
  destruct (cs_close_error o); reflexivity.
Qed.

Lemma read_body_again s b s' :
  _read_body s = (Return b, s') -> _read_body s' = (Return b, s').
Proof.
  intros H. pose proof (read_body_materializes s b s' H) as Hb.
  destruct s' as [r' tr']. cbn [obj] in Hb.
  unfold _read_body. run_monad. rewrite Hb. reflexivity.
Qed.

(** X12: once [text()] has returned, calling it again returns the same text
    and changes nothing, with no engine event; the [content] property then
    holds the bytes that decode to that text.  On an unread response the
    first call reads the stream once, returns the decoded whole of it, and
    leaves the response closed. *)
Theorem text_reads_once :
  forall s t s',
    text_ s = (Return t, s') ->
    text_ s' = (Return t, s')
    /\ Utf8.decode (content_property (obj s')) = t
    /\ (_body (obj s) = None ->
        t = Utf8.decode (concat (content (_response (obj s))))
        /\ _closed (obj s') = true
        /\ reads (log s') = reads (log s) + 1).
Proof.
  intros s t s'. unfold text_, bind, ret.
  destruct (_read_body s) as [[b|e] s0] eqn:E; [|discriminate].
  intros [= <- <-]. split_and!.
  - rewrite (read_body_again s b s0 E). reflexivity.
  - pose proof (read_body_materializes s b s0 E) as Hb.
    unfold content_property. rewrite Hb. destruct b; reflexivity.
  - intros Hnone. revert E. destruct s as [r tr]. cbn [obj log] in *.
    unfold _read_body, read, cr_read. run_monad. rewrite Hnone.
    cbn [fst snd obj log].
    destruct (stream_error (_response r)); cbn [fst snd obj log]; [discriminate|].
    rewrite close_eq. cbn [fst snd obj log]. intros [= <- <-].
    cbn [obj log]. split_and!.
    + reflexivity.
    + apply close_effect_closed.
    + unfold reads. rewrite !count_events_app. cbn [count_events is_read].
      rewrite reads_close_effect. lia.
Qed.

(** X13: when the stream of an unread response fails, [text()] raises the
    stream's exception as it is; the response stays unread and keeps its
    closed flag, and neither [release()] nor a session [close()] has been
    called. *)
Theorem text_failure_leaves_unread :
  forall r tr e,
    _body r = None ->
    stream_error (_response r) = Some e ->
    text_ (mkSt r tr)
    = (Raise e, mkSt (with_response (set_content []) r) (tr ++ [EvRead]))
    /\ _body (with_response (set_content []) r) = None
    /\ _closed (with_response (set_content []) r) = _closed r
    /\ releases (tr ++ [EvRead]) = releases tr
    /\ session_closes (tr ++ [EvRead]) = session_closes tr.
Proof.
  intros r tr e Hb Herr. split_and!.
  - unfold text_, _read_body, read, cr_read. run_monad. rewrite Hb.
    cbn [fst snd obj log]. rewrite Herr. cbn [fst snd obj log].
    unfold with_response, set_content. rewrite Herr. reflexivity.
  - exact Hb.
  - reflexivity.
  - unfold releases. rewrite count_events_app. cbn. lia.
  - unfold session_closes. rewrite count_events_app. cbn. lia.
Qed.

(** X14: a materialized and closed response, as a buffered request returns
    it, is inert: [close()], the end of an [async with] block, [text()] and
    both iterators, run to the end or left early, leave its state and the
    engine untouched. *)
Theorem materialized_closed_inert :
  forall p s body,
    _body (obj s) = Some body ->
    _closed (obj s) = true ->
    leave p s = s.
Proof.
  intros p [r tr] body Hb Hc. cbn [obj] in *.
  assert (Hclose : close (mkSt r tr) = (Return tt, mkSt r tr)).
  { rewrite close_eq. cbn [obj log]. rewrite close_effect_noop by exact Hc.
    cbn [fst snd]. rewrite app_nil_r. reflexivity. }
  destruct p; cbn [leave].
  - rewrite Hclose. reflexivity.
  - unfold __aexit__. rewrite Hclose. reflexivity.
  - unfold text_, _read_body. run_monad. rewrite Hb. reflexivity.
  - unfold aiter_content. run_monad. rewrite Hb. reflexivity.
  - unfold aiter_lines. run_monad. rewrite Hb. reflexivity.
Qed.

(** *** Responses of the persistent session *)

Lemma closes_no_session_trans s1 s2 s3 :
  closes_no_session s1 s2 -> closes_no_session s2 s3 -> closes_no_session s1 s3.
Proof.
  intros H12 H23 H1. destruct (H12 H1) as [H2 E12].
  destruct (H23 H2) as [H3 E23]. split; [exact H3|congruence].
Qed.

Lemma closes_no_session_quiet (s : St _AiohttpResponse) r evs :
  _owned_session r = _owned_session (obj s) ->
  session_closes evs = 0 ->
  closes_no_session s (mkSt r (log s ++ evs)).
Proof.
  intros Ho Hevs H. cbn [obj log]. split; [congruence|].
  unfold session_closes in *. rewrite count_events_app. lia.
Qed.

Lemma closes_no_session_close s : closes_no_session s (snd (close s)).
Proof.
  intros H. rewrite close_eq. cbn [snd obj log].
  unfold close_effect. rewrite H.
  destruct (_closed (obj s)); cbn [fst snd].
  - rewrite app_nil_r. split; [exact H|reflexivity].
  - split; [exact H|]. unfold session_closes. rewrite count_events_app.
    cbn. lia.
Qed.

Lemma closes_no_session_then_close (s : St _AiohttpResponse) r evs :
  _owned_session r = _owned_session (obj s) ->
  session_closes evs = 0 ->
  closes_no_session s (snd (close (mkSt r (log s ++ evs)))).
Proof.
  intros Ho Hevs. eapply closes_no_session_trans.
  - apply (closes_no_session_quiet s r evs); assumption.
  - apply closes_no_session_close.
Qed.

Ltac close_keeps_sessions r tr evs :=
  match goal with
  | |- context [close ?st] =>
      let H := fresh "H" in
      pose proof (closes_no_session_then_close (mkSt r tr) (obj st) evs
                    eq_refl eq_refl) as H;
      cbn [obj log] in H; rewrite ?app_nil_r in H;
      destruct (close st) as [[?|?] ?]; exact H
  end.

Lemma leave_closes_no_session p s : closes_no_session s (leave p s).
Proof.
  destruct p; cbn [leave].
  - apply closes_no_session_close.
  - apply closes_no_session_close.
  - destruct s as [r tr]. unfold text_, _read_body, read, cr_read. run_monad.
    destruct (_body r) as [b|]; cbn [fst snd obj log].
    { intros H. split; [exact H|reflexivity]. }
    destruct (stream_error (_response r)) as [e|]; cbn [fst snd obj log].
    + apply (closes_no_session_quiet (mkSt r tr) _ [EvRead]); reflexivity.
    + match goal with
      | |- context [close ?st] =>
          pose proof (closes_no_session_then_close (mkSt r tr) (obj st) [EvRead]
                        eq_refl eq_refl) as H;
          cbn [obj log] in H; destruct (close st) as [[?|?] ?]; exact H
      end.
  - destruct s as [r tr]. unfold aiter_content. run_monad.
    destruct (_body r) as [b|]; cbn [fst snd obj log].
    { intros H. split; [exact H|reflexivity]. }
    destruct (content_loop (content (_response r)) demand) as [[ys rest] gone].
    cbn [fst snd obj log].
    destruct gone; cbn [fst snd obj log].
    { intros H. split; [exact H|reflexivity]. }
    destruct (stream_error (_response r)); cbn [fst snd obj log];
      close_keeps_sessions r tr (@nil event).
  - destruct s as [r tr]. unfold aiter_lines. run_monad.
    destruct (_body r) as [b|]; cbn [fst snd obj log].
    { intros H. split; [exact H|reflexivity]. }
    destruct (lines_loop [] (content (_response r)) demand) as [[ys rest] fin].
    cbn [fst snd obj log].
    destruct fin as [[buf d']|]; cbn [fst snd obj log].
    2:{ intros H. split; [exact H|reflexivity]. }
    destruct (stream_error (_response r)); cbn [fst snd obj log].
    { close_keeps_sessions r tr (@nil event). }
    destruct buf as [|b buf]; cbn [fst snd obj log].
    { close_keeps_sessions r tr (@nil event). }
    destruct (serve d' [decode_line (b :: buf)]) as [zs [d''|]];
      cbn [fst snd obj log].
    + close_keeps_sessions r tr (@nil event).
    + intros H. split; [exact H|reflexivity].
Qed.

Lemma request_effect_plain_owner self method url kw pu r tr :
  resolved_proxy self url kw = Return pu ->
  is_socks_url pu = false ->
  request_effect self method url kw = (Return r, tr) ->
  _owned_session r = None
  /\ session_closes tr = 0
  /\ count_events is_open_session tr = 0.
Proof.
  intros Hp Hs. rewrite (request_effect_plain _ _ _ _ _ Hp Hs).
  destruct (send (plain_call self method url kw pu)) as [cr|e]; [|discriminate].
  unfold settle_effect.
  destruct (truthy _); cbn [fst snd].
  - intros [= <- <-]. split_and!; reflexivity.
  - destruct (stream_error cr); cbn [fst snd]; [discriminate|].
    intros [= <- <-]. split_and!; reflexivity.
Qed.

(** X15: a response obtained through the persistent session owns no session,
    and however it is then left and however often (closed, read, iterated to
    the end or left early), no session is ever closed or opened: the
    persistent session stays as it is for the other requests. *)
Theorem response_never_closes_persistent_session :
  forall self method url kw proxy_url r tr paths,
    resolved_proxy self url kw = Return proxy_url ->
    is_socks_url proxy_url = false ->
    run_request self method url kw = (Return r, tr) ->
    _owned_session r = None
    /\ _owned_session (obj (foldl (fun s p => leave p s) (mkSt r tr) paths)) = None
    /\ session_closes (log (foldl (fun s p => leave p s) (mkSt r tr) paths)) = 0.
Proof.
  intros self method url kw proxy_url r tr paths Hp Hs Hrun.
  rewrite run_request_effect in Hrun.
  destruct (request_effect_plain_owner _ _ _ _ _ _ _ Hp Hs Hrun) as (Ho & Hc & _).
  split; [exact Ho|].
  assert (Hall : forall paths s,
             _owned_session (obj s) = None ->
             _owned_session (obj (foldl (fun s p => leave p s) s paths)) = None
             /\ session_closes (log (foldl (fun s p => leave p s) s paths))
                = session_closes (log s)).
  { clear. induction paths as [|p paths IH]; intros s Hs; cbn [foldl].
    - split; [exact Hs|reflexivity].
    - destruct (leave_closes_no_session p s Hs) as [H1 H2].
      destruct (IH (leave p s) H1) as [H3 H4]. split; [exact H3|congruence]. }
  destruct (Hall paths (mkSt r tr) Ho) as [H1 H2]. split; [exact H1|].
  rewrite H2. exact Hc.
Qed.

(** *** Resolving the proxy of a request *)

Lemma pick_proxy_result url (m : gmap string string) :
  m <> ∅ ->
  _pick_proxy url (Some m)
  = match urlparse_scheme url with
    | Return parsed => Return (first_nonempty m (url_scheme parsed))
    | Raise e => Raise e
    end.
Proof.
  intros Hm. destruct (urlparse_scheme url) as [parsed|e] eqn:Hparse.
  - apply pick_proxy_parsed, Hparse.
  - apply pick_proxy_rejected; assumption.
Qed.

Lemma first_nonempty_both scheme p (m : gmap string string) :
  dom m ⊆ proxy_schemes ->
  m !! "http" = Some p -> m !! "https" = Some p ->
  first_nonempty m scheme = Some p.
Proof.
  intros Hdom Hhttp Hhttps. unfold first_nonempty. rewrite Hhttp, Hhttps.
  destruct (is_proxy_scheme scheme) eqn:Hs.
  - unfold is_proxy_scheme in Hs. apply bool_decide_eq_true in Hs.
    destruct Hs as [-> | ->]; [rewrite Hhttp|rewrite Hhttps];
      destruct p; reflexivity.
  - rewrite (lookup_outside_schemes m _ Hdom Hs). destruct p; reflexivity.
Qed.

Lemma first_nonempty_usable scheme p (m : gmap string string) :
  p <> "" ->
  m !! "https" = Some p \/ m !! "http" = Some p ->
  exists q k, q <> "" /\ m !! k = Some q /\ first_nonempty m scheme = Some q.
Proof.
  intros Hp Hent. unfold first_nonempty.
  assert (Htail : exists q k,
             q <> "" /\ m !! k = Some q
             /\ match m !! "https" with
                | Some (String c r) => Some (String c r)
                | _ => m !! "http"
                end = Some q).
  { destruct Hent as [Hs | Hh].
    - exists p, "https". rewrite Hs. destruct p; [congruence|auto].
    - destruct (m !! "https") as [[|c r]|] eqn:Hs.
      + exists p, "http". auto.
      + exists (String c r), "https". split_and!; [discriminate|exact Hs|reflexivity].
      + exists p, "http". auto. }
  destruct (m !! scheme) as [[|c r]|] eqn:Hk; try exact Htail.
  exists (String c r), scheme. split_and!; [discriminate|exact Hk|reflexivity].
Qed.

(** X16: when the [http] or the [https] entry of a proxy map is a non-empty
    proxy, [_pick_proxy] resolves every URL that [urlparse] accepts,
    whatever its scheme, to a non-empty proxy, and that proxy is an entry of
    the map; for a URL that [urlparse] rejects it raises the error of
    [urlparse]. *)
Theorem pick_proxy_usable_map :
  forall url (m : gmap string string) p,
    p <> "" ->
    m !! "https" = Some p \/ m !! "http" = Some p ->
    match urlparse_scheme url with
    | Return _ =>
        exists q k,
          q <> "" /\ m !! k = Some q
          /\ _pick_proxy url (Some m) = Return (Some q)
    | Raise e => _pick_proxy url (Some m) = Raise e
    end.
Proof.
  intros url m p Hp Hent.
  assert (Hm : m <> ∅).
  { intros ->. rewrite !lookup_empty in Hent. destruct Hent; discriminate. }
  rewrite (pick_proxy_result url m Hm).
  destruct (urlparse_scheme url) as [parsed|e]; [|reflexivity].
  destruct (first_nonempty_usable (url_scheme parsed) p m Hp Hent)
    as (q & k & Hq & Hk & ->).
  exists q, k. split_and!; [exact Hq|exact Hk|reflexivity].
Qed.

(** X17: on a session built by [__init__], a truthy [proxy=] of the call is
    the proxy of the request for every URL that [urlparse] accepts, whatever
    its scheme and whatever the [proxies=] options say; when the call gives
    no proxy option, a truthy [proxy=] of the session is.  For a URL that
    [urlparse] rejects the resolution raises the error of [urlparse] in both
    cases.  When neither the session nor the call gives a proxy option the
    request has no proxy, and the URL is not parsed. *)
Theorem proxy_option_resolves_every_url :
  forall kw0 url kw,
    (truthy (pop (kw_proxy kw) PyNone) = true ->
     resolved_proxy (__init__ kw0) url kw
     = match urlparse_scheme url with
       | Return _ => Return (Some (py_str (pop (kw_proxy kw) PyNone)))
       | Raise e => Raise e
       end)
    /\ (truthy (pop (kw_proxy kw) PyNone) = false ->
        _normalize_proxies (pop (kw_proxies kw) (PyObj PyNone)) = None ->
        truthy (pop (kw_proxy kw0) PyNone) = true ->
        resolved_proxy (__init__ kw0) url kw
        = match urlparse_scheme url with
          | Return _ => Return (Some (py_str (pop (kw_proxy kw0) PyNone)))
          | Raise e => Raise e
          end)
    /\ (truthy (pop (kw_proxy kw) PyNone) = false ->
        _normalize_proxies (pop (kw_proxies kw) (PyObj PyNone)) = None ->
        truthy (pop (kw_proxy kw0) PyNone) = false ->
        _normalize_proxies (pop (kw_proxies kw0) (PyObj PyNone)) = None ->
        resolved_proxy (__init__ kw0) url kw = Return None).
Proof.
  intros kw0 url kw.
  assert (Hdom : dom (request_proxy_map (_default_proxies (__init__ kw0))
                        (pop (kw_proxy kw) PyNone)
                        (pop (kw_proxies kw) (PyObj PyNone))) ⊆ proxy_schemes)
    by apply request_proxy_map_dom, session_default_proxies_dom.
  assert (Hboth : forall p,
    request_proxy_map (_default_proxies (__init__ kw0))
      (pop (kw_proxy kw) PyNone) (pop (kw_proxies kw) (PyObj PyNone))
    !! "http" = Some p ->
    request_proxy_map (_default_proxies (__init__ kw0))
      (pop (kw_proxy kw) PyNone) (pop (kw_proxies kw) (PyObj PyNone))
    !! "https" = Some p ->
    resolved_proxy (__init__ kw0) url kw
    = match urlparse_scheme url with
      | Return _ => Return (Some p)
      | Raise e => Raise e
      end).
  { intros p Hhttp Hhttps. unfold resolved_proxy.
    rewrite pick_proxy_result.
    - destruct (urlparse_scheme url) as [parsed|e]; [|reflexivity].
      rewrite (first_nonempty_both _ p _ Hdom Hhttp Hhttps). reflexivity.
    - intros Hempty. rewrite Hempty, lookup_empty in Hhttp. discriminate Hhttp. }
  split_and!.
  - intros Ht. apply Hboth; rewrite request_proxy_map_lookup, Ht; reflexivity.
  - intros Ht Hn Ht0.
    apply Hboth;
      rewrite request_proxy_map_lookup, Ht, Hn; cbn [andb default];
      rewrite lookup_empty; cbn [__init__ _default_proxies];
      unfold init_default_proxies; rewrite Ht0; cbn [default from_option id].
    + rewrite lookup_insert_ne by discriminate. rewrite lookup_insert_eq.
      reflexivity.
    + rewrite lookup_insert_eq. reflexivity.
  - intros Ht Hn Ht0 Hn0. unfold resolved_proxy, request_proxy_map.
    rewrite Ht, Hn. cbn [__init__ _default_proxies].
    unfold init_default_proxies. rewrite Ht0, Hn0. reflexivity.
Qed.

(** X18: [request] uses its method only upper-cased: two spellings of a
    method that differ in case give the same request with the same outcome,
    and [get], [post] and [delete] are [request] with any spelling of their
    method. *)
Theorem method_case_insensitive :
  forall self m url kw s,
    (forall m', PyString.upper m' = PyString.upper m ->
                request self m' url kw s = request self m url kw s)
    /\ (PyString.upper m = "GET" -> request self m url kw s = get self url kw s)
    /\ (PyString.upper m = "POST" -> request self m url kw s = post self url kw s)
    /\ (PyString.upper m = "DELETE" ->
        request self m url kw s = delete_ self url kw s).
Proof.
  intros self m url kw [[] tr].
  assert (Heff : forall m1 m2, PyString.upper m1 = PyString.upper m2 ->
            request_effect self m1 url kw = request_effect self m2 url kw).
  { intros m1 m2 Hm. unfold request_effect, effect_from, plain_call, socks_call.
    rewrite Hm. reflexivity. }
  assert (Hreq : forall m1 m2, PyString.upper m1 = PyString.upper m2 ->
            request self m1 url kw (mkSt tt tr) = request self m2 url kw (mkSt tt tr)).
  { intros m1 m2 Hm. rewrite !request_eq, (Heff m1 m2 Hm). reflexivity. }
  split_and!.
  - intros m' Hm. apply Hreq, Hm.
  - intros Hm. unfold get. apply Hreq. rewrite Hm. reflexivity.
  - intros Hm. unfold post. apply Hreq. rewrite Hm. reflexivity.
  - intros Hm. unfold delete_. apply Hreq. rewrite Hm. reflexivity.
Qed.

(** *** Normalising a normalised map *)

Lemma kept_proxy_str_items k : forall l : list (string * string),
  NoDup (l.*1) ->
  (forall k' v, (k', v) ∈ l -> v <> "" /\ PyString.lower k' = k') ->
  kept_proxy k (str_items l) = (list_to_map l : gmap string string) !! k.
Proof.
  induction l as [|[k0 v0] l IH]; intros Hnd Hl; cbn [str_items List.map kept_proxy].
  - symmetry. apply lookup_empty.
  - cbn [fmap list_fmap fst] in Hnd. apply NoDup_cons in Hnd as [Hk0 Hnd].
    fold (str_items l). cbn [fst snd]. rewrite list_to_map_cons.
    rewrite IH; [|exact Hnd|intros k' v Hin; apply Hl, list_elem_of_further, Hin].
    destruct (Hl k0 v0 (list_elem_of_here _ _)) as [Hv0 Hlow].
    cbn [truthy py_str]. rewrite Hlow.
    destruct (decide (k0 = k)) as [->|Hne].
    + rewrite lookup_insert_eq.
      rewrite (not_elem_of_list_to_map_1 _ _ Hk0).
      rewrite bool_decide_true by reflexivity.
      destruct v0; [congruence|reflexivity].
    + rewrite lookup_insert_ne by exact Hne.
      destruct (list_to_map l !! k); [reflexivity|].
      rewrite bool_decide_false by exact Hne. rewrite andb_false_r. reflexivity.
Qed.

(** X19: [_normalize_proxies] is idempotent: given back a map it returned
    for proxies that are strings, booleans or [None], as a [dict] with the
    entries in any order, it returns that map again. *)
Theorem normalize_proxies_idempotent :
  forall value m (l : list (string * string)),
    textual_proxies value ->
    _normalize_proxies value = Some m ->
    NoDup (l.*1) ->
    list_to_map l = m ->
    _normalize_proxies (PyDict (str_items l)) = Some m.
Proof.
  intros value m l Hv Hm Hnd Hl.
  pose proof (normalize_proxies_no_empty value Hv) as Hne.
  rewrite Hm in Hne. cbn [from_option id] in Hne.
  pose proof (normalize_proxies_dom value m Hm) as Hdom.
  assert (Hnonempty : m <> ∅).
  { intros ->. eapply normalize_proxies_nonempty. exact Hm. }
  assert (Hent : forall k' v, (k', v) ∈ l -> v <> "" /\ PyString.lower k' = k').
  { intros k' v Hin.
    assert (Hk : m !! k' = Some v).
    { rewrite <- Hl. apply elem_of_list_to_map_1; assumption. }
    split; [apply (Hne k' v Hk)|].
    assert (Hs : k' ∈ proxy_schemes) by (apply Hdom, elem_of_dom; eauto).
    apply is_proxy_scheme_spec in Hs. unfold is_proxy_scheme in Hs.
    apply bool_decide_eq_true in Hs. destruct Hs as [-> | ->]; reflexivity. }
  assert (Hfold : foldl normalize_step ∅ (str_items l) = m).
  { apply map_eq. intros k.
    rewrite normalize_fold_lookup, lookup_empty.
    rewrite (kept_proxy_str_items k l Hnd Hent), Hl.
    destruct (m !! k) as [q|] eqn:Hk; [|reflexivity].
    assert (Hs : k ∈ proxy_schemes) by (apply Hdom, elem_of_dom; eauto).
    apply is_proxy_scheme_spec in Hs. rewrite Hs. reflexivity. }
  unfold _normalize_proxies.
  destruct l as [|kv l].
  { exfalso. apply Hnonempty. rewrite <- Hl. reflexivity. }
  cbn [py_truth str_items List.map negb]. fold (str_items l).
  change ((PyStr (fst kv), PyStr (snd kv)) :: str_items l)
    with (str_items (kv :: l)).
  rewrite Hfold. destruct (decide (m = ∅)); [contradiction|reflexivity].
Qed.

End Backend.

Arguments mkGen {A} yielded ended.
Arguments yielded {A} g.
Arguments ended {A} g.

(** ** Instances *)

Lemma normalize_proxies_correct_witness :
  _normalize_proxies (PyObj (PyStr "")) = None
  /\ _normalize_proxies (PyObj (PyStr "http://p:3128"))
     = Some (<["https" := "http://p:3128"]> (<["http" := "http://p:3128"]> ∅))
  /\ dom (<["https" := "http://p:3128"]> (<["http" := "http://p:3128"]> (∅ : gmap string string)))
     ⊆ proxy_schemes.
Proof.
  destruct (normalize_proxies_correct Z fixture_float fixture_certifi
              fixture_close_error) as (H1 & H2 & _ & _ & H5 & _).
  split_and!.
  - apply H1. reflexivity.
  - apply H2. discriminate.
  - apply (H5 (PyObj (PyStr "http://p:3128"))). apply H2. discriminate.
Defined.

Lemma request_proxy_map_correct_witness :
  request_proxy_map (_default_proxies Z (__init__ Z fixture_float fixture_certifi fixture_close_error no_kwargs)) (PyStr "http://p2:3128")
    (PyDict [(PyStr "https", PyStr "http://p1:3128")])
  = <["https" := "http://p2:3128"]> (<["http" := "http://p2:3128"]> ∅).
Proof.
  apply (proj2 (request_proxy_map_correct Z fixture_float fixture_certifi
                  fixture_close_error)).
  discriminate.
Defined.

Lemma pick_proxy_correct_witness :
  _pick_proxy fixture_urlparse "http://host" (Some {[ "https" := "http://p1:3128" ]})
  = Return (Some "http://p1:3128")
  /\ _pick_proxy fixture_urlparse "http://host"
       (Some (<["http" := "http://p1:3128"]> {[ "https" := "http://p2:3128" ]}))
     = Return (Some "http://p1:3128")
  /\ _pick_proxy fixture_urlparse "HTTPS://host"
       (Some (<["http" := "http://p1:3128"]> {[ "https" := "http://p2:3128" ]}))
     = Return (Some "http://p2:3128")
  /\ _pick_proxy fixture_urlparse "host/path"
       (Some (<["http" := "http://p1:3128"]> {[ "https" := "http://p2:3128" ]}))
     = Return (Some "http://p2:3128")
  /\ _pick_proxy fixture_urlparse "http://[::1" (Some {[ "https" := "http://p1:3128" ]})
     = Raise (Exc (OtherException "ValueError") "Invalid IPv6 URL").
Proof.
  split_and!.
  - destruct (pick_proxy_correct fixture_urlparse "http://host"
                {[ "https" := "http://p1:3128" ]}) as (_ & _ & _ & H).
    destruct (H "http" eq_refl) as (_ & _ & H3).
    apply H3; [discriminate|reflexivity].
  - destruct (pick_proxy_correct fixture_urlparse "http://host"
                (<["http" := "http://p1:3128"]> {[ "https" := "http://p2:3128" ]}))
      as (_ & _ & _ & H).
    destruct (H "http" eq_refl) as (H1 & _). rewrite H1. reflexivity.
  - destruct (pick_proxy_correct fixture_urlparse "HTTPS://host"
                (<["http" := "http://p1:3128"]> {[ "https" := "http://p2:3128" ]}))
      as (_ & _ & _ & H).
    destruct (H "https" eq_refl) as (H1 & _). rewrite H1. reflexivity.
  - destruct (pick_proxy_correct fixture_urlparse "host/path"
                (<["http" := "http://p1:3128"]> {[ "https" := "http://p2:3128" ]}))
      as (_ & _ & _ & H).
    destruct (H "" eq_refl) as (H1 & _). rewrite H1. reflexivity.
  - destruct (pick_proxy_correct fixture_urlparse "http://[::1"
                {[ "https" := "http://p1:3128" ]}) as (_ & _ & H & _).
    apply H; [|reflexivity].
    intros E. apply (f_equal (fun m : gmap string string => m !! "https")) in E.
    rewrite lookup_singleton_eq, lookup_empty in E. discriminate E.
Defined.

(** C8, as the specification words it, fails on a map with an empty entry:
    for [http://host] and the map [{http: "", https: P}] the entry of the
    scheme is the empty string, and the code returns [P]; and it fails on a
    URL that [urlparse] rejects, for which the code raises. *)
Lemma pick_proxy_not_as_specified :
  (fixture_urlparse "http://host" = Return "http"
   /\ first_present (<["http" := ""]> {[ "https" := "http://p:3128" ]})
        (url_scheme "http")
      = Some ""
   /\ _pick_proxy fixture_urlparse "http://host"
        (Some (<["http" := ""]> {[ "https" := "http://p:3128" ]}))
      = Return (Some "http://p:3128")
   /\ _pick_proxy fixture_urlparse "http://host"
        (Some (<["http" := ""]> {[ "https" := "http://p:3128" ]}))
      <> Return (first_present (<["http" := ""]> {[ "https" := "http://p:3128" ]})
                  (url_scheme "http")))
  /\ (fixture_urlparse "http://[::1" = Raise (Exc (OtherException "ValueError") "Invalid IPv6 URL")
      /\ _pick_proxy fixture_urlparse "http://[::1"
           (Some {[ "https" := "http://p:3128" ]})
         = Raise (Exc (OtherException "ValueError") "Invalid IPv6 URL")).
Proof.
  split_and!; try (vm_compute; reflexivity).
  vm_compute. intros H. discriminate H.
Qed.

Lemma ssl_for_verify_correct_witness :
  _ssl_for_verify fixture_certifi (PyStr "off") = SslFalse
  /\ _ssl_for_verify fixture_certifi (PyInt 0) = SslFalse
  /\ _ssl_for_verify fixture_certifi (PyNum (Some 0%Z) "-0.0") = SslFalse
  /\ _ssl_for_verify fixture_certifi (PyBool true)
     = SslContext (verified_context fixture_certifi)
  /\ _ssl_for_verify fixture_certifi (PyNum None "0.5")
     = SslContext (verified_context fixture_certifi).
Proof.
  split_and!.
  - apply (proj1 (ssl_for_verify_correct fixture_certifi (PyStr "off"))).
    left. do 6 right. reflexivity.
  - apply (proj1 (ssl_for_verify_correct fixture_certifi (PyInt 0))).
    left. right. left. reflexivity.
  - apply (proj1 (ssl_for_verify_correct fixture_certifi
                    (PyNum (Some 0%Z) "-0.0"))).
    right. exists "-0.0". reflexivity.
  - apply (proj2 (ssl_for_verify_correct fixture_certifi (PyBool true))).
    + intros H. repeat (destruct H as [H|H]; [discriminate H|]). discriminate H.
    + intros [text H]. discriminate H.
  - apply (proj2 (ssl_for_verify_correct fixture_certifi (PyNum None "0.5"))).
    + intros H. repeat (destruct H as [H|H]; [discriminate H|]). discriminate H.
    + intros [text H]. discriminate H.
Defined.

(** C6, as the specification words it, fails on [0.0]: it is none of the
    seven tokens, and the builder answers [False], not a context. *)
Lemma ssl_for_verify_not_as_specified :
  ~ is_verify_token (PyNum (Some 0%Z) "0.0")
  /\ _ssl_for_verify fixture_certifi (PyNum (Some 0%Z) "0.0") = SslFalse
  /\ _ssl_for_verify fixture_certifi (PyNum (Some 0%Z) "0.0")
     <> SslContext (verified_context fixture_certifi).
Proof.
  split_and!.
  - intros H. repeat (destruct H as [H|H]; [discriminate H|]). discriminate H.
  - reflexivity.
  - discriminate.
Qed.

Lemma json_correct_witness :
  json Z fixture_json_loads (unread Z [[x7b; x7d]]) = Raise body_not_available
  /\ json Z fixture_json_loads (materialized Z []) = Return (PyDict [])
  /\ json Z fixture_json_loads (materialized Z [x7b; x7d])
     = fixture_json_loads (Utf8.decode [x7b; x7d]).
Proof.
  destruct (json_correct Z fixture_json_loads) as (H1 & H2 & H3 & _).
  split_and!.
  - apply H1. reflexivity.
  - apply H2. reflexivity.
  - apply H3; [reflexivity|discriminate].
Defined.

Lemma socks_unavailable_before_dispatch_witness :
  run_request Z fixture_float fixture_certifi None (fixture_send Z) fixture_close_error fixture_urlparse
    (__init__ Z fixture_float fixture_certifi fixture_close_error no_kwargs) "get" "https://example.org/" socks_kwargs
  = (Raise socks_unavailable, []).
Proof.
  apply (socks_unavailable_before_dispatch Z fixture_float fixture_certifi None (fixture_send Z) fixture_close_error fixture_urlparse
           (__init__ Z fixture_float fixture_certifi fixture_close_error no_kwargs) "get"
           "https://example.org/" socks_kwargs "SOCKS5://127.0.0.1:1080").
  - reflexivity.
  - vm_compute. reflexivity.
  - vm_compute. reflexivity.
Defined.

Lemma engine_failure_unified_witness :
  fst (run_request Z fixture_float fixture_certifi None (fixture_send Z) fixture_close_error fixture_urlparse
         (__init__ Z fixture_float fixture_certifi fixture_close_error no_kwargs) "get" "http://unreachable.example/" no_kwargs)
  = Raise (ExcFrom RequestsError "Cannot connect to host unreachable.example:80"
             (Exc ClientError "Cannot connect to host unreachable.example:80"))
  /\ fst (run_request Z fixture_float fixture_certifi None (failing_send Z (Exc TimeoutError "timed out")) fixture_close_error fixture_urlparse
            (__init__ Z fixture_float fixture_certifi fixture_close_error no_kwargs) "get" "https://example.org/" no_kwargs)
     = Raise (ExcFrom RequestsError "timed out" (Exc TimeoutError "timed out"))
  /\ fst (run_request Z fixture_float fixture_certifi None (failing_send Z (Exc (OtherException "ValueError") "bad header")) fixture_close_error fixture_urlparse
            (__init__ Z fixture_float fixture_certifi fixture_close_error no_kwargs) "get" "https://example.org/" no_kwargs)
     = Raise (Exc (OtherException "ValueError") "bad header")
  /\ fst (run_request Z fixture_float fixture_certifi None (failing_send Z (Exc RequestsError "refused")) fixture_close_error fixture_urlparse
            (__init__ Z fixture_float fixture_certifi fixture_close_error no_kwargs) "get" "https://example.org/" no_kwargs)
     = Raise (Exc RequestsError "refused").
Proof.
  split_and!.
  - exact (engine_failure_unified Z fixture_float fixture_certifi None (fixture_send Z) fixture_close_error fixture_urlparse
             (__init__ Z fixture_float fixture_certifi fixture_close_error no_kwargs) "get" "http://unreachable.example/" no_kwargs None
             (Exc ClientError "Cannot connect to host unreachable.example:80")
             eq_refl eq_refl).
  - exact (engine_failure_unified
             Z fixture_float fixture_certifi None (failing_send Z (Exc TimeoutError "timed out")) fixture_close_error fixture_urlparse
             (__init__ Z fixture_float fixture_certifi fixture_close_error no_kwargs) "get" "https://example.org/" no_kwargs None
             (Exc TimeoutError "timed out") eq_refl eq_refl).
  - exact (engine_failure_unified
             Z fixture_float fixture_certifi None (failing_send Z (Exc (OtherException "ValueError") "bad header")) fixture_close_error fixture_urlparse
             (__init__ Z fixture_float fixture_certifi fixture_close_error no_kwargs) "get" "https://example.org/" no_kwargs None
             (Exc (OtherException "ValueError") "bad header") eq_refl eq_refl).
  - exact (engine_failure_unified
             Z fixture_float fixture_certifi None (failing_send Z (Exc RequestsError "refused")) fixture_close_error fixture_urlparse
             (__init__ Z fixture_float fixture_certifi fixture_close_error no_kwargs) "get" "https://example.org/" no_kwargs None
             (Exc RequestsError "refused") eq_refl eq_refl).
Defined.

Lemma unconvertible_timeout_is_absent_witness :
  _to_timeout Z fixture_float (PyStr "soon") = None
  /\ cs_timeout Z (_session Z (__init__ Z fixture_float fixture_certifi fixture_close_error (with_timeout (Some (PyStr "soon")) no_kwargs))) = None
  /\ request Z fixture_float fixture_certifi None (fixture_send Z) fixture_close_error fixture_urlparse
       (__init__ Z fixture_float fixture_certifi fixture_close_error no_kwargs) "get" "https://example.org/"
       (with_timeout (Some (PyStr "soon")) no_kwargs)
     = request Z fixture_float fixture_certifi None (fixture_send Z) fixture_close_error fixture_urlparse
         (__init__ Z fixture_float fixture_certifi fixture_close_error no_kwargs) "get" "https://example.org/"
         (with_timeout None no_kwargs).
Proof.
  destruct (unconvertible_timeout_is_absent Z fixture_float fixture_certifi None (fixture_send Z) fixture_close_error fixture_urlparse (PyStr "soon")
              (Exc (OtherException "ValueError")
                 "could not convert string to float") eq_refl)
    as (H1 & H2 & H3 & _).
  split_and!; [exact H1|apply (H2 no_kwargs)|apply H3].
Defined.

(** C10, as the specification words it, fails for a per-call value on a
    session that has a timeout: the request is sent without a timeout of its
    own on the persistent session, whose timeout of 5 seconds is in force. *)
Lemma unconvertible_timeout_not_as_specified :
  _to_timeout Z fixture_float (PyStr "soon") = None
  /\ exists c,
       sent_calls Z
         (snd (run_request Z fixture_float fixture_certifi None (fixture_send Z) fixture_close_error fixture_urlparse
                 (__init__ Z fixture_float fixture_certifi fixture_close_error (with_timeout (Some (PyInt 5)) no_kwargs))
                 "get" "https://example.org/"
                 (with_timeout (Some (PyStr "soon")) no_kwargs)))
       = [c]
       /\ ec_kwargs Z c !! "timeout" = None
       /\ cs_timeout Z (ec_session Z c) = Some (mkClientTimeout Z 5%Z).
Proof.
  split; [reflexivity|]. eexists. split; [vm_compute; reflexivity|].
  split; vm_compute; reflexivity.
Qed.



(** ** Worked requests *)

(** A buffered GET: the body is read, the handle is released once, and the
    response comes back materialized and closed. *)
Example buffered_get :
  match run_request Z fixture_float fixture_certifi None (fixture_send Z) fixture_close_error fixture_urlparse
          (__init__ Z fixture_float fixture_certifi fixture_close_error no_kwargs)
          "get" "https://example.org/" no_kwargs with
  | (Return r, tr) =>
      _body Z r = Some [x61; x0a; x62; x0a; x63]
      /\ _closed Z r = true /\ status_code Z r = 200%Z
      /\ List.map (is_release Z) tr = [false; false; true]
  | (Raise _, _) => False
  end.
Proof. vm_compute. split_and!; reflexivity. Qed.

(** A streamed GET through a SOCKS proxy, with the connector available: the
    response is unread and owns the temporary session; iterating its lines
    to the end yields them and releases the handle and the session once,
    after which [close()] does nothing more. *)
Example streamed_socks_get :
  match run_request Z fixture_float fixture_certifi (Some (fun _ : string => @None exc)) (fixture_send Z) fixture_close_error fixture_urlparse
          (__init__ Z fixture_float fixture_certifi fixture_close_error no_kwargs)
          "get" "https://example.org/"
          (with_stream (Some (PyBool true)) socks_kwargs) with
  | (Return r, tr) =>
      _body Z r = None /\ _closed Z r = false
      /\ (exists s, _owned_session Z r = Some s
                    /\ cs_connector Z s = SocksConnector "SOCKS5://127.0.0.1:1080")
      /\ releases Z tr = 0
      /\ match aiter_lines Z None (mkSt Z _ r tr) with
         | (Return g, s') =>
             yielded g = [[97]; [98]; [99]]%N
             /\ releases Z (log Z _ s') = 1
             /\ session_closes Z (log Z _ s') = 1
             /\ close Z s' = (Return tt, s')
         | (Raise _, _) => False
         end
  | (Raise _, _) => False
  end.
Proof.
  vm_compute. split_and!; try reflexivity.
  eexists. split; reflexivity.
Qed.

(** A GET to a URL that [urlparse] rejects, on a session with a proxy: the
    [ValueError] leaves [request] as it is and nothing reaches the engine;
    without any proxy option the URL is not parsed and the request is
    sent. *)
Example rejected_url :
  run_request Z fixture_float fixture_certifi None (fixture_send Z) fixture_close_error fixture_urlparse
    (__init__ Z fixture_float fixture_certifi fixture_close_error (with_proxy (Some (PyStr "http://p:3128")) no_kwargs))
    "get" "http://[::1" no_kwargs
  = (Raise (Exc (OtherException "ValueError") "Invalid IPv6 URL"), [])
  /\ length (sent_calls Z
               (snd (run_request Z fixture_float fixture_certifi None (fixture_send Z) fixture_close_error fixture_urlparse
                       (__init__ Z fixture_float fixture_certifi fixture_close_error no_kwargs) "get" "http://[::1" no_kwargs))) = 1.
Proof. split; vm_compute; reflexivity. Qed.

(** The two branches of [aiter_lines] on the same bytes [a CR b]: the
    buffered branch, through [str.splitlines], ends a line at the lone CR;
    the stream branch, which splits on LF, does not. *)
Example lone_cr_in_both_states :
  all_lines Z (fresh Z (materialized Z [x61; x0d; x62]))
  = Return (mkGen [[97]; [98]]%N Exhausted)
  /\ all_lines Z (fresh Z (unread Z [[x61; x0d; x62]]))
     = Return (mkGen [[97; 13; 98]]%N Exhausted).
Proof. split; vm_compute; reflexivity. Qed.

(** A proxy URL spelt with the KELVIN SIGN is a SOCKS URL, as its lower case
    starts with [socks]. *)
Example kelvin_socks_url :
  PyString.lower
    ("SOC" ++ String (ascii_of_N 226) (String (ascii_of_N 132)
                (String (ascii_of_N 170) "S5://127.0.0.1:1080")))
  = "socks5://127.0.0.1:1080"
  /\ PyString.lower "SOCKS5://127.0.0.1:1080" = "socks5://127.0.0.1:1080".
Proof. split; vm_compute; reflexivity. Qed.

(** ** Further instances *)

Lemma buffered_request_materialized_witness :
  exists r,
    fst (run_request Z fixture_float fixture_certifi None (fixture_send Z) fixture_close_error fixture_urlparse
      (__init__ Z fixture_float fixture_certifi fixture_close_error no_kwargs)
      "get" "https://example.org/" no_kwargs) = Return r
    /\ _body Z r = Some [x61; x0a; x62; x0a; x63]
    /\ _closed Z r = true.
Proof.
  destruct (buffered_request_materialized Z fixture_float fixture_certifi
              fixture_json_loads None (fixture_send Z) fixture_close_error
              fixture_urlparse
              (__init__ Z fixture_float fixture_certifi fixture_close_error no_kwargs)
              "get" "https://example.org/" no_kwargs None fixture_response
              eq_refl eq_refl eq_refl eq_refl eq_refl) as (r & H1 & H2 & H3 & _).
  exists r. split_and!; [exact (f_equal fst H1)|exact H2|exact H3].
Defined.

Lemma streamed_request_unread_witness :
  fst (run_request Z fixture_float fixture_certifi None (fixture_send Z) fixture_close_error fixture_urlparse
      (__init__ Z fixture_float fixture_certifi fixture_close_error no_kwargs)
      "get" "https://example.org/" (with_stream (Some (PyBool true)) no_kwargs))
  = Return (new_response Z fixture_response None None).
Proof.
  exact (f_equal fst
           (proj1 (streamed_request_unread Z fixture_float fixture_certifi None (fixture_send Z) fixture_close_error fixture_urlparse
                     (__init__ Z fixture_float fixture_certifi fixture_close_error no_kwargs)
                     "get" "https://example.org/"
                     (with_stream (Some (PyBool true)) no_kwargs) None
                     fixture_response eq_refl eq_refl eq_refl eq_refl))).
Defined.

Lemma socks_failed_send_closes_session_witness :
  List.map (is_session_close Z)
    (snd (run_request Z fixture_float fixture_certifi (Some (fun _ : string => @None exc)) (fixture_send Z) fixture_close_error fixture_urlparse
      (__init__ Z fixture_float fixture_certifi fixture_close_error no_kwargs)
      "get" "http://unreachable.example/" socks_kwargs))
  = [false; false; true].
Proof.
  rewrite (socks_failed_send_closes_session Z fixture_float fixture_certifi (Some (fun _ : string => @None exc)) (fixture_send Z) fixture_close_error fixture_urlparse
             (__init__ Z fixture_float fixture_certifi fixture_close_error no_kwargs)
             "get" "http://unreachable.example/" socks_kwargs
             "SOCKS5://127.0.0.1:1080" (fun _ => None)
             (Exc ClientError "Cannot connect to host unreachable.example:80")
             eq_refl eq_refl eq_refl eq_refl eq_refl).
  reflexivity.
Defined.

Lemma socks_response_owns_session_witness :
  fst (run_request Z fixture_float fixture_certifi (Some (fun _ : string => @None exc)) (fixture_send Z) fixture_close_error fixture_urlparse
      (__init__ Z fixture_float fixture_certifi fixture_close_error no_kwargs)
      "get" "https://example.org/" (with_stream (Some (PyBool true)) socks_kwargs))
  = Return (new_response Z fixture_response None
              (Some (socks_session Z fixture_float fixture_certifi
                       fixture_close_error
                       (with_stream (Some (PyBool true)) socks_kwargs) "SOCKS5://127.0.0.1:1080"))).
Proof.
  destruct (socks_response_owns_session Z fixture_float fixture_certifi (Some (fun _ : string => @None exc)) (fixture_send Z) fixture_close_error fixture_urlparse
              (__init__ Z fixture_float fixture_certifi fixture_close_error no_kwargs)
              "get" "https://example.org/"
              (with_stream (Some (PyBool true)) socks_kwargs)
              "SOCKS5://127.0.0.1:1080" (fun _ => None) fixture_response
              eq_refl eq_refl eq_refl eq_refl eq_refl) as [H _].
  exact (f_equal fst H).
Defined.

Lemma failed_read_releases_nothing_witness :
  run_request Z fixture_float fixture_certifi None (broken_send Z) fixture_close_error fixture_urlparse
      (__init__ Z fixture_float fixture_certifi fixture_close_error no_kwargs)
      "get" "https://example.org/" no_kwargs
  = (Raise (ExcFrom RequestsError "Response payload is not completed"
              payload_error),
     [EvSend Z (plain_call Z fixture_float fixture_certifi
                  (__init__ Z fixture_float fixture_certifi fixture_close_error no_kwargs)
                  "get" "https://example.org/" no_kwargs None);
      EvRead Z]).
Proof.
  exact (proj1 (failed_read_releases_nothing Z fixture_float fixture_certifi None (broken_send Z) fixture_close_error fixture_urlparse
                  (__init__ Z fixture_float fixture_certifi fixture_close_error no_kwargs)
                  "get" "https://example.org/" no_kwargs broken_response
                  payload_error eq_refl eq_refl) None eq_refl eq_refl eq_refl).
Defined.

Lemma one_request_per_call_witness :
  length (sent_calls Z
            (snd (run_request Z fixture_float fixture_certifi (Some (fun _ : string => @None exc)) (fixture_send Z) fixture_close_error fixture_urlparse
      (__init__ Z fixture_float fixture_certifi fixture_close_error no_kwargs)
      "get" "https://example.org/" socks_kwargs))) <= 1.
Proof.
  exact (proj1 (one_request_per_call Z fixture_float fixture_certifi (Some (fun _ : string => @None exc)) (fixture_send Z) fixture_close_error fixture_urlparse
                  (__init__ Z fixture_float fixture_certifi fixture_close_error no_kwargs)
                  "get" "https://example.org/" socks_kwargs)).
Defined.

Lemma verification_off_only_by_token_witness :
  (is_verify_token (PyStr "off") \/ is_other_zero (PyStr "off"))
  /\ ec_kwargs Z
       (plain_call Z fixture_float fixture_certifi (__init__ Z fixture_float fixture_certifi fixture_close_error no_kwargs)
          "get" "https://example.org/"
          (with_keyword "ssl" (PyBool false) no_kwargs) None)
     !! "ssl"
     = Some (ArgPy Z (PyBool false)).
Proof.
  destruct (verification_off_only_by_token Z fixture_float fixture_certifi None (fixture_send Z) fixture_close_error fixture_urlparse) as [H1 H2].
  split.
  - exact (H1 (with_verify (Some (PyStr "off")) no_kwargs) eq_refl).
  - refine (proj1 (H2 (__init__ Z fixture_float fixture_certifi fixture_close_error no_kwargs) "get" "https://example.org/"
                      (with_keyword "ssl" (PyBool false) no_kwargs) _ _)).
    vm_compute. apply list_elem_of_here.
Defined.

Lemma aiter_content_yields_body_witness :
  exists g s',
    aiter_content Z 65536 None (fresh Z (unread Z [[x61; x0a]; []; [x62]]))
    = (Return g, s')
    /\ concat (yielded g) = [x61; x0a; x62]
    /\ Forall (fun c => c <> []) (yielded g).
Proof.
  destruct (aiter_content_yields_body Z (unread Z [[x61; x0a]; []; [x62]]) []
              65536 [x61; x0a; x62]
              (or_intror (conj eq_refl (conj eq_refl eq_refl))))
    as (g & s' & H1 & _ & H3 & H4 & _).
  exists g, s'. split_and!; [exact H1|exact H3|exact H4].
Defined.

Lemma aiter_content_early_break_witness :
  exists rest,
    aiter_content Z 65536 (Some 0)
      (fresh Z (unread Z [[x61; x0a]; []; [x62]; [x63]]))
    = (Return (mkGen [[x61; x0a]] Abandoned),
       mkSt Z _ (with_response Z (set_content rest)
                   (unread Z [[x61; x0a]; []; [x62]; [x63]])) [])
    /\ [x61; x0a] ++ concat rest = [x61; x0a; x62; x63].
Proof.
  assert (Hn : 0 < length (nonempty_chunks
                             (content (_response Z
                                (unread Z [[x61; x0a]; []; [x62]; [x63]])))))
    by (cbn; lia).
  destruct (aiter_content_early_break Z
              (unread Z [[x61; x0a]; []; [x62]; [x63]]) [] 65536 0 eq_refl Hn)
    as (rest & H1 & _ & H3 & _).
  exists rest. split; [exact H1|exact H3].
Defined.

Lemma aiter_lines_early_break_witness :
  exists rest,
    aiter_lines Z (Some 0) (fresh Z (unread Z [[x61; x0a; x62]; [x0a; x63]]))
    = (Return (mkGen [[97]]%N Abandoned),
       mkSt Z _ (with_response Z (set_content rest)
                   (unread Z [[x61; x0a; x62]; [x0a; x63]])) []).
Proof.
  assert (Hn : 0 < length (complete_lines
                             (content (_response Z
                                (unread Z [[x61; x0a; x62]; [x0a; x63]])))))
    by (vm_compute; lia).
  destruct (aiter_lines_early_break Z
              (unread Z [[x61; x0a; x62]; [x0a; x63]]) [] 0 eq_refl Hn)
    as (rest & H1 & _).
  exists rest. unfold fresh. rewrite H1. reflexivity.
Defined.

Lemma aiter_lines_stream_failure_witness :
  exists s',
    aiter_lines Z None (fresh Z (interrupted Z))
    = (Return (mkGen [[97]]%N (Failed payload_error)), s')
    /\ _closed Z (obj Z _ s') = true.
Proof.
  destruct (aiter_lines_stream_failure Z (interrupted Z) [] payload_error
              eq_refl eq_refl) as (s' & H1 & H2 & _).
  exists s'. split; [|exact H2].
  unfold fresh. rewrite H1. reflexivity.
Defined.

Lemma text_reads_once_witness :
  text_ Z (snd (text_ Z (fresh Z (unread Z [[x61]; [x62]]))))
  = (Return [97; 98]%N, snd (text_ Z (fresh Z (unread Z [[x61]; [x62]])))).
Proof.
  apply (text_reads_once Z (fresh Z (unread Z [[x61]; [x62]])) [97; 98]%N
           (snd (text_ Z (fresh Z (unread Z [[x61]; [x62]]))))).
  vm_compute. reflexivity.
Defined.

Lemma text_failure_leaves_unread_witness :
  fst (text_ Z (fresh Z (interrupted Z))) = Raise payload_error
  /\ _body Z (obj Z _ (snd (text_ Z (fresh Z (interrupted Z))))) = None.
Proof.
  destruct (text_failure_leaves_unread Z (interrupted Z) [] payload_error
              eq_refl eq_refl) as (H1 & H2 & _).
  unfold fresh. rewrite H1. split; [reflexivity|exact H2].
Defined.

Lemma materialized_closed_inert_witness :
  leave Z (ByIterLines (Some 0)) (snd (close Z (fresh Z (materialized Z [x61; x0a]))))
  = snd (close Z (fresh Z (materialized Z [x61; x0a]))).
Proof.
  apply (materialized_closed_inert Z (ByIterLines (Some 0))
           (snd (close Z (fresh Z (materialized Z [x61; x0a])))) [x61; x0a]).
  - reflexivity.
  - reflexivity.
Defined.

Lemma response_never_closes_persistent_session_witness :
  session_closes Z
    (log Z _
       (foldl (fun s p => leave Z p s)
          (mkSt Z _ (new_response Z fixture_response None None)
             [EvSend Z (plain_call Z fixture_float fixture_certifi
                          (__init__ Z fixture_float fixture_certifi fixture_close_error no_kwargs)
                          "get" "https://example.org/"
                          (with_stream (Some (PyBool true)) no_kwargs) None)])
          [ByIterLines (Some 0); ByText; ByClose]))
  = 0.
Proof.
  apply (response_never_closes_persistent_session Z fixture_float fixture_certifi None (fixture_send Z) fixture_close_error fixture_urlparse
           (__init__ Z fixture_float fixture_certifi fixture_close_error no_kwargs)
           "get" "https://example.org/"
           (with_stream (Some (PyBool true)) no_kwargs) None).
  - reflexivity.
  - reflexivity.
  - vm_compute. reflexivity.
Defined.

Lemma pick_proxy_usable_map_witness :
  (exists q k : string,
      q <> ""
      /\ ({[ "http" := "http://p:3128" ]} : gmap string string) !! k = Some q
      /\ _pick_proxy fixture_urlparse "ftp://host/"
           (Some {[ "http" := "http://p:3128" ]}) = Return (Some q))
  /\ _pick_proxy fixture_urlparse "http://[::1"
       (Some {[ "http" := "http://p:3128" ]})
     = Raise (Exc (OtherException "ValueError") "Invalid IPv6 URL").
Proof.
  split.
  - apply (pick_proxy_usable_map fixture_urlparse "ftp://host/"
             {[ "http" := "http://p:3128" ]} "http://p:3128").
    + discriminate.
    + right. reflexivity.
  - apply (pick_proxy_usable_map fixture_urlparse "http://[::1"
             {[ "http" := "http://p:3128" ]} "http://p:3128").
    + discriminate.
    + right. reflexivity.
Defined.

Lemma proxy_option_resolves_every_url_witness :
  resolved_proxy Z fixture_urlparse
    (__init__ Z fixture_float fixture_certifi fixture_close_error (with_proxy (Some (PyStr "http://p1:3128")) no_kwargs))
    "ftp://host/" (with_proxy (Some (PyStr "http://p2:3128")) no_kwargs)
  = Return (Some "http://p2:3128")
  /\ resolved_proxy Z fixture_urlparse
       (__init__ Z fixture_float fixture_certifi fixture_close_error (with_proxy (Some (PyStr "http://p1:3128")) no_kwargs))
       "http://[::1" (with_proxy (Some (PyStr "http://p2:3128")) no_kwargs)
     = Raise (Exc (OtherException "ValueError") "Invalid IPv6 URL").
Proof.
  split.
  - exact (proj1 (proxy_option_resolves_every_url Z fixture_float fixture_certifi
                    fixture_close_error fixture_urlparse
                    (with_proxy (Some (PyStr "http://p1:3128")) no_kwargs)
                    "ftp://host/"
                    (with_proxy (Some (PyStr "http://p2:3128")) no_kwargs))
             eq_refl).
  - exact (proj1 (proxy_option_resolves_every_url Z fixture_float fixture_certifi
                    fixture_close_error fixture_urlparse
                    (with_proxy (Some (PyStr "http://p1:3128")) no_kwargs)
                    "http://[::1"
                    (with_proxy (Some (PyStr "http://p2:3128")) no_kwargs))
             eq_refl).
Defined.

Lemma method_case_insensitive_witness :
  request Z fixture_float fixture_certifi None (fixture_send Z) fixture_close_error fixture_urlparse
    (__init__ Z fixture_float fixture_certifi fixture_close_error no_kwargs)
    "get" "https://example.org/" no_kwargs (mkSt Z unit tt [])
  = get Z fixture_float fixture_certifi None (fixture_send Z) fixture_close_error fixture_urlparse
      (__init__ Z fixture_float fixture_certifi fixture_close_error no_kwargs)
      "https://example.org/" no_kwargs (mkSt Z unit tt []).
Proof.
  destruct (method_case_insensitive Z fixture_float fixture_certifi None (fixture_send Z) fixture_close_error fixture_urlparse
              (__init__ Z fixture_float fixture_certifi fixture_close_error no_kwargs)
              "get" "https://example.org/" no_kwargs (mkSt Z unit tt []))
    as (_ & H & _).
  apply H. reflexivity.
Defined.

Lemma normalize_proxies_idempotent_witness :
  _normalize_proxies
    (PyDict (str_items [("http", "http://p:3128"); ("https", "http://p:3128")]))
  = Some (<["https" := "http://p:3128"]> (<["http" := "http://p:3128"]> ∅)).
Proof.
  apply (normalize_proxies_idempotent (PyObj (PyStr "http://p:3128"))).
  - exact I.
  - reflexivity.
  - cbn. apply NoDup_cons. split; [|apply NoDup_singleton].
    intros H. apply list_elem_of_singleton in H. discriminate H.
  - vm_compute. reflexivity.
Defined.
